(** * Verification of the Ask Loop and the Edit Loop of the screenplay assistant

    Shallow embedding of [services/ask_loop.py] and [services/edit_loop.py]
    (server-python).  Python values handled by the loops (parsed model
    output, dicts, lists) are the inductive [pyval]; strings are ASCII
    strings; the todo status map is a [gmap string string]; every external
    call (language model, vector/keyword store) is an input of the run,
    given as a function of the loop state at the time of the call. *)

From stdpp Require Import base gmap strings list.
From Stdlib Require Import Ascii ZArith Lia.
From Stdlib Require String.

Set Warnings "-register-all".


(* ------------------------------------------------------------------ *)
(** ** Python string helpers *)

(** The double-quote character, and a text between double quotes. *)
Abbreviation DQ := (Ascii false true false false false true false false).
Definition dq : string := String.String DQ String.EmptyString.
Definition quoted (s : string) : string := dq +:+ s +:+ dq.

(** [str.isspace] restricted to ASCII: \t \n \v \f \r, \x1c-\x1f and space. *)
Definition is_space (c : ascii) : bool :=
  let n := nat_of_ascii c in
  ((9 <=? n) && (n <=? 13)) || ((28 <=? n) && (n <=? 32)).

Fixpoint lstrip (s : string) : string :=
  match s with
  | EmptyString => EmptyString
  | String c r => if is_space c then lstrip r else s
  end.

Fixpoint drop_spaces (l : list ascii) : list ascii :=
  match l with
  | [] => []
  | c :: r => if is_space c then drop_spaces r else l
  end.

Definition rstrip (s : string) : string :=
  String.string_of_list_ascii (rev (drop_spaces (rev (String.list_ascii_of_string s)))).

(** [s.strip()] *)
Definition py_strip (s : string) : string := rstrip (lstrip s).

(** Truthiness of a string: [bool(s)]. *)
Definition str_truthy (s : string) : bool := negb (String.eqb s "").

Definition lower_char (c : ascii) : ascii :=
  let n := nat_of_ascii c in
  if (65 <=? n) && (n <=? 90) then ascii_of_nat (n + 32) else c.

(** [s.lower()] *)
Definition py_lower (s : string) : string :=
  String.string_of_list_ascii (map lower_char (String.list_ascii_of_string s)).

(** [s.startswith(p)] *)
Definition py_startswith (p s : string) : bool := String.prefix p s.

(** [s.find(c)] and [s.rfind(c)] for a one-character needle; [None] is -1. *)
Fixpoint py_find_from (c : ascii) (s : string) (i : nat) : option nat :=
  match s with
  | EmptyString => None
  | String d r => if Ascii.eqb c d then Some i else py_find_from c r (S i)
  end.

Definition py_find (c : ascii) (s : string) : option nat := py_find_from c s 0.

Fixpoint py_rfind_from (c : ascii) (s : string) (i : nat) (last : option nat) : option nat :=
  match s with
  | EmptyString => last
  | String d r => py_rfind_from c r (S i) (if Ascii.eqb c d then Some i else last)
  end.

Definition py_rfind (c : ascii) (s : string) : option nat := py_rfind_from c s 0 None.

(** [str(n)] for an int. *)
Fixpoint digits_N (fuel : nat) (n : N) (acc : string) : string :=
  match fuel with
  | O => acc
  | S f =>
      let c := ascii_of_N (48 + N.modulo n 10) in
      if (n <? 10)%N then String c acc else digits_N f (n / 10)%N (String c acc)
  end.

Definition str_of_Z (z : Z) : string :=
  match z with
  | Z0 => "0"
  | Zpos p => digits_N (S (Pos.size_nat p)) (Npos p) ""
  | Zneg p => "-" +:+ digits_N (S (Pos.size_nat p)) (Npos p) ""
  end.

(** [_dedupe_preserve_order] (ask_loop.py): keep the first occurrence. *)
Fixpoint dedupe_go (seen : list string) (items : list string) : list string :=
  match items with
  | [] => []
  | x :: r =>
      if bool_decide (x ∈ seen) then dedupe_go seen r
      else x :: dedupe_go (x :: seen) r
  end.

Definition dedupe_preserve_order (items : list string) : list string := dedupe_go [] items.

(* ------------------------------------------------------------------ *)
(** ** Python values *)

(** The values the loops receive from the model layer: JSON values, plus
    [PObj repr], any other object (for example an agent result object),
    which is truthy and prints as [repr]. *)
Inductive pyval : Type :=
| PNone
| PBool (b : bool)
| PInt (z : Z)
| PStr (s : string)
| PList (l : list pyval)
| PDict (kvs : list (string * pyval))
| PObj (repr : string).

(** [bool(v)] *)
Definition py_truthy (v : pyval) : bool :=
  match v with
  | PNone => false
  | PBool b => b
  | PInt z => negb (Z.eqb z 0)
  | PStr s => str_truthy s
  | PList l => negb (bool_decide (l = []))
  | PDict kvs => negb (bool_decide (kvs = []))
  | PObj _ => true
  end.

Fixpoint join_with (sep : string) (l : list string) : string :=
  match l with
  | [] => ""
  | [x] => x
  | x :: r => x +:+ sep +:+ join_with sep r
  end.

(** [repr(v)] / [str(v)]; quotes inside strings are not escaped. *)
Fixpoint py_repr (v : pyval) : string :=
  match v with
  | PNone => "None"
  | PBool true => "True"
  | PBool false => "False"
  | PInt z => str_of_Z z
  | PStr s => "'" +:+ s +:+ "'"
  | PList l => "[" +:+ join_with ", " (map py_repr l) +:+ "]"
  | PDict kvs =>
      "{" +:+ join_with ", " (map (fun kv => "'" +:+ kv.1 +:+ "': " +:+ py_repr kv.2) kvs) +:+ "}"
  | PObj r => r
  end.

Definition py_str (v : pyval) : string :=
  match v with
  | PStr s => s
  | _ => py_repr v
  end.

(** [d.get(k)]: dict keys are unique (see [dict_set]). *)
Fixpoint dict_get (kvs : list (string * pyval)) (k : string) : option pyval :=
  match kvs with
  | [] => None
  | (k', v) :: r => if String.eqb k k' then Some v else dict_get r k
  end.

(** [d[k] = v]: an existing key keeps its position and takes the new value. *)
Fixpoint dict_set (kvs : list (string * pyval)) (k : string) (v : pyval) : list (string * pyval) :=
  match kvs with
  | [] => [(k, v)]
  | (k', v') :: r => if String.eqb k k' then (k', v) :: r else (k', v') :: dict_set r k v
  end.

Definition dict_get_default (kvs : list (string * pyval)) (k : string) (d : pyval) : pyval :=
  match dict_get kvs k with Some v => v | None => d end.

(* ------------------------------------------------------------------ *)
(** ** [json.loads] *)

(** The parsers below take [json.loads] as an argument ([loads], [None]
    when it raises).  [json_loads] is a concrete instance for the JSON
    subset of the concrete inputs of this file: whitespace, null, true,
    false, integers, strings (escaped quote, backslash, slash and the
    escapes b f n r t), arrays and objects (a repeated key keeps its last
    value).  It rejects what this subset leaves out (fractions, exponents,
    NaN, Infinity, u-escapes), which [json.loads] accepts. *)
Definition is_json_ws (c : ascii) : bool :=
  match c with
  | " "%char | "009"%char | "010"%char | "013"%char => true
  | _ => false
  end.

Fixpoint skip_ws (cs : list ascii) : list ascii :=
  match cs with
  | c :: r => if is_json_ws c then skip_ws r else cs
  | [] => []
  end.

Definition is_digit (c : ascii) : bool :=
  let n := nat_of_ascii c in (48 <=? n) && (n <=? 57).

Fixpoint take_digits (cs : list ascii) (acc : Z) : Z * list ascii :=
  match cs with
  | c :: r => if is_digit c then take_digits r (acc * 10 + Z.of_nat (nat_of_ascii c - 48))%Z else (acc, cs)
  | [] => (acc, [])
  end.

(** A number: an optional minus sign, then 0 or a digit string without a
    leading zero, not followed by a fraction or exponent. *)
Definition parse_int (cs : list ascii) : option (pyval * list ascii) :=
  let '(sign, cs1) := match cs with "-"%char :: r => ((-1)%Z, r) | _ => (1%Z, cs) end in
  let body :=
    match cs1 with
    | "0"%char :: r => Some (0%Z, r)
    | c :: _ => if is_digit c then Some (take_digits cs1 0) else None
    | [] => None
    end in
  match body with
  | Some (n, r) =>
      match r with
      | "."%char :: _ | "e"%char :: _ | "E"%char :: _ => None
      | _ => Some (PInt (sign * n), r)
      end
  | None => None
  end.

Fixpoint parse_str (cs : list ascii) (acc : list ascii) : option (string * list ascii) :=
  match cs with
  | [] => None
  | DQ :: r => Some (String.string_of_list_ascii (rev acc), r)
  | "\"%char :: e :: r =>
      match e with
      | DQ | "\"%char | "/"%char => parse_str r (e :: acc)
      | "b"%char => parse_str r ("008"%char :: acc)
      | "f"%char => parse_str r ("012"%char :: acc)
      | "n"%char => parse_str r ("010"%char :: acc)
      | "r"%char => parse_str r ("013"%char :: acc)
      | "t"%char => parse_str r ("009"%char :: acc)
      | _ => None
      end
  | c :: r => if nat_of_ascii c <? 32 then None else parse_str r (c :: acc)
  end.

Fixpoint parse_value (fuel : nat) (cs : list ascii) {struct fuel} : option (pyval * list ascii) :=
  match fuel with
  | O => None
  | S f =>
      match skip_ws cs with
      | "n"%char :: "u"%char :: "l"%char :: "l"%char :: r => Some (PNone, r)
      | "t"%char :: "r"%char :: "u"%char :: "e"%char :: r => Some (PBool true, r)
      | "f"%char :: "a"%char :: "l"%char :: "s"%char :: "e"%char :: r => Some (PBool false, r)
      | DQ :: r =>
          match parse_str r [] with Some (s, r') => Some (PStr s, r') | None => None end
      | "["%char :: r =>
          match skip_ws r with
          | "]"%char :: r' => Some (PList [], r')
          | _ =>
              (fix elems (g : nat) (acc : list pyval) (r : list ascii) : option (pyval * list ascii) :=
                 match g with
                 | O => None
                 | S g' =>
                     match parse_value f r with
                     | Some (v, r1) =>
                         match skip_ws r1 with
                         | ","%char :: r2 => elems g' (acc ++ [v]) r2
                         | "]"%char :: r2 => Some (PList (acc ++ [v]), r2)
                         | _ => None
                         end
                     | None => None
                     end
                 end) f [] r
          end
      | "{"%char :: r =>
          match skip_ws r with
          | "}"%char :: r' => Some (PDict [], r')
          | _ =>
              (fix members (g : nat) (acc : list (string * pyval)) (r : list ascii)
                 : option (pyval * list ascii) :=
                 match g with
                 | O => None
                 | S g' =>
                     match skip_ws r with
                     | DQ :: rk =>
                         match parse_str rk [] with
                         | Some (k, rk') =>
                             match skip_ws rk' with
                             | ":"%char :: rv =>
                                 match parse_value f rv with
                                 | Some (v, r1) =>
                                     match skip_ws r1 with
                                     | ","%char :: r2 => members g' (dict_set acc k v) r2
                                     | "}"%char :: r2 => Some (PDict (dict_set acc k v), r2)
                                     | _ => None
                                     end
                                 | None => None
                                 end
                             | _ => None
                             end
                         | None => None
                         end
                     | _ => None
                     end
                 end) f [] r
          end
      | cs' => parse_int cs'
      end
  end.

Definition json_loads (s : string) : option pyval :=
  let cs := String.list_ascii_of_string s in
  match parse_value (S (length cs)) cs with
  | Some (v, r) => match skip_ws r with [] => Some v | _ => None end
  | None => None
  end.

Example json_loads_obj :
  json_loads ("{" +:+ quoted "ok" +:+ ": false, " +:+ quoted "issues" +:+ ": [1, " +:+ quoted "a" +:+ "]}")
  = Some (PDict [("ok", PBool false); ("issues", PList [PInt 1; PStr "a"])]).
Proof. reflexivity. Qed.

Example json_loads_noise : json_loads "Sure: [1]" = None.
Proof. reflexivity. Qed.

(* ------------------------------------------------------------------ *)
(** ** Structured-output parsers *)

Section Parsers.
Context (loads : string -> option pyval).

(** [[str(x) for x in parsed if str(x).strip()]] *)
Definition str_items (l : list pyval) : list string :=
  map py_str (filter (fun x => str_truthy (py_strip (py_str x))) l).

(** [text[start : end + 1]] with [start = text.find(o)], [end = text.rfind(c)],
    when [start != -1 and end != -1 and end > start]. *)
Definition salvage_span (o c : ascii) (text : string) : option string :=
  match py_find o text, py_rfind c text with
  | Some st, Some en => if st <? en then Some (String.substring st (en - st + 1) text) else None
  | _, _ => None
  end.

(** [_safe_json_list] (ask_loop.py). *)
Definition ask_safe_json_list (text : string) : list string :=
  match loads text with
  | Some (PList l) => str_items l
  | _ =>
      match salvage_span "[" "]" text with
      | Some sub => match loads sub with Some (PList l) => str_items l | _ => [] end
      | None => []
      end
  end.

(** [_safe_json_dict] (ask_loop.py). *)
Definition ask_safe_json_dict (text : string) : list (string * pyval) :=
  match loads text with
  | Some (PDict d) => d
  | _ =>
      match salvage_span "{" "}" text with
      | Some sub => match loads sub with Some (PDict d) => d | _ => [] end
      | None => []
      end
  end.

(** [_safe_json_dict] (edit_loop.py; both of its definitions have this body). *)
Definition edit_safe_json_dict (text : string) : list (string * pyval) :=
  match loads text with
  | Some (PDict d) => d
  | _ => []
  end.

End Parsers.

(* ------------------------------------------------------------------ *)
(** ** Environment flags and search terms *)

(** [_env_flag(name, default)] (the same in both files); [getenv] is
    [os.getenv]. *)
Definition env_flag (getenv : string -> option string) (name : string) (default : bool) : bool :=
  match getenv name with
  | None => default
  | Some v => negb (bool_decide (py_lower (py_strip v) ∈ ["0"; "false"; "no"; "off"]))
  end.













Section Extract.
Context (loads : string -> option pyval).



End Extract.



(* ------------------------------------------------------------------ *)
(** ** Edit proposals and [_coerce_edit_response] (edit_loop.py) *)

(** An [EditProposal] of the canonical [EditResponse] shape. *)
Record edit : Type := mkEdit {
  elementId : string;
  elementType : string;
  originalContent : string;
  newContent : string;
  reason : option pyval;
  newElements : option pyval
}.

(** [e.get(k)] that is not [None]. *)
Definition get_not_none (kvs : list (string * pyval)) (k : string) : option pyval :=
  match dict_get kvs k with
  | Some PNone | None => None
  | Some v => Some v
  end.

Definition coerce_entry (e : list (string * pyval)) : edit :=
  {| elementId := py_str (dict_get_default e "elementId" (PStr ""));
     elementType := py_str (dict_get_default e "elementType" (PStr ""));
     originalContent := py_str (dict_get_default e "originalContent" (PStr ""));
     newContent := py_str (dict_get_default e "newContent" (PStr ""));
     reason := get_not_none e "reason";
     newElements := get_not_none e "newElements" |}.

Fixpoint coerce_entries (es : list pyval) : list edit :=
  match es with
  | [] => []
  | PDict e :: r => coerce_entry e :: coerce_entries r
  | _ :: r => coerce_entries r
  end.

(** The string branch re-enters the function on [json.loads(data)]; the text
    starts with an opening brace, so [json.loads] yields a dict (or raises)
    and one re-entry is all the recursion does.  [depth] counts re-entries. *)
Fixpoint coerce_edit_response_at (loads : string -> option pyval) (depth : nat) (data : pyval)
  : option (list edit) :=
  if negb (py_truthy data) then None
  else
    match data with
    | PDict kvs =>
        match dict_get kvs "edits" with
        | Some (PList es) => Some (coerce_entries es)
        | _ => None
        end
    | PStr s =>
        if py_startswith "{" (py_strip s) then
          match depth with
          | O => None
          | S d =>
              match loads s with
              | Some parsed => coerce_edit_response_at loads d parsed
              | None => None
              end
          end
        else None
    | _ => None
    end.

Definition coerce_edit_response (loads : string -> option pyval) (data : pyval) : option (list edit) :=
  coerce_edit_response_at loads 1 data.

(** [x or {"edits": []}] for an [Optional[EditResponse]] (a dict is truthy). *)
Definition or_empty_edits (r : option (list edit)) : list edit :=
  match r with Some es => es | None => [] end.

(* ------------------------------------------------------------------ *)
(** ** Events and todos (shared by both loops) *)

Record todo : Type := mkTodo { t_id : string; t_label : string; t_status : string }.

(** The events of the event channel.  [decision], [tool_call] and
    [tool_result] events are not modelled: no claim reads them and they
    carry no loop state. *)
Inductive event : Type :=
| EvStatus (message : string)
| EvPlanTodos (todos : list todo)
| EvTodoUpdate (id status : string) (label : option string)
| EvApplyStarted (elementIds : list string)
| EvApplyDone.

Definition todo_label_of (todos : option (list todo)) (todo_id : string) : option string :=
  match List.find (fun t => String.eqb (t_id t) todo_id) (default [] todos) with
  | Some t => Some (t_label t)
  | None => None
  end.

(** The body of the nested [todo_update] of both loops, on the todo list,
    the status map and the events emitted so far. *)
Definition todo_update_core (todos : option (list todo)) (ts : gmap string string)
    (evs : list event) (todo_id status : string) : gmap string string * list event :=
  let todo_id := py_strip todo_id in
  let status := py_strip status in
  if negb (str_truthy todo_id) || negb (str_truthy status) then (ts, evs)
  else if bool_decide (ts !! todo_id = Some status) then (ts, evs)
  else (<[todo_id := status]> ts, evs ++ [EvTodoUpdate todo_id status (todo_label_of todos todo_id)]).

(** [state.todo_status.get(tid) or str(t.get("status") or "pending")] *)
Definition current_status (ts : gmap string string) (t : todo) : string :=
  match ts !! py_strip (t_id t) with
  | Some v => if str_truthy v then v else if str_truthy (t_status t) then t_status t else "pending"
  | None => if str_truthy (t_status t) then t_status t else "pending"
  end.

Definition is_finished_status (s : string) : bool :=
  String.eqb s "done" || String.eqb s "skipped".

(** The loop of the nested [todo_finish_sweep] of both loops. *)
Fixpoint sweep_core (todos : option (list todo)) (l : list todo) (ts : gmap string string)
    (evs : list event) : gmap string string * list event :=
  match l with
  | [] => (ts, evs)
  | t :: r =>
      let tid := py_strip (t_id t) in
      if negb (str_truthy tid) then sweep_core todos r ts evs
      else if is_finished_status (current_status ts t) then sweep_core todos r ts evs
      else
        let '(ts', evs') := todo_update_core todos ts evs tid "skipped" in
        sweep_core todos r ts' evs'
  end.

(** [_normalize_plan_todos]: planner todos as [{id, label, status}], with a
    fallback list, deduplicated by id and cut to [cap] entries (10 in
    ask_loop.py, 12 in edit_loop.py). *)
Definition or_value (v : option pyval) (d : pyval) : pyval :=
  match v with Some x => if py_truthy x then x else d | None => d end.

Fixpoint raw_todos (items : list pyval) : list todo :=
  match items with
  | [] => []
  | PDict it :: r =>
      let tid := py_strip (py_str (or_value (dict_get it "id") (PStr ""))) in
      let label := py_strip (py_str (or_value (dict_get it "label") (PStr ""))) in
      if str_truthy tid && str_truthy label then mkTodo tid label "pending" :: raw_todos r
      else raw_todos r
  | _ :: r => raw_todos r
  end.

Fixpoint dedupe_todos (seen : list string) (l : list todo) : list todo :=
  match l with
  | [] => []
  | t :: r =>
      if negb (str_truthy (t_id t)) || bool_decide (t_id t ∈ seen) then dedupe_todos seen r
      else t :: dedupe_todos (t_id t :: seen) r
  end.

Definition normalize_plan_todos (cap : nat) (raw : option pyval) (fallback : list (string * string))
  : list todo :=
  let todos := match raw with Some (PList items) => raw_todos items | _ => [] end in
  let todos := match todos with
               | [] => map (fun x => mkTodo x.1 x.2 "pending") fallback
               | _ => todos
               end in
  firstn cap (dedupe_todos [] todos).

Definition nl : string := String (ascii_of_nat 10) EmptyString.

(** [s[:n]] *)
Definition str_prefix (n : nat) (s : string) : string := String.substring 0 n s.

(** [needle in hay] *)
Definition str_contains (needle hay : string) : bool :=
  match String.index 0 needle hay with Some _ => true | None => false end.

Definition nonempty {A} (l : list A) : bool := negb (bool_decide (l = [])).

Definition len_str {A} (l : list A) : string := str_of_Z (Z.of_nat (List.length l)).

(* ================================================================== *)
(** * The Edit Loop ([services/edit_loop.py]) *)

Module EditLoop.

(** [EditLoopBudgets] *)
Record budgets : Type := mkBudgets {
  max_iterations : Z;
  max_locate_attempts : Z;
  max_refine_attempts : Z;
  max_verify_attempts : Z
}.

Definition default_budgets : budgets := mkBudgets 20 3 2 2.

(** The caller-provided fields of [EditLoopState]; the loop never writes
    them.  ([message_history] and [context_policy] are only forwarded to
    the model calls and are left out.) *)
Record inputs : Type := mkInputs {
  user_prompt : string;
  scene_context : string;
  selected_element_id : option string;
  selected_text : option string;
  context_element_ids : list string
}.

(** [EditLoopState]; [EditResponse] values are lists of edits. *)
Record state : Type := mkState {
  inp : inputs;
  intent : option string;
  search_terms : list string;
  relevant_element_ids : list string;
  loaded_context : option string;
  understanding : option string;
  proposed_edits : option (list edit);
  applied_edits : option (list edit);
  verification_result : option string;
  verification_issues : list string;
  todos : option (list todo);
  todo_status : gmap string string;
  todos_emitted : bool;
  apply_started_emitted : bool;
  context_size : Z;
  iterations : Z;
  locate_attempts : Z;
  refine_attempts : Z;
  verify_attempts : Z
}.

(** A fresh state, as [EditLoopState(...)] builds it from the inputs. *)
Definition init_state (i : inputs) : state :=
  mkState i None [] [] None None None None None [] None ∅ false false 3 0 0 0 0.

(** Field assignments [state.f = v]. *)
Definition set_intent (v : option string) (s : state) : state :=
  mkState (inp s) v (search_terms s) (relevant_element_ids s) (loaded_context s) (understanding s)
    (proposed_edits s) (applied_edits s) (verification_result s) (verification_issues s) (todos s)
    (todo_status s) (todos_emitted s) (apply_started_emitted s) (context_size s) (iterations s)
    (locate_attempts s) (refine_attempts s) (verify_attempts s).

Definition set_search_terms (v : list string) (s : state) : state :=
  mkState (inp s) (intent s) v (relevant_element_ids s) (loaded_context s) (understanding s)
    (proposed_edits s) (applied_edits s) (verification_result s) (verification_issues s) (todos s)
    (todo_status s) (todos_emitted s) (apply_started_emitted s) (context_size s) (iterations s)
    (locate_attempts s) (refine_attempts s) (verify_attempts s).

Definition set_relevant_element_ids (v : list string) (s : state) : state :=
  mkState (inp s) (intent s) (search_terms s) v (loaded_context s) (understanding s)
    (proposed_edits s) (applied_edits s) (verification_result s) (verification_issues s) (todos s)
    (todo_status s) (todos_emitted s) (apply_started_emitted s) (context_size s) (iterations s)
    (locate_attempts s) (refine_attempts s) (verify_attempts s).

Definition set_loaded_context (v : option string) (s : state) : state :=
  mkState (inp s) (intent s) (search_terms s) (relevant_element_ids s) v (understanding s)
    (proposed_edits s) (applied_edits s) (verification_result s) (verification_issues s) (todos s)
    (todo_status s) (todos_emitted s) (apply_started_emitted s) (context_size s) (iterations s)
    (locate_attempts s) (refine_attempts s) (verify_attempts s).

Definition set_understanding (v : option string) (s : state) : state :=
  mkState (inp s) (intent s) (search_terms s) (relevant_element_ids s) (loaded_context s) v
    (proposed_edits s) (applied_edits s) (verification_result s) (verification_issues s) (todos s)
    (todo_status s) (todos_emitted s) (apply_started_emitted s) (context_size s) (iterations s)
    (locate_attempts s) (refine_attempts s) (verify_attempts s).

Definition set_proposed_edits (v : option (list edit)) (s : state) : state :=
  mkState (inp s) (intent s) (search_terms s) (relevant_element_ids s) (loaded_context s)
    (understanding s) v (applied_edits s) (verification_result s) (verification_issues s) (todos s)
    (todo_status s) (todos_emitted s) (apply_started_emitted s) (context_size s) (iterations s)
    (locate_attempts s) (refine_attempts s) (verify_attempts s).

Definition set_applied_edits (v : option (list edit)) (s : state) : state :=
  mkState (inp s) (intent s) (search_terms s) (relevant_element_ids s) (loaded_context s)
    (understanding s) (proposed_edits s) v (verification_result s) (verification_issues s) (todos s)
    (todo_status s) (todos_emitted s) (apply_started_emitted s) (context_size s) (iterations s)
    (locate_attempts s) (refine_attempts s) (verify_attempts s).

Definition set_verification_result (v : option string) (s : state) : state :=
  mkState (inp s) (intent s) (search_terms s) (relevant_element_ids s) (loaded_context s)
    (understanding s) (proposed_edits s) (applied_edits s) v (verification_issues s) (todos s)
    (todo_status s) (todos_emitted s) (apply_started_emitted s) (context_size s) (iterations s)
    (locate_attempts s) (refine_attempts s) (verify_attempts s).

Definition set_verification_issues (v : list string) (s : state) : state :=
  mkState (inp s) (intent s) (search_terms s) (relevant_element_ids s) (loaded_context s)
    (understanding s) (proposed_edits s) (applied_edits s) (verification_result s) v (todos s)
    (todo_status s) (todos_emitted s) (apply_started_emitted s) (context_size s) (iterations s)
    (locate_attempts s) (refine_attempts s) (verify_attempts s).

(** [state.todos = ...; state.todos_emitted = True] *)
Definition set_todos_emitted (v : list todo) (s : state) : state :=
  mkState (inp s) (intent s) (search_terms s) (relevant_element_ids s) (loaded_context s)
    (understanding s) (proposed_edits s) (applied_edits s) (verification_result s)
    (verification_issues s) (Some v) (todo_status s) true (apply_started_emitted s)
    (context_size s) (iterations s) (locate_attempts s) (refine_attempts s) (verify_attempts s).

Definition set_todo_status (v : gmap string string) (s : state) : state :=
  mkState (inp s) (intent s) (search_terms s) (relevant_element_ids s) (loaded_context s)
    (understanding s) (proposed_edits s) (applied_edits s) (verification_result s)
    (verification_issues s) (todos s) v (todos_emitted s) (apply_started_emitted s)
    (context_size s) (iterations s) (locate_attempts s) (refine_attempts s) (verify_attempts s).

Definition set_apply_started_emitted (s : state) : state :=
  mkState (inp s) (intent s) (search_terms s) (relevant_element_ids s) (loaded_context s)
    (understanding s) (proposed_edits s) (applied_edits s) (verification_result s)
    (verification_issues s) (todos s) (todo_status s) (todos_emitted s) true
    (context_size s) (iterations s) (locate_attempts s) (refine_attempts s) (verify_attempts s).

Definition set_context_size (v : Z) (s : state) : state :=
  mkState (inp s) (intent s) (search_terms s) (relevant_element_ids s) (loaded_context s)
    (understanding s) (proposed_edits s) (applied_edits s) (verification_result s)
    (verification_issues s) (todos s) (todo_status s) (todos_emitted s) (apply_started_emitted s)
    v (iterations s) (locate_attempts s) (refine_attempts s) (verify_attempts s).

Definition set_iterations (v : Z) (s : state) : state :=
  mkState (inp s) (intent s) (search_terms s) (relevant_element_ids s) (loaded_context s)
    (understanding s) (proposed_edits s) (applied_edits s) (verification_result s)
    (verification_issues s) (todos s) (todo_status s) (todos_emitted s) (apply_started_emitted s)
    (context_size s) v (locate_attempts s) (refine_attempts s) (verify_attempts s).

Definition set_locate_attempts (v : Z) (s : state) : state :=
  mkState (inp s) (intent s) (search_terms s) (relevant_element_ids s) (loaded_context s)
    (understanding s) (proposed_edits s) (applied_edits s) (verification_result s)
    (verification_issues s) (todos s) (todo_status s) (todos_emitted s) (apply_started_emitted s)
    (context_size s) (iterations s) v (refine_attempts s) (verify_attempts s).

Definition set_refine_attempts (v : Z) (s : state) : state :=
  mkState (inp s) (intent s) (search_terms s) (relevant_element_ids s) (loaded_context s)
    (understanding s) (proposed_edits s) (applied_edits s) (verification_result s)
    (verification_issues s) (todos s) (todo_status s) (todos_emitted s) (apply_started_emitted s)
    (context_size s) (iterations s) (locate_attempts s) v (verify_attempts s).

Definition set_verify_attempts (v : Z) (s : state) : state :=
  mkState (inp s) (intent s) (search_terms s) (relevant_element_ids s) (loaded_context s)
    (understanding s) (proposed_edits s) (applied_edits s) (verification_result s)
    (verification_issues s) (todos s) (todo_status s) (todos_emitted s) (apply_started_emitted s)
    (context_size s) (iterations s) (locate_attempts s) (refine_attempts s) v.

(** The external collaborators of a run.  Each model or store call is a
    function of the loop state at the moment of the call; its result is
    what the loop reads back after the normalisation the code applies
    ([get_result_output], [UUID_RE.findall], [result.data]). *)
Record env : Type := mkEnv {
  (* [deps.project_id and deps.db_pool] *)
  has_db : bool;
  (* [deps.scene_context], the bounded context window *)
  deps_scene_context : string;
  (* [EDIT_VERIFY_RECOVER] *)
  verify_recover_enabled : bool;
  (* [hasattr(llm_service, "edit_verify_structured_agent")] *)
  has_verify_structured_agent : bool;
  (* [hasattr(llm_service, "edit_revise_edits_agent")] *)
  has_revise_edits_agent : bool;
  (* [plan_intent_agent]: [(plan_obj, raw_out)] *)
  plan_intent : state -> list (string * pyval) * string;
  (* [_extract_search_terms] of [extract_search_terms_agent] *)
  extract_search_terms : state -> list string;
  (* [vector_search_elements(..., top_k)] *)
  vector_search_elements : state -> Z -> list string;
  (* [_query_elements_by_search] *)
  query_elements_by_search : state -> list string;
  (* [UUID_RE.findall] of [locate_scenes_agent]'s output *)
  locate_fallback_ids : state -> list string;
  (* [_extract_element_context(ids, context_size)], the context text *)
  extract_element_context : state -> list string -> Z -> string;
  (* [load_context_agent], [synthesize_agent] *)
  load_context_text : state -> string;
  synthesize_text : state -> string;
  (* the value handed to [_coerce_edit_response] by PROPOSE, REFINE, revise *)
  propose_edits_data : state -> pyval;
  refine_edits_data : state -> pyval;
  revise_edits_data : state -> pyval;
  (* [_verify_element_ids] *)
  verify_element_ids : state -> list string -> list (string * bool);
  (* [_safe_json_dict] of [edit_verify_structured_agent]'s output *)
  verify_structured_obj : state -> list (string * pyval);
  (* [verify_agent]'s freeform output *)
  verify_freeform_text : state -> string;
  (* [json.loads], used by [_coerce_edit_response] *)
  env_loads : string -> option pyval;
  (* [getattr(deps, "global_index", None)] is set *)
  has_global_index : bool
}.

(** A run's world: the loop state and the events emitted so far. *)
Abbreviation world := (state * list event)%type.

Definition emit (ev : event) (w : world) : world := (w.1, w.2 ++ [ev]).

Definition upd (f : state -> state) (w : world) : world := (f w.1, w.2).

(** The nested [todo_update]. *)
Definition todo_update (todo_id status : string) (w : world) : world :=
  let '(ts, evs) := todo_update_core (todos w.1) (todo_status w.1) w.2 todo_id status in
  (set_todo_status ts w.1, evs).

(** The nested [todo_finish_sweep]. *)
Definition todo_finish_sweep (w : world) : world :=
  let '(ts, evs) := sweep_core (todos w.1) (default [] (todos w.1)) (todo_status w.1) w.2 in
  (set_todo_status ts w.1, evs).

(** How one pass of the loop body ends: [continue] or [return]. *)
Inductive outcome : Type :=
| Continue
| Return (r : list edit).

Definition plan_fallback : list (string * string) :=
  [("plan_intent", "Understand edit intent"); ("clarify", "Ask clarifying questions");
   ("locate", "Locate relevant elements"); ("load_context", "Load relevant context");
   ("propose", "Propose edits"); ("refine", "Refine edits"); ("verify", "Verify constraints")].

(** [[str(x).strip() for x in qs if str(x).strip()]] *)
Definition stripped_items (l : list pyval) : list string :=
  map (fun x => py_strip (py_str x)) (filter (fun x => str_truthy (py_strip (py_str x))) l).

(** The relocate recovery (the [suggested_recovery == "relocate"] branch). *)
Definition relocate_recovery (s : state) : state :=
  set_context_size (Z.min (context_size s + 2) 8)
    (set_applied_edits None (set_proposed_edits None (set_understanding None
      (set_loaded_context None (set_relevant_element_ids [] s))))).

(** The reload_context recovery. *)
Definition reload_context_recovery (s : state) : state :=
  set_context_size (Z.min (context_size s + 2) 8)
    (set_applied_edits None (set_proposed_edits None (set_understanding None
      (set_loaded_context None s)))).

(** [_looks_like_verify_failure] *)
Definition looks_like_verify_failure (text : string) : bool :=
  let t := py_lower text in
  existsb (fun n => str_contains n t)
    ["issues found"; "invalid element id"; "invalid element ids"; "cannot verify";
     "missing required"; "not found in screenplay"].

(** The lightweight checks of VERIFY. *)
Definition lightweight_issues (applied : list edit) : list string :=
  flat_map (fun ed =>
    (if negb (str_truthy (elementId ed)) then ["Edit is missing elementId"] else [])
    ++ (if String.eqb (newContent ed) "" then
          ["Edit for " +:+ elementId ed +:+ " has empty newContent"] else [])) applied.

Definition allowed_ids (s : state) : list string :=
  filter str_truthy (context_element_ids (inp s)) ++ filter str_truthy (relevant_element_ids s).

Definition grounding_issues (allowed : list string) (applied : list edit) : list string :=
  if nonempty allowed then
    flat_map (fun ed =>
      if str_truthy (elementId ed) && negb (bool_decide (elementId ed ∈ allowed))
      then ["Edit elementId not in context: " +:+ elementId ed] else []) applied
  else [].

Definition structured_issues (obj : list (string * pyval)) : list string :=
  match dict_get obj "issues" with
  | Some (PList its) =>
      flat_map (fun it =>
        match it with
        | PDict d =>
            [py_str (dict_get_default d "severity" (PStr "error")) +:+ ":" +:+
             py_str (dict_get_default d "code" (PStr "VERIFY_ISSUE")) +:+ ":" +:+
             py_str (dict_get_default d "message" (PStr ""))]
        | _ => []
        end) (firstn 12 its)
  | _ => []
  end.

Definition add_issues (l : list string) (w : world) : world :=
  upd (fun s => set_verification_issues (verification_issues s ++ l) s) w.

Section Run.
Context (e : env) (b : budgets).

(** ROUTE (plan_intent), taken while [state.intent is None]. *)
Definition route (w : world) : outcome * world :=
  let '(plan_obj, raw_out) := plan_intent e w.1 in
  let intent_text :=
    match dict_get plan_obj "intent" with
    | Some v => if py_truthy v then py_str v else raw_out
    | None => raw_out
    end in
  let w := upd (set_intent (Some intent_text)) w in
  let w :=
    if todos_emitted w.1 then w
    else
      let ts := normalize_plan_todos 12 (dict_get plan_obj "todos") plan_fallback in
      let w := upd (set_todos_emitted ts) w in
      let w := emit (EvPlanTodos ts) w in
      todo_update "plan_intent" "done" w in
  let next_action :=
    py_lower (py_strip (py_str (or_value (dict_get plan_obj "next_action") (PStr "proceed")))) in
  if String.eqb next_action "clarify" then
    let w := todo_update "clarify" "in_progress" w in
    let questions :=
      match dict_get plan_obj "clarifying_questions" with
      | Some (PList qs) => stripped_items qs
      | _ => []
      end in
    let questions :=
      match questions with
      | [] => ["Which scene/line should I edit, and what tone/intent should the rewrite have?"]
      | _ => questions
      end in
    let w := emit (EvStatus ("I need a bit more info before editing:" +:+ nl +:+ "- "
                             +:+ join_with (nl +:+ "- ") (firstn 3 questions))) w in
    let w := todo_update "clarify" "done" w in
    let w := todo_finish_sweep w in
    (Return [], w)
  else
    (Continue, emit (EvStatus ("[Planning] " +:+ str_prefix 120 intent_text +:+ "...")) w).

(** LOCATE, taken while no element is located and attempts remain. *)
Definition locate (w : world) : outcome * world :=
  let w := upd (fun s => set_locate_attempts (locate_attempts s + 1) s) w in
  let broaden := (1 <? locate_attempts w.1)%Z in
  let w := todo_update "locate" "in_progress" w in
  let w := upd (set_search_terms (extract_search_terms e w.1)) w in
  let element_ids :=
    if has_db e && nonempty (search_terms w.1) then
      let ids := vector_search_elements e w.1 (if broaden then 25 else 12) in
      if nonempty ids then ids else query_elements_by_search e w.1
    else [] in
  if nonempty element_ids then
    let w := upd (set_relevant_element_ids element_ids) w in
    let w := emit (EvStatus ("[Locating] Found " +:+ len_str element_ids
                             +:+ " relevant elements via retrieval")) w in
    (Continue, todo_update "locate" "done" w)
  else if str_truthy (deps_scene_context e) then
    let w := emit (EvStatus "[Locating] No database matches, using LLM fallback in current context window") w in
    let ids := locate_fallback_ids e w.1 in
    let ids :=
      if negb (nonempty ids) && nonempty (context_element_ids (inp w.1))
      then firstn 20 (context_element_ids (inp w.1)) else ids in
    let w := upd (set_relevant_element_ids ids) w in
    let w := emit (EvStatus ("[Locating] Found " +:+ len_str ids +:+ " relevant elements via LLM")) w in
    (Continue, todo_update "locate" "done" w)
  else
    let w := emit (EvStatus ("[Locating] No database matches in the current context window. "
                             +:+ "Try selecting the exact dialogue/scene, or switch to full context.")) w in
    (Return [], todo_finish_sweep w).

Definition load_context_llm (w : world) : outcome * world :=
  let w := upd (set_loaded_context (Some (load_context_text e w.1))) w in
  let w := emit (EvStatus "[Loading Context] Extracted context via LLM") w in
  (Continue, todo_update "load_context" "done" w).

(** LOAD_CONTEXT, taken while [state.loaded_context is None]. *)
Definition load_context (w : world) : outcome * world :=
  let w := todo_update "load_context" "in_progress" w in
  if has_db e && nonempty (relevant_element_ids w.1) then
    let ctx := extract_element_context e w.1 (firstn 20 (relevant_element_ids w.1)) (context_size w.1) in
    if str_truthy ctx then
      let w := upd (set_loaded_context (Some ctx)) w in
      let w := emit (EvStatus ("[Loading Context] ✅ Extracted " +:+ len_str (relevant_element_ids w.1)
                               +:+ " elements from database")) w in
      (Continue, todo_update "load_context" "done" w)
    else
      load_context_llm (emit (EvStatus "[Loading Context] ⚠️ Database extraction failed, using LLM fallback") w)
  else load_context_llm w.

(** SYNTHESIZE, taken while [state.understanding is None]. *)
Definition synthesize (w : world) : outcome * world :=
  let w := todo_update "synthesize" "in_progress" w in
  let w := upd (set_understanding (Some (synthesize_text e w.1))) w in
  let w := emit (EvStatus "[Synthesizing] Understanding complete") w in
  (Continue, todo_update "synthesize" "done" w).

(** PROPOSE, taken while [state.proposed_edits is None]. *)
Definition propose (w : world) : outcome * world :=
  let w := todo_update "propose" "in_progress" w in
  let edits := coerce_edit_response (env_loads e) (propose_edits_data e w.1) in
  let w := upd (set_proposed_edits (Some (or_empty_edits edits))) w in
  let w := emit (EvStatus "[Proposing] Generated edit proposals") w in
  (Continue, todo_update "propose" "done" w).

(** REFINE, taken while [state.applied_edits is None] and attempts remain. *)
Definition refine (w : world) : outcome * world :=
  let w := upd (fun s => set_refine_attempts (refine_attempts s + 1) s) w in
  let w := todo_update "refine" "in_progress" w in
  let w :=
    if apply_started_emitted w.1 then w
    else
      let w := upd set_apply_started_emitted w in
      let ids := filter str_truthy (map elementId (or_empty_edits (proposed_edits w.1))) in
      emit (EvApplyStarted ids) w in
  let edits := coerce_edit_response (env_loads e) (refine_edits_data e w.1) in
  let applied := match edits with Some r => r | None => or_empty_edits (proposed_edits w.1) end in
  let w := upd (set_applied_edits (Some applied)) w in
  let w := emit (EvStatus "[Refining] Edits validated and refined") w in
  (Continue, todo_update "refine" "done" w).

(** APPLY marker and FINISH. *)
Definition finish (w : world) : outcome * world :=
  let w := emit EvApplyDone w in
  let w := todo_update "finish" "done" w in
  let w := todo_finish_sweep w in
  (Return (or_empty_edits (applied_edits w.1)), w).

(** One VERIFY round, taken while verify attempts remain. *)
Definition verify_round (w : world) : outcome * world :=
  let w := upd (fun s => set_verify_attempts (verify_attempts s + 1) s) w in
  let w := todo_update "verify" "in_progress" w in
  let w := upd (set_verification_issues []) w in
  let applied := or_empty_edits (applied_edits w.1) in
  let w := add_issues (lightweight_issues applied) w in
  let w := add_issues (grounding_issues (allowed_ids w.1) applied) w in
  let w :=
    if has_db e then
      let ids := filter str_truthy (map elementId applied) in
      if nonempty ids then
        let invalid := map fst (filter (fun p => negb p.2) (verify_element_ids e w.1 ids)) in
        if nonempty invalid then add_issues ["Invalid element IDs: " +:+ join_with ", " invalid] w
        else w
      else w
    else w in
  let '(w, verifier_ok, suggested_recovery) :=
    if verify_recover_enabled e && has_verify_structured_agent e then
      let obj := verify_structured_obj e w.1 in
      let ok := py_truthy (dict_get_default obj "ok" (PBool true)) in
      let recovery := py_str (dict_get_default obj "suggested_recovery" (PStr "revise_edits")) in
      let w := add_issues (structured_issues obj) w in
      (* [json.dumps(verify_obj)], rendered here with [repr] *)
      let w := upd (set_verification_result
                      (if nonempty obj then Some (py_repr (PDict obj)) else None)) w in
      (w, ok, recovery)
    else
      let text := verify_freeform_text e w.1 in
      let w := upd (set_verification_result (Some text)) w in
      let ok := negb (looks_like_verify_failure text) in
      let w := if negb ok && str_truthy text && (String.length text <? 800)
               then add_issues [text] w else w in
      (w, ok, "revise_edits") in
  if nonempty (verification_issues w.1) || negb verifier_ok then
    let w := emit (EvStatus "[Verifying] Issues found") w in
    if negb (verify_recover_enabled e) then (Continue, upd (set_applied_edits None) w)
    else if String.eqb suggested_recovery "relocate" then (Continue, upd relocate_recovery w)
    else if String.eqb suggested_recovery "reload_context" then (Continue, upd reload_context_recovery w)
    else if String.eqb suggested_recovery "revise_edits" && has_revise_edits_agent e then
      let revised := coerce_edit_response (env_loads e) (revise_edits_data e w.1) in
      let applied' := match revised with Some r => r | None => applied end in
      (Continue, upd (set_applied_edits (Some applied')) w)
    else
      let w := emit (EvStatus "[Verifying] Cannot safely apply edits; aborting") w in
      let w := emit EvApplyDone w in
      (Return [], todo_finish_sweep w)
  else
    let w := emit (EvStatus "[Verifying] Continuity check complete") w in
    finish (todo_update "verify" "done" w).

(** One pass of the [while] body after [state.iterations += 1]: the phase
    is chosen by the same guards, in the same order, as in the source. *)
Definition body (w : world) : outcome * world :=
  let s := w.1 in
  if bool_decide (intent s = None) then route w
  else if negb (nonempty (relevant_element_ids s)) && (locate_attempts s <? max_locate_attempts b)%Z
  then locate w
  else if bool_decide (loaded_context s = None) then load_context w
  else if bool_decide (understanding s = None) then synthesize w
  else if bool_decide (proposed_edits s = None) then propose w
  else if bool_decide (applied_edits s = None) && (refine_attempts s <? max_refine_attempts b)%Z
  then refine w
  else if (verify_attempts s <? max_verify_attempts b)%Z then verify_round w
  else finish w.

(** How [run_edit_loop] ends: it returns, or it raises.  The nested
    [todo_finish_sweep] is bound by the first pass of the loop body; the
    budget path after the loop calls it, which raises [UnboundLocalError]
    when the body never ran. *)
Inductive run_result : Type :=
| Finished (r : list edit) (w : world)
| UnboundLocalError (w : world).

(** After the [while] loop: budget exceeded. *)
Definition budget_exit (sweep_bound : bool) (w : world) : run_result :=
  let w := emit (EvStatus "[Error] Exceeded iteration budget; no edits generated") w in
  if sweep_bound then Finished [] (todo_finish_sweep w) else UnboundLocalError w.

(** [while state.iterations < budgets.max_iterations].  Every pass adds one
    to [iterations], so [Z.to_nat (max_iterations - iterations)] passes
    (the fuel given by [run_edit_loop]) reach the exit test exactly. *)
Fixpoint loop (fuel : nat) (sweep_bound : bool) (w : world) : run_result :=
  match fuel with
  | O => budget_exit sweep_bound w
  | S f =>
      if (iterations w.1 <? max_iterations b)%Z then
        let w := upd (fun s => set_iterations (iterations s + 1) s) w in
        match body w with
        | (Continue, w') => loop f true w'
        | (Return r, w') => Finished r w'
        end
      else budget_exit sweep_bound w
  end.

(** [run_edit_loop(llm_service, state=s0, deps, emit, budgets=b)] *)
Definition run_edit_loop (s0 : state) : run_result :=
  let w := emit (EvStatus "[Start] Starting edit") (s0, []) in
  let w := if has_global_index e then emit (EvStatus "[Index] Using global scene/character index") w else w in
  loop (Z.to_nat (max_iterations b - iterations s0)) false w.

End Run.

End EditLoop.

(* ================================================================== *)
(** * The Ask Loop ([services/ask_loop.py]) *)
Module AskLoop.

(** [l[:n]] on a list, with Python's reading of a negative [n]. *)
Definition py_take {A} (n : Z) (l : list A) : list A :=
  if (0 <=? n)%Z then firstn (Z.to_nat n) l
  else firstn (List.length l - Z.to_nat (- n)) l.

(** [AskLoopBudgets] *)
Record budgets : Type := mkBudgets {
  max_iterations : Z;
  max_retrieve_attempts : Z;
  k_per_query : Z;
  max_query_variants : Z;
  max_query_variants_broaden : Z;
  max_candidates : Z;
  rerank_select_min : Z;
  rerank_select_max : Z;
  final_context_size : Z
}.

Definition default_budgets : budgets := mkBudgets 12 2 5 5 8 30 4 10 3.

(** The caller-provided fields of [AskLoopState] that the loop reads.
    ([message_history] is only forwarded to the model calls;
    [context_policy] and [context_element_ids] are not read.) *)
Record inputs : Type := mkInputs {
  question : string;
  scene_context : string;
  selected_element_id : option string;
  selected_text : option string
}.

(** [AskLoopState].  [evidence] is written from the reranker's output and
    never read by the loop; it is left out. *)
Record state : Type := mkState {
  inp : inputs;
  retrieve_attempts : Z;
  iterations : Z;
  retrieved_context : option string;
  evidence_element_ids : list string;
  plan : option (list (string * pyval));
  todos : option (list todo);
  todo_status : gmap string string;
  todos_emitted : bool
}.

Definition init_state (i : inputs) : state := mkState i 0 0 None [] None None ∅ false.

Definition set_retrieve_attempts (v : Z) (s : state) : state :=
  mkState (inp s) v (iterations s) (retrieved_context s) (evidence_element_ids s) (plan s)
    (todos s) (todo_status s) (todos_emitted s).

Definition set_iterations (v : Z) (s : state) : state :=
  mkState (inp s) (retrieve_attempts s) v (retrieved_context s) (evidence_element_ids s) (plan s)
    (todos s) (todo_status s) (todos_emitted s).

Definition set_retrieved_context (v : option string) (s : state) : state :=
  mkState (inp s) (retrieve_attempts s) (iterations s) v (evidence_element_ids s) (plan s)
    (todos s) (todo_status s) (todos_emitted s).

Definition set_evidence_element_ids (v : list string) (s : state) : state :=
  mkState (inp s) (retrieve_attempts s) (iterations s) (retrieved_context s) v (plan s)
    (todos s) (todo_status s) (todos_emitted s).

Definition set_plan (v : option (list (string * pyval))) (s : state) : state :=
  mkState (inp s) (retrieve_attempts s) (iterations s) (retrieved_context s)
    (evidence_element_ids s) v (todos s) (todo_status s) (todos_emitted s).

(** [state.todos = ...; state.todos_emitted = True] *)
Definition set_todos_emitted (v : list todo) (s : state) : state :=
  mkState (inp s) (retrieve_attempts s) (iterations s) (retrieved_context s)
    (evidence_element_ids s) (plan s) (Some v) (todo_status s) true.

Definition set_todo_status (v : gmap string string) (s : state) : state :=
  mkState (inp s) (retrieve_attempts s) (iterations s) (retrieved_context s)
    (evidence_element_ids s) (plan s) (todos s) v (todos_emitted s).

(** The external collaborators of a run, as for the Edit Loop: each model
    or store call is a function of the loop state at the time of the call,
    giving what the loop reads back after its own normalisation. *)
Record env : Type := mkEnv {
  (* [ASK_RERANK_ENABLED], [ASK_GROUNDING_GATE], [ASK_PLAN_ENABLED] *)
  ask_rerank_enabled : bool;
  ask_grounding_gate : bool;
  ask_plan_enabled : bool;
  (* [int(os.getenv("ASK_PLAN_MUST_INCLUDE_MAX", "12"))] *)
  must_include_max : Z;
  (* [hasattr(llm_service, ...)] for the optional agents *)
  has_plan_agent : bool;
  has_query_variants_agent : bool;
  has_rerank_agent : bool;
  has_grounding_agent : bool;
  (* [deps.project_id and deps.db_pool] *)
  has_db : bool;
  (* [getattr(deps, "global_index", None)], empty when unset *)
  global_index : string;
  (* the plan dict of [ask_plan_agent] ([result.data] or [_safe_json_dict]) *)
  plan_obj : state -> list (string * pyval);
  (* [_safe_json_list] of [ask_query_variants_agent]'s output *)
  query_variants : state -> list string;
  (* [_extract_search_terms] of [extract_search_terms_agent]'s output *)
  extract_search_terms : state -> list string;
  (* [vector_search_elements(project_id, q, top_k)] *)
  vector_search_elements : state -> string -> Z -> list string;
  (* [_query_elements_by_search] *)
  query_elements_by_search : state -> list string;
  (* [parsed.get("selectedElementIds")] of the reranker's output, when the
     output is a dict holding a list there *)
  rerank_selected : state -> list string -> option (list pyval);
  (* [_extract_element_context(ids, context_size)], the context text *)
  extract_element_context : state -> list string -> Z -> string;
  (* the gate dict of [ask_grounding_agent] (an output that parses as JSON
     but not as an object makes [gate.get] raise; the model takes dicts) *)
  grounding_gate : state -> list (string * pyval);
  (* [get_result_output] of [ask_agent] run on the final context *)
  answer_text : state -> string -> string
}.

Abbreviation world := (state * list event)%type.

Definition emit (ev : event) (w : world) : world := (w.1, w.2 ++ [ev]).

Definition upd (f : state -> state) (w : world) : world := (f w.1, w.2).

(** The nested [todo_update]. *)
Definition todo_update (todo_id status : string) (w : world) : world :=
  let '(ts, evs) := todo_update_core (todos w.1) (todo_status w.1) w.2 todo_id status in
  (set_todo_status ts w.1, evs).

(** The nested [todo_finish_sweep]. *)
Definition todo_finish_sweep (w : world) : world :=
  let '(ts, evs) := sweep_core (todos w.1) (default [] (todos w.1)) (todo_status w.1) w.2 in
  (set_todo_status ts w.1, evs).

Inductive outcome : Type :=
| Continue
| Return (answer : string).

(** [str(state.plan.get("next_action") or "retrieve").strip().lower()] *)
Definition next_action_of (p : list (string * pyval)) : string :=
  py_lower (py_strip (py_str (or_value (dict_get p "next_action") (PStr "retrieve")))).

Definition is_answer_direct (a : string) : bool :=
  String.eqb a "answer_direct" || String.eqb a "answer" || String.eqb a "direct".

Definition is_clarify (a : string) : bool :=
  String.eqb a "clarify" || String.eqb a "need_more" || String.eqb a "need_more_info".

Definition plan_fallback (next_action : string) : list (string * string) :=
  if is_answer_direct next_action
  then [("plan", "Understand the question"); ("answer", "Write the answer")]
  else [("plan", "Understand the question"); ("retrieve", "Retrieve evidence");
        ("answer", "Write the answer")].

(** [[str(x) for x in v if str(x).strip()]] when [v] is a list, else []. *)
Definition list_field (v : option pyval) : list string :=
  match v with Some (PList l) => str_items l | _ => [] end.

Definition coverage_field (p : list (string * pyval)) (k : string) : list string :=
  match dict_get p "coverage" with Some (PDict cov) => list_field (dict_get cov k) | _ => [] end.

(** [[str(x).strip() for x in qs if str(x).strip()]] *)
Definition stripped_items (l : list pyval) : list string :=
  map (fun x => py_strip (py_str x)) (filter (fun x => str_truthy (py_strip (py_str x))) l).

(** [if vs[0] != q: vs = [q] + [v for v in vs if v != q]] (on a non-empty list). *)
Definition question_first (q : string) (vs : list string) : list string :=
  match vs with
  | v :: _ => if String.eqb v q then vs else q :: filter (fun x => negb (String.eqb x q)) vs
  | [] => vs
  end.

(** [_dedupe_preserve_order([*must_include_ids, *must_include_scene_ids])[:max_must]] *)
Definition must_list (max_must : Z) (ids sids : list string) : list string :=
  py_take max_must (dedupe_preserve_order (ids ++ sids)).

(** The candidate pool: must-include ids first, then the vector hits of each
    query variant, deduplicated and cut to [max_candidates]. *)
Definition candidate_pool (b : budgets) (must : list string) (found : list (list string))
  : list string :=
  py_take (max_candidates b) (dedupe_preserve_order (must ++ concat found)).

(** From the reranked ids [chosen] to [state.evidence_element_ids]:
    coverage, the cap of 25, and the [rerank_select_min/max] bounds. *)
Definition select_evidence (b : budgets) (must candidate_ids chosen : list string) : list string :=
  let chosen := if nonempty must then dedupe_preserve_order (must ++ chosen) else chosen in
  let chosen := firstn 25 (dedupe_preserve_order chosen) in
  let chosen := if (Z.of_nat (List.length chosen) <? rerank_select_min b)%Z
                then py_take (rerank_select_min b) candidate_ids else chosen in
  if (rerank_select_max b <? Z.of_nat (List.length chosen))%Z
  then py_take (rerank_select_max b) chosen else chosen.

(** The todo sweep inlined in the budget path: it emits the events and
    does not touch [state.todo_status]. *)
Fixpoint budget_sweep (l : list todo) (ts : gmap string string) (evs : list event) : list event :=
  match l with
  | [] => evs
  | t :: r =>
      let tid := py_strip (t_id t) in
      if negb (str_truthy tid) then budget_sweep r ts evs
      else if is_finished_status (current_status ts t) then budget_sweep r ts evs
      else budget_sweep r ts (evs ++ [EvTodoUpdate tid "skipped" (Some (t_label t))])
  end.

Definition budget_message : string :=
  "I couldn't complete that request within the iteration budget. "
  +:+ "Try selecting the relevant part of the screenplay and ask again.".

Section Run.
Context (e : env) (b : budgets).

(** The planner call of RETRIEVE. *)
Definition plan_call (w : world) : world :=
  if ask_plan_enabled e && bool_decide (plan w.1 = None) && has_plan_agent e
     && (retrieve_attempts w.1 =? 1)%Z
  then upd (set_plan (Some (plan_obj e w.1))) w
  else w.

(** Plan todos, emitted once. *)
Definition plan_todos_step (p : list (string * pyval)) (w : world) : world :=
  if todos_emitted w.1 then w
  else
    let ts := normalize_plan_todos 10 (dict_get p "todos") (plan_fallback (next_action_of p)) in
    let w := upd (set_todos_emitted ts) w in
    let w := emit (EvPlanTodos ts) w in
    todo_update "plan" "done" w.

(** The planner asks for clarification. *)
Definition clarify (p : list (string * pyval)) (w : world) : outcome * world :=
  let w := todo_update "clarify" "in_progress" w in
  let questions :=
    match dict_get p "clarifying_questions" with
    | Some (PList qs) => stripped_items qs
    | _ => []
    end in
  let questions :=
    match questions with
    | [] => ["Can you clarify what you mean (what part of the screenplay or what goal)?"]
    | _ => questions
    end in
  let w := emit (EvStatus "[Clarify] Need more information to answer") w in
  let w := todo_update "clarify" "done" w in
  let w := todo_finish_sweep w in
  (Return ("I’m not fully sure what you mean yet. Could you clarify:" +:+ nl +:+ "- "
           +:+ join_with (nl +:+ "- ") (firstn 3 questions)), w).

(** The planner chose to answer directly. *)
Definition answer_direct (p : list (string * pyval)) (w : world) : world :=
  let use_context :=
    match dict_get p "use_context" with None | Some PNone => true | Some v => py_truthy v end in
  let parts :=
    (if str_truthy (global_index e) then ["GLOBAL INDEX (project-wide)"; global_index e] else [])
    ++ (if use_context && str_truthy (scene_context (inp w.1))
        then ["SCENE CONTEXT (local excerpt)"; scene_context (inp w.1)] else []) in
  let w := upd (set_retrieved_context (Some (py_strip (join_with nl parts)))) w in
  let w := emit (EvStatus "[Reading] Skipping retrieval (answering directly)") w in
  todo_update "retrieve" "skipped" w.

(** The fallback at the end of RETRIEVE: the caller's context window, else
    the global index. *)
Definition fallback (w : world) : world :=
  let scene := scene_context (inp w.1) in
  let parts :=
    if str_truthy (py_strip scene) then ["SCENE CONTEXT (local excerpt)"; scene]
    else if str_truthy (global_index e) then ["GLOBAL INDEX (project-wide)"; global_index e]
    else [] in
  let w := upd (set_retrieved_context (Some (py_strip (join_with nl parts)))) w in
  let w := emit (EvStatus (if str_truthy (py_strip scene)
                           then "[Reading] Using provided context window"
                           else "[Reading] Using global index context")) w in
  todo_update "retrieve" "skipped" w.

(** The reranker: its ids replace the pool when it returns a non-empty list. *)
Definition rerank (candidate_ids : list string) (w : world) : world * list string :=
  if ask_rerank_enabled e && has_rerank_agent e then
    let w := todo_update "rerank" "in_progress" w in
    let chosen :=
      match rerank_selected e w.1 candidate_ids with
      | Some ids => if nonempty ids then str_items ids else candidate_ids
      | None => candidate_ids
      end in
    (todo_update "rerank" "done" w, chosen)
  else (w, candidate_ids).

(** The grounding gate after a successful context extraction. *)
Definition grounding (w : world) : world :=
  if ask_grounding_gate e && has_grounding_agent e then
    let w := todo_update "grounding" "in_progress" w in
    let gate := grounding_gate e w.1 in
    let grounded := py_truthy (dict_get_default gate "grounded" (PBool true)) in
    let next_action := py_str (dict_get_default gate "next_action" (PStr "answer")) in
    if negb grounded || String.eqb next_action "retrieve_more" then
      let w := emit (EvStatus "[Reading] Not enough evidence, broadening retrieval") w in
      upd (set_retrieved_context None) w
    else todo_update "grounding" "done" w
  else w.

(** Query expansion, candidate retrieval, rerank and context extraction. *)
Definition search (broaden : bool) (must_ids must_sids planner_variants : list string)
    (w : world) : outcome * world :=
  let q := question (inp w.1) in
  let variants := if has_query_variants_agent e then query_variants e w.1 else [] in
  let variants := if nonempty variants then variants else [q] in
  let variants := question_first q variants in
  let variants :=
    if nonempty planner_variants
    then dedupe_preserve_order (variants ++ question_first q planner_variants) else variants in
  let variants :=
    py_take (if broaden then max_query_variants_broaden b else max_query_variants b) variants in
  let terms := extract_search_terms e w.1 in
  if has_db e && nonempty terms then
    let must := must_list (must_include_max e) must_ids must_sids in
    let w := todo_update "retrieve" "in_progress" w in
    let k_per := (k_per_query b + (if broaden then 3 else 0))%Z in
    let found := map (fun v => vector_search_elements e w.1 v k_per) variants in
    let candidate_ids := candidate_pool b must found in
    let candidate_ids :=
      if nonempty candidate_ids then candidate_ids else query_elements_by_search e w.1 in
    if nonempty candidate_ids then
      let '(w, chosen) := rerank candidate_ids w in
      let chosen := select_evidence b must candidate_ids chosen in
      let w := upd (set_evidence_element_ids chosen) w in
      let ctx := extract_element_context e w.1 chosen
                   (final_context_size b + (if broaden then 1 else 0))%Z in
      if str_truthy ctx then
        let w := upd (set_retrieved_context (Some ctx)) w in
        let w := todo_update "retrieve" "done" w in
        let w := emit (EvStatus ("[Reading] Loaded " +:+ len_str chosen +:+ " evidence elements")) w in
        (Continue, grounding w)
      else (Continue, fallback w)
    else (Continue, fallback w)
  else (Continue, fallback w).

(** RETRIEVE, taken while [state.retrieved_context is None] and attempts
    remain. *)
Definition retrieve (w : world) : outcome * world :=
  let w := upd (fun s => set_retrieve_attempts (retrieve_attempts s + 1) s) w in
  let broaden := (1 <? retrieve_attempts w.1)%Z in
  let w := plan_call w in
  let p := default [] (plan w.1) in
  if nonempty p then
    let w := plan_todos_step p w in
    let next_action := next_action_of p in
    if is_clarify next_action then clarify p w
    else if is_answer_direct next_action then (Continue, answer_direct p w)
    else search broaden (coverage_field p "must_include_element_ids")
           (coverage_field p "must_include_scene_ids") (list_field (dict_get p "query_variants")) w
  else search broaden [] [] [] w.

(** ANSWER. *)
Definition answer (w : world) : outcome * world :=
  let w := emit (EvStatus "[Writing] Drafting response") w in
  let w := todo_update "answer" "in_progress" w in
  let context :=
    match retrieved_context w.1 with
    | Some c => if str_truthy c then c else scene_context (inp w.1)
    | None => scene_context (inp w.1)
    end in
  let context :=
    if negb (str_truthy (py_strip context)) && str_truthy (global_index e)
    then "GLOBAL INDEX (project-wide)" +:+ nl +:+ global_index e else context in
  let ans := answer_text e w.1 context in
  let w := todo_update "answer" "done" w in
  (Return ans, todo_finish_sweep w).

Definition body (w : world) : outcome * world :=
  if bool_decide (retrieved_context w.1 = None) && (retrieve_attempts w.1 <? max_retrieve_attempts b)%Z
  then retrieve w
  else answer w.

(** After the [while] loop: budget exceeded. *)
Definition budget_exit (w : world) : string * world :=
  let w := emit (EvStatus "[Error] Exceeded iteration budget") w in
  let w := if todos_emitted w.1
           then (w.1, budget_sweep (default [] (todos w.1)) (todo_status w.1) w.2) else w in
  (budget_message, w).

(** [while state.iterations < budgets.max_iterations], with the same fuel
    as the Edit Loop's. *)
Fixpoint loop (fuel : nat) (w : world) : string * world :=
  match fuel with
  | O => budget_exit w
  | S f =>
      if (iterations w.1 <? max_iterations b)%Z then
        let w := upd (fun s => set_iterations (iterations s + 1) s) w in
        match body w with
        | (Continue, w') => loop f w'
        | (Return r, w') => (r, w')
        end
      else budget_exit w
  end.

(** [run_ask_loop(llm_service, state=s0, deps, emit, budgets=b)] *)
Definition run_ask_loop (s0 : state) : string * world :=
  let w := emit (EvStatus "[Start] Answering") (s0, []) in
  let w := if str_truthy (global_index e)
           then emit (EvStatus "[Index] Using global scene/character index") w else w in
  loop (Z.to_nat (max_iterations b - iterations s0)) w.

End Run.

End AskLoop.

(* ================================================================== *)
(** * Observations used by the properties *)

(** The number of [todo_update] events in a stream. *)
Definition is_todo_update (ev : event) : bool :=
  match ev with EvTodoUpdate _ _ _ => true | _ => false end.

Definition count_todo_updates (evs : list event) : nat :=
  List.length (filter is_todo_update evs).

(** The fields of the edit loop state the attempt budgets and the applied
    edit set live in. *)
Definition edit_counters (s : EditLoop.state) : option (list edit) * Z * Z * Z :=
  (EditLoop.applied_edits s, EditLoop.locate_attempts s, EditLoop.refine_attempts s,
   EditLoop.verify_attempts s).

(** One loop pass changes an attempt counter [c] to [c'] by leaving it as
    it is, or by adding one while attempts remain ([c < m]). *)
Definition step_ok (c c' m : Z) : Prop := c' = c \/ (c' = c + 1 /\ c < m)%Z.

(** A counter that started at 0 stays within its budget. *)
Definition within (c m : Z) : Prop := (0 <= c <= Z.max 0 m)%Z.

Definition edit_within (b : EditLoop.budgets) (s : EditLoop.state) : Prop :=
  within (EditLoop.locate_attempts s) (EditLoop.max_locate_attempts b)
  /\ within (EditLoop.refine_attempts s) (EditLoop.max_refine_attempts b)
  /\ within (EditLoop.verify_attempts s) (EditLoop.max_verify_attempts b).

(** The shapes [_coerce_edit_response] accepts: a dict whose [edits] is a
    list, or a string starting with an opening brace whose [json.loads] is
    such a dict. *)
Definition edit_response_shaped (loads : string -> option pyval) (data : pyval) : Prop :=
  match data with
  | PDict kvs => exists es, dict_get kvs "edits" = Some (PList es)
  | PStr s =>
      py_startswith "{" (py_strip s) = true
      /\ exists kvs es, loads s = Some (PDict kvs) /\ dict_get kvs "edits" = Some (PList es)
  | _ => False
  end.

(** Under a verifier that keeps suggesting relocate: an applied edit set is
    always younger than the last verify round. *)
Definition edit_relocate_inv (b : EditLoop.budgets) (s : EditLoop.state) : Prop :=
  (EditLoop.applied_edits s <> None -> (EditLoop.verify_attempts s < EditLoop.refine_attempts s)%Z)
  /\ (EditLoop.refine_attempts s <= EditLoop.max_refine_attempts b)%Z
  /\ ((EditLoop.refine_attempts s < EditLoop.max_refine_attempts b)%Z -> (EditLoop.verify_attempts s <= EditLoop.refine_attempts s)%Z).

(** Sample runs: a model that proposes two edits, with or without a store,
    and a structured verifier with a fixed verdict. *)
Definition sample_proposal : pyval :=
  PDict [("edits", PList [PDict [("elementId", PStr "id1"); ("newContent", PStr "A")];
                         PDict [("elementId", PStr "id2"); ("newContent", PStr "B")]])].

Definition sample_inputs : EditLoop.inputs :=
  EditLoop.mkInputs "make the diner scene dialogue tenser" "ctx" None None [].

Definition sample_env (db : bool) (verdict : list (string * pyval)) : EditLoop.env :=
  EditLoop.mkEnv db "ctx" true true true
    (fun _ => ([("intent", PStr "make tense")], "")) (fun _ => ["diner"])
    (fun _ _ => ["id1"; "id2"; "id3"]) (fun _ => []) (fun _ => [])
    (fun _ _ _ => "CTX") (fun _ => "") (fun _ => "U")
    (fun _ => sample_proposal) (fun _ => PNone) (fun _ => PNone)
    (fun _ ids => map (fun i => (i, true)) ids) (fun _ => verdict) (fun _ => "")
    json_loads false.

Definition relocate_verdict : list (string * pyval) :=
  [("ok", PBool false); ("suggested_recovery", PStr "relocate")].

Definition pass_verdict : list (string * pyval) := [("ok", PBool true)].


(** The status the last [todo_update] event of a stream records for an id. *)
Definition last_todo_status (evs : list event) (k : string) : option string :=
  fold_left (fun acc ev =>
    match ev with
    | EvTodoUpdate i st _ => if String.eqb i k then Some st else acc
    | _ => acc
    end) evs None.

(** The status map is in step with the events: each id maps to the status
    of its last [todo_update] event. *)
Definition status_synced (ts : gmap string string) (evs : list event) : Prop :=
  forall k, ts !! k = last_todo_status evs k.

(** A todo as [_normalize_plan_todos] builds it: pending, with a non-blank
    id. *)
Definition todo_ok (t : todo) : Prop :=
  t_status t = "pending" /\ str_truthy (py_strip (t_id t)) = true.

Definition todos_ok (todos : option (list todo)) : Prop := Forall todo_ok (default [] todos).

(** Every todo of the list has, as the last status of its id in the event
    stream, [done] or [skipped]. *)
Definition todos_settled (todos : option (list todo)) (evs : list event) : Prop :=
  forall t, t ∈ default [] todos ->
    exists st, last_todo_status evs (py_strip (t_id t)) = Some st /\ is_finished_status st = true.

(** The number of events one [todo_update] call emits. *)
Definition todo_update_emits (ts : gmap string string) (i st : string) : nat :=
  if str_truthy (py_strip i) && str_truthy (py_strip st)
     && negb (bool_decide (ts !! py_strip i = Some (py_strip st))) then 1 else 0.

(** The todo invariant of a loop state: the status map is in step with the
    events and the todos are normalised ones; a phase keeps it, and a phase
    that returns has also settled every todo. *)
Definition edit_winv (w : EditLoop.world) : Prop :=
  status_synced (EditLoop.todo_status w.1) w.2 /\ todos_ok (EditLoop.todos w.1).

Definition edit_swept (w : EditLoop.world) : Prop :=
  edit_winv w /\ todos_settled (EditLoop.todos w.1) w.2.

Definition edit_phase_ok (p : EditLoop.outcome * EditLoop.world) : Prop :=
  match p with
  | (EditLoop.Continue, w') => edit_winv w'
  | (EditLoop.Return _, w') => edit_swept w'
  end.

(** The same for the Ask Loop, whose todos are only set together with
    [todos_emitted]. *)
Definition ask_winv (w : AskLoop.world) : Prop :=
  status_synced (AskLoop.todo_status w.1) w.2 /\ todos_ok (AskLoop.todos w.1)
  /\ (AskLoop.todos_emitted w.1 = false -> AskLoop.todos w.1 = None).

Definition ask_swept (w : AskLoop.world) : Prop :=
  ask_winv w /\ todos_settled (AskLoop.todos w.1) w.2.

Definition ask_phase_ok (p : AskLoop.outcome * AskLoop.world) : Prop :=
  match p with
  | (AskLoop.Continue, w') => ask_winv w'
  | (AskLoop.Return _, w') => ask_swept w'
  end.

(** Sample Ask Loop runs: a store whose vector search returns [hits], a
    planner returning [plan_obj], a reranker giving no usable output, and a
    grounding gate with no objection. *)
Definition ask_sample_env (plan_obj : list (string * pyval)) (hits : list string) : AskLoop.env :=
  AskLoop.mkEnv true true true 12 true false true true true ""
    (fun _ => plan_obj) (fun _ => []) (fun _ => ["diner"]) (fun _ _ _ => hits) (fun _ => [])
    (fun _ _ => None) (fun _ _ _ => "CTX") (fun _ => []) (fun _ _ => "ANSWER").

Definition ask_sample_inputs : AskLoop.inputs := AskLoop.mkInputs "who is in the diner?" "" None None.

Definition must_ids11 : list string :=
  ["e1"; "e2"; "e3"; "e4"; "e5"; "e6"; "e7"; "e8"; "e9"; "e10"; "e11"].

Definition plan_must11 : list (string * pyval) :=
  [("next_action", PStr "retrieve");
   ("coverage", PDict [("must_include_element_ids", PList (map PStr must_ids11))])].

(** Event counts. *)
Definition is_plan_todos (ev : event) : bool :=
  match ev with EvPlanTodos _ => true | _ => false end.
Definition is_apply_started (ev : event) : bool :=
  match ev with EvApplyStarted _ => true | _ => false end.
Definition count_events (p : event -> bool) (evs : list event) : nat :=
  List.length (filter p evs).

Definition only_todo_updates (sfx : list event) : Prop :=
  Forall (fun ev => is_todo_update ev = true) sfx.

(** The final world of an Edit Loop run. *)
Definition edit_run_world (r : EditLoop.run_result) : EditLoop.world :=
  match r with EditLoop.Finished _ w => w | EditLoop.UnboundLocalError w => w end.

(** Bounds kept along an Ask Loop run. *)
Definition ask_counters_ok (b : AskLoop.budgets) (w : AskLoop.world) : Prop :=
  (0 <= AskLoop.retrieve_attempts w.1 <= Z.max 0 (AskLoop.max_retrieve_attempts b))%Z
  /\ (0 <= AskLoop.iterations w.1 <= Z.max 0 (AskLoop.max_iterations b))%Z.

Definition ask_plan_todos_once (w : AskLoop.world) : Prop :=
  (count_events is_plan_todos w.2 <= 1)%nat
  /\ (AskLoop.todos_emitted w.1 = false -> count_events is_plan_todos w.2 = 0%nat).

(** Bounds kept along an Edit Loop run. *)
Definition edit_context_size_ok (w : EditLoop.world) : Prop :=
  (3 <= EditLoop.context_size w.1 <= 8)%Z.

Definition edit_once_events (w : EditLoop.world) : Prop :=
  (count_events is_plan_todos w.2 <= 1)%nat
  /\ (EditLoop.todos_emitted w.1 = false -> count_events is_plan_todos w.2 = 0%nat)
  /\ (count_events is_apply_started w.2 <= 1)%nat
  /\ (EditLoop.apply_started_emitted w.1 = false -> count_events is_apply_started w.2 = 0%nat).

Definition edit_attempts_bounded (b : EditLoop.budgets) (w : EditLoop.world) : Prop :=
  (0 <= EditLoop.locate_attempts w.1 <= Z.max 0 (EditLoop.max_locate_attempts b))%Z
  /\ (0 <= EditLoop.refine_attempts w.1 <= Z.max 0 (EditLoop.max_refine_attempts b))%Z
  /\ (0 <= EditLoop.verify_attempts w.1 <= Z.max 0 (EditLoop.max_verify_attempts b))%Z
  /\ (0 <= EditLoop.iterations w.1 <= Z.max 0 (EditLoop.max_iterations b))%Z.







(* ================================================================== *)
(** * Properties *)

(** [todo_update] applied twice with the same arguments acts as once. *)
Lemma todo_update_core_idem todos ts evs i st :
  let r := todo_update_core todos ts evs i st in
  todo_update_core todos r.1 r.2 i st = r.
Proof.
  unfold todo_update_core. cbv zeta.
  destruct (str_truthy (py_strip i)) eqn:Hi, (str_truthy (py_strip st)) eqn:Hs;
    cbn; rewrite ?Hi, ?Hs; cbn; try done.
  destruct (bool_decide (ts !! py_strip i = Some (py_strip st))) eqn:Hl; cbn;
    [by rewrite Hl |].
  rewrite bool_decide_true; [done |]. by rewrite lookup_insert_eq.
Qed.

Lemma todo_update_core_count todos ts evs i st :
  count_todo_updates (todo_update_core todos ts evs i st).2
  = (count_todo_updates evs
     + (if str_truthy (py_strip i) && str_truthy (py_strip st)
           && negb (bool_decide (ts !! py_strip i = Some (py_strip st))) then 1 else 0))%nat.
Proof.
  unfold todo_update_core, count_todo_updates. cbv zeta.
  destruct (str_truthy (py_strip i)), (str_truthy (py_strip st)); cbn; try lia.
  destruct (bool_decide (ts !! py_strip i = Some (py_strip st))); cbn; [lia |].
  rewrite filter_app, length_app. simpl. lia.
Qed.

Lemma edit_todo_update_twice i st (w : EditLoop.world) :
  EditLoop.todo_update i st (EditLoop.todo_update i st w) = EditLoop.todo_update i st w.
Proof.
  destruct w as [s evs]. unfold EditLoop.todo_update. cbn.
  pose proof (todo_update_core_idem (EditLoop.todos s) (EditLoop.todo_status s) evs i st) as H.
  destruct (todo_update_core _ _ evs i st) as [ts' evs'] eqn:E. cbn in *. now rewrite H.
Qed.

Lemma todo_update_core_noop todos ts evs i st :
  ts !! py_strip i = Some (py_strip st) -> todo_update_core todos ts evs i st = (ts, evs).
Proof.
  intros H. unfold todo_update_core. cbv zeta.
  destruct (_ || _); [done |]. by rewrite bool_decide_true.
Qed.

Lemma ask_todo_update_twice i st (w : AskLoop.world) :
  AskLoop.todo_update i st (AskLoop.todo_update i st w) = AskLoop.todo_update i st w.
Proof.
  destruct w as [s evs]. unfold AskLoop.todo_update. cbn.
  pose proof (todo_update_core_idem (AskLoop.todos s) (AskLoop.todo_status s) evs i st) as H.
  destruct (todo_update_core _ _ evs i st) as [ts' evs'] eqn:E. cbn in *. now rewrite H.
Qed.

(* ------------------------------------------------------------------ *)
(** ** Todo status events *)

(** [strip] is idempotent. *)
Lemma lstrip_list s : String.list_ascii_of_string (lstrip s) = drop_spaces (String.list_ascii_of_string s).
Proof. induction s as [| c r IH]; cbn; [done |]. destruct (is_space c); [exact IH | done]. Qed.

Lemma drop_spaces_idem l : drop_spaces (drop_spaces l) = drop_spaces l.
Proof. induction l as [| c r IH]; cbn; [done |]. destruct (is_space c) eqn:E; [exact IH | cbn; by rewrite E]. Qed.

Lemma drop_spaces_split l : exists sp, l = sp ++ drop_spaces l.
Proof.
  induction l as [| c r [sp Hsp]]; cbn; [by exists [] |].
  destruct (is_space c); [exists (c :: sp); cbn; by f_equal | by exists []].
Qed.

Lemma drop_spaces_fix l : drop_spaces (rev (drop_spaces (rev (drop_spaces l)))) = rev (drop_spaces (rev (drop_spaces l))).
Proof.
  set (x := drop_spaces l).
  assert (Hx : match x with [] => True | c :: _ => is_space c = false end).
  { unfold x. clear. induction l as [| c r IH]; cbn; [done |]. destruct (is_space c) eqn:E; [exact IH | exact E]. }
  destruct (drop_spaces_split (rev x)) as [sp Hsp].
  assert (Hpre : x = rev (drop_spaces (rev x)) ++ rev sp).
  { rewrite <- rev_app_distr, <- Hsp. by rewrite rev_involutive. }
  destruct (rev (drop_spaces (rev x))) as [| c r] eqn:E; [done |].
  rewrite Hpre in Hx. cbn in Hx |- *. by rewrite Hx.
Qed.

Lemma py_strip_idem s : py_strip (py_strip s) = py_strip s.
Proof.
  unfold py_strip at 2 3, rstrip. rewrite lstrip_list.
  set (y := rev (drop_spaces (rev (drop_spaces (String.list_ascii_of_string s))))).
  unfold py_strip, rstrip. rewrite lstrip_list, String.list_ascii_of_string_of_list_ascii.
  assert (Hy : drop_spaces y = y) by apply drop_spaces_fix.
  rewrite Hy. unfold y at 1. rewrite rev_involutive, drop_spaces_idem. reflexivity.
Qed.

Lemma last_todo_status_snoc evs ev k :
  last_todo_status (evs ++ [ev]) k
  = match ev with
    | EvTodoUpdate i st _ => if String.eqb i k then Some st else last_todo_status evs k
    | _ => last_todo_status evs k
    end.
Proof. unfold last_todo_status. by rewrite fold_left_app. Qed.

Lemma synced_other ts evs ev :
  is_todo_update ev = false -> status_synced ts evs -> status_synced ts (evs ++ [ev]).
Proof. intros He Hs k. rewrite last_todo_status_snoc. by destruct ev. Qed.

Lemma synced_update_core todos ts evs i st :
  status_synced ts evs ->
  status_synced (todo_update_core todos ts evs i st).1 (todo_update_core todos ts evs i st).2.
Proof.
  intros Hs. unfold todo_update_core. cbv zeta.
  destruct (_ || _); [exact Hs |]. destruct (bool_decide _); [exact Hs |].
  intros k. cbn [fst snd]. rewrite last_todo_status_snoc.
  destruct (String.eqb_spec (py_strip i) k) as [<- | Hne].
  - by rewrite lookup_insert_eq.
  - rewrite lookup_insert_ne by done. apply Hs.
Qed.

Lemma synced_sweep_core todos l ts evs :
  status_synced ts evs -> status_synced (sweep_core todos l ts evs).1 (sweep_core todos l ts evs).2.
Proof.
  revert ts evs. induction l as [| t l IH]; intros ts evs Hs; cbn; [exact Hs |].
  destruct (negb _); [by apply IH |]. destruct (is_finished_status _); [by apply IH |].
  pose proof (synced_update_core todos ts evs (py_strip (t_id t)) "skipped" Hs) as H.
  destruct (todo_update_core _ _ _ _ _) as [ts' evs']. by apply IH.
Qed.

(** The sweep only ever records [skipped]. *)
Lemma update_core_skipped_mono todos ts evs i k :
  (todo_update_core todos ts evs i "skipped").1 !! k = ts !! k
  \/ (todo_update_core todos ts evs i "skipped").1 !! k = Some "skipped".
Proof.
  unfold todo_update_core. cbv zeta. change (py_strip "skipped") with "skipped".
  destruct (_ || _); [by left |]. destruct (bool_decide _); [by left |]. cbn [fst].
  destruct (String.eqb_spec (py_strip i) k) as [<- | Hne].
  - right. by rewrite lookup_insert_eq.
  - left. by rewrite lookup_insert_ne.
Qed.

Lemma update_core_skipped_at todos ts evs i :
  str_truthy (py_strip i) = true ->
  (todo_update_core todos ts evs i "skipped").1 !! py_strip i = Some "skipped".
Proof.
  intros Hi. unfold todo_update_core. cbv zeta. change (py_strip "skipped") with "skipped".
  change (str_truthy "skipped") with true. rewrite Hi. cbn [negb orb].
  destruct (bool_decide _) eqn:E; cbn [fst].
  - by apply bool_decide_eq_true in E.
  - by rewrite lookup_insert_eq.
Qed.

Lemma sweep_core_mono todos l ts evs k :
  (sweep_core todos l ts evs).1 !! k = ts !! k \/ (sweep_core todos l ts evs).1 !! k = Some "skipped".
Proof.
  revert ts evs. induction l as [| t l IH]; intros ts evs; cbn; [by left |].
  destruct (negb _); [apply IH |]. destruct (is_finished_status _); [apply IH |].
  pose proof (update_core_skipped_mono todos ts evs (py_strip (t_id t)) k) as Hm.
  destruct (todo_update_core _ _ _ _ _) as [ts' evs']. cbn in Hm.
  destruct (IH ts' evs') as [-> | ->]; [destruct Hm as [-> | ->] |]; auto.
Qed.

Lemma current_status_skipped ts t :
  ts !! py_strip (t_id t) = Some "skipped" -> current_status ts t = "skipped".
Proof. unfold current_status. by intros ->. Qed.

Lemma finished_stays ts ts' t :
  is_finished_status (current_status ts t) = true ->
  (ts' !! py_strip (t_id t) = ts !! py_strip (t_id t) \/ ts' !! py_strip (t_id t) = Some "skipped") ->
  is_finished_status (current_status ts' t) = true.
Proof.
  intros Hf [Heq | Hs].
  - unfold current_status in *. by rewrite Heq.
  - by rewrite current_status_skipped.
Qed.

Lemma sweep_core_finished todos l ts evs t :
  t ∈ l -> str_truthy (py_strip (t_id t)) = true ->
  is_finished_status (current_status (sweep_core todos l ts evs).1 t) = true.
Proof.
  revert ts evs. induction l as [| t' l IH]; intros ts evs Hin Ht; [set_solver |].
  apply elem_of_cons in Hin as [<- | Hin].
  - cbn. rewrite Ht. cbn.
    destruct (is_finished_status (current_status ts t)) eqn:Hf.
    + eapply finished_stays; [exact Hf | apply sweep_core_mono].
    + pose proof (update_core_skipped_at todos ts evs (py_strip (t_id t))) as Hs.
      rewrite py_strip_idem in Hs. specialize (Hs Ht).
      destruct (todo_update_core _ _ _ _ _) as [ts' evs']. cbn in Hs.
      eapply finished_stays; [| apply sweep_core_mono].
      by rewrite current_status_skipped.
  - cbn. destruct (negb (str_truthy (py_strip (t_id t')))); [by apply IH |].
    destruct (is_finished_status (current_status ts t')); [by apply IH |].
    destruct (todo_update_core _ _ _ _ _) as [ts' evs']. by apply IH.
Qed.

(** With the map in step with the events, a finished current status is the
    last event's status. *)
Lemma settled_of_finished todos ts evs :
  status_synced ts evs -> todos_ok todos ->
  (forall t, t ∈ default [] todos -> is_finished_status (current_status ts t) = true) ->
  todos_settled todos evs.
Proof.
  intros Hs Hok Hf t Hin. specialize (Hf t Hin).
  unfold todos_ok in Hok. rewrite Forall_forall in Hok. destruct (Hok t Hin) as [Hp _].
  unfold current_status in Hf. rewrite <- Hs.
  destruct (ts !! py_strip (t_id t)) as [v |]; [destruct (str_truthy v) eqn:Hv |];
    rewrite ?Hp in Hf; cbn in Hf; try discriminate.
  by exists v.
Qed.

Lemma sweep_core_settled todos ts evs :
  status_synced ts evs -> todos_ok todos ->
  todos_settled todos (sweep_core todos (default [] todos) ts evs).2.
Proof.
  intros Hs Hok. apply (settled_of_finished _ (sweep_core todos (default [] todos) ts evs).1).
  - by apply synced_sweep_core.
  - exact Hok.
  - intros t Hin. apply sweep_core_finished; [exact Hin |].
    unfold todos_ok in Hok. rewrite Forall_forall in Hok. apply (Hok t Hin).
Qed.

(** [_normalize_plan_todos] gives pending todos with non-blank ids. *)
Lemma raw_todos_ok items : Forall todo_ok (raw_todos items).
Proof.
  induction items as [| it r IH]; cbn; [constructor |].
  destruct it; try exact IH.
  destruct (str_truthy _ && str_truthy _) eqn:E; [| exact IH].
  apply andb_true_iff in E as [E1 _]. constructor; [| exact IH].
  split; [reflexivity |]. cbn [t_id]. by rewrite py_strip_idem.
Qed.

Lemma dedupe_todos_sub seen l : dedupe_todos seen l `sublist_of` l.
Proof.
  revert seen. induction l as [| t l IH]; intros seen; cbn; [done |].
  destruct (_ || _); [by apply sublist_cons | by apply sublist_skip].
Qed.

Lemma Forall_sublist' {A} (P : A -> Prop) l1 l2 : Forall P l2 -> l1 `sublist_of` l2 -> Forall P l1.
Proof.
  rewrite !Forall_forall. intros H Hs x Hx. apply H. by eapply elem_of_sublist.
Qed.

Lemma normalize_plan_todos_ok cap raw fallback :
  Forall (fun x => str_truthy (py_strip x.1) = true) fallback ->
  Forall todo_ok (normalize_plan_todos cap raw fallback).
Proof.
  intros Hfb. unfold normalize_plan_todos.
  set (l := match raw with Some (PList items) => raw_todos items | _ => [] end).
  assert (Hl : Forall todo_ok l) by (unfold l; destruct raw as [[] |]; auto using raw_todos_ok).
  assert (Hl' : Forall todo_ok (match l with [] => map (fun x => mkTodo x.1 x.2 "pending") fallback | _ => l end)).
  { destruct l; [| exact Hl]. apply Forall_map. eapply Forall_impl; [exact Hfb |].
    intros x Hx. by split. }
  eapply Forall_sublist'; [| apply sublist_take].
  eapply Forall_sublist'; [exact Hl' | apply dedupe_todos_sub].
Qed.

Lemma finished_last ts evs t :
  status_synced ts evs -> todo_ok t -> is_finished_status (current_status ts t) = true ->
  exists st, last_todo_status evs (py_strip (t_id t)) = Some st /\ is_finished_status st = true.
Proof.
  intros Hs [Hp _] Hf. unfold current_status in Hf. rewrite <- Hs.
  destruct (ts !! py_strip (t_id t)) as [v |]; [destruct (str_truthy v) eqn:Hv |];
    rewrite ?Hp in Hf; cbn in Hf; try discriminate.
  by exists v.
Qed.

(** The sweep inlined in the Ask Loop's budget path. *)
Lemma budget_sweep_mono l ts evs k :
  last_todo_status (AskLoop.budget_sweep l ts evs) k = last_todo_status evs k
  \/ last_todo_status (AskLoop.budget_sweep l ts evs) k = Some "skipped".
Proof.
  revert evs. induction l as [| t l IH]; intros evs; cbn [AskLoop.budget_sweep]; [by left |].
  destruct (negb _); [apply IH |]. destruct (is_finished_status _); [apply IH |].
  destruct (IH (evs ++ [EvTodoUpdate (py_strip (t_id t)) "skipped" (Some (t_label t))])) as [-> | ->];
    [| by right].
  rewrite last_todo_status_snoc. destruct (String.eqb _ k); [by right | by left].
Qed.

Lemma budget_sweep_hit l ts evs t :
  t ∈ l -> str_truthy (py_strip (t_id t)) = true ->
  is_finished_status (current_status ts t) = false ->
  last_todo_status (AskLoop.budget_sweep l ts evs) (py_strip (t_id t)) = Some "skipped".
Proof.
  revert evs. induction l as [| t' l IH]; intros evs Hin Ht Hf; [set_solver |].
  apply elem_of_cons in Hin as [<- | Hin].
  - cbn [AskLoop.budget_sweep]. rewrite Ht, Hf. cbn [negb].
    destruct (budget_sweep_mono l ts (evs ++ [EvTodoUpdate (py_strip (t_id t)) "skipped" (Some (t_label t))])
                (py_strip (t_id t))) as [-> | ->]; [| done].
    rewrite last_todo_status_snoc, String.eqb_refl. done.
  - cbn [AskLoop.budget_sweep]. destruct (negb (str_truthy (py_strip (t_id t')))); [by apply IH |].
    destruct (is_finished_status (current_status ts t')); by apply IH.
Qed.

Lemma budget_sweep_settled l ts evs :
  status_synced ts evs -> Forall todo_ok l -> todos_settled (Some l) (AskLoop.budget_sweep l ts evs).
Proof.
  intros Hs Hok t Hin. cbn in Hin. rewrite Forall_forall in Hok.
  destruct (is_finished_status (current_status ts t)) eqn:Hf.
  - destruct (finished_last ts evs t Hs (Hok t Hin) Hf) as (st & Hl & Hst).
    destruct (budget_sweep_mono l ts evs (py_strip (t_id t))) as [-> | ->]; [by exists st | by exists "skipped"].
  - exists "skipped". split; [| done]. apply budget_sweep_hit; [exact Hin | apply (Hok t Hin) | exact Hf].
Qed.

(* ------------------------------------------------------------------ *)
(** ** Structured-output parsers *)

(** C5 (amended). The ask loop's parsers: when the strict parse of the
    whole text is not an array (object) and the span from the first opening
    bracket (brace) to the last closing one parses as an array (object), the
    parser returns that salvaged value, for the list parser as its elements
    converted with [str] and with blank ones dropped; and the parser returns
    the empty default only when neither parse gives an array with a
    non-blank element (an object), so in particular only when salvage does
    not give one either. *)
Theorem ask_parsers_salvage (loads : string -> option pyval) (text : string) :
  ((forall l, loads text <> Some (PList l)) ->
   forall sub l, salvage_span "[" "]" text = Some sub -> loads sub = Some (PList l) ->
   ask_safe_json_list loads text = str_items l)
  /\ ((forall d, loads text <> Some (PDict d)) ->
      forall sub d, salvage_span "{" "}" text = Some sub -> loads sub = Some (PDict d) ->
      ask_safe_json_dict loads text = d)
  /\ (ask_safe_json_list loads text = [] ->
      (forall l, loads text = Some (PList l) -> str_items l = [])
      /\ ((forall l, loads text <> Some (PList l)) ->
          forall sub l, salvage_span "[" "]" text = Some sub -> loads sub = Some (PList l) ->
          str_items l = []))
  /\ (ask_safe_json_dict loads text = [] ->
      (forall d, loads text = Some (PDict d) -> d = [])
      /\ ((forall d, loads text <> Some (PDict d)) ->
          forall sub d, salvage_span "{" "}" text = Some sub -> loads sub = Some (PDict d) ->
          d = [])).
Proof.
  unfold ask_safe_json_list, ask_safe_json_dict.
  split; [| split; [| split]].
  - intros Hn sub l Hs Hl.
    destruct (loads text) as [[] |] eqn:E; try (rewrite Hs, Hl; done).
    exfalso. by eapply Hn.
  - intros Hn sub d Hs Hd.
    destruct (loads text) as [[] |] eqn:E; try (rewrite Hs, Hd; done).
    exfalso. by eapply Hn.
  - intros H0. split.
    + intros l E. by rewrite E in H0.
    + intros Hn sub l Hs Hl.
      destruct (loads text) as [[] |] eqn:E; try (rewrite Hs, Hl in H0; done).
      exfalso. by eapply Hn.
  - intros H0. split.
    + intros d E. by rewrite E in H0.
    + intros Hn sub d Hs Hd.
      destruct (loads text) as [[] |] eqn:E; try (rewrite Hs, Hd in H0; done).
      exfalso. by eapply Hn.
Qed.


(** C5 (counterexample). On the model output [ids: [" "]] strict parsing
    fails and the bracketed span parses as the array [[" "]], yet
    [_safe_json_list] returns the empty default: the salvaged element is
    blank and is dropped. *)
Lemma ask_safe_json_list_blank_salvage :
  let text := "ids: [" +:+ quoted " " +:+ "]" in
  json_loads text = None
  /\ salvage_span "[" "]" text = Some ("[" +:+ quoted " " +:+ "]")
  /\ json_loads ("[" +:+ quoted " " +:+ "]") = Some (PList [PStr " "])
  /\ ask_safe_json_list json_loads text = [].
Proof. vm_compute. repeat split. Qed.

(** Salvage at work: noisy text around an array and an object. *)
Lemma ask_parsers_salvage_witness :
  ask_safe_json_list json_loads ("Sure: [" +:+ quoted "e1" +:+ ", 2]") = ["e1"; "2"]
  /\ ask_safe_json_dict json_loads ("Plan: {" +:+ quoted "ok" +:+ ": true}") = [("ok", PBool true)].
Proof.
  split.
  - transitivity (str_items [PStr "e1"; PInt 2]); [| reflexivity].
    apply (proj1 (ask_parsers_salvage json_loads ("Sure: [" +:+ quoted "e1" +:+ ", 2]"))
             ltac:(intros l; vm_compute; discriminate)
             ("[" +:+ quoted "e1" +:+ ", 2]") [PStr "e1"; PInt 2]);
      vm_compute; reflexivity.
  - apply (proj1 (proj2 (ask_parsers_salvage json_loads ("Plan: {" +:+ quoted "ok" +:+ ": true}")))
             ltac:(intros d; vm_compute; discriminate)
             ("{" +:+ quoted "ok" +:+ ": true}") [("ok", PBool true)]);
      vm_compute; reflexivity.
Defined.

Lemma coerce_edit_response_shaped loads data r :
  coerce_edit_response loads data = Some r -> edit_response_shaped loads data.
Proof.
  unfold coerce_edit_response. cbn [coerce_edit_response_at].
  destruct (py_truthy data); cbn; [| discriminate].
  destruct data as [| | | s | | kvs |]; try discriminate.
  - destruct (py_startswith "{" (py_strip s)) eqn:Hb; [| discriminate].
    destruct (loads s) as [parsed |] eqn:Hl; [| discriminate].
    cbn. destruct (py_truthy parsed); cbn; [| discriminate].
    destruct parsed as [| | | s' | | kvs |]; try discriminate.
    + destruct (py_startswith "{" (py_strip s')); discriminate.
    + destruct (dict_get kvs "edits") as [[] |] eqn:He; try discriminate.
      split; [done |]. eauto.
  - destruct (dict_get kvs "edits") as [[] |] eqn:He; try discriminate. intros _. cbn. eauto.
Qed.

Lemma todo_update_core_ext todos ts evs i st :
  exists sfx, (todo_update_core todos ts evs i st).2 = evs ++ sfx.
Proof.
  unfold todo_update_core. cbv zeta.
  destruct (_ || _); [exists []; by rewrite app_nil_r |].
  destruct (bool_decide _); [exists []; by rewrite app_nil_r | by eexists].
Qed.

Lemma sweep_core_ext todos l ts evs :
  exists sfx, (sweep_core todos l ts evs).2 = evs ++ sfx.
Proof.
  revert ts evs. induction l as [| t l IH]; intros ts evs; cbn.
  - exists []. by rewrite app_nil_r.
  - destruct (negb _); [apply IH |]. destruct (is_finished_status _); [apply IH |].
    pose proof (todo_update_core_ext todos ts evs (py_strip (t_id t)) "skipped") as [s1 H1].
    destruct (todo_update_core _ _ _ _ _) as [ts' evs'] eqn:E. cbn in H1.
    destruct (IH ts' evs') as [s2 H2]. exists (s1 ++ s2). by rewrite H2, H1, app_assoc.
Qed.

(* ------------------------------------------------------------------ *)
(** ** Edit loop: what each step changes *)

Module EditLoopFacts.
Import EditLoop.

Lemma todo_update_frame i st (w : world) :
  exists ts evs, todo_update i st w = (set_todo_status ts w.1, evs).
Proof.
  unfold todo_update. destruct (todo_update_core _ _ _ _ _) as [ts evs]. by exists ts, evs.
Qed.

Lemma todo_finish_sweep_frame (w : world) :
  exists ts evs, todo_finish_sweep w = (set_todo_status ts w.1, evs).
Proof.
  unfold todo_finish_sweep. destruct (sweep_core _ _ _ _) as [ts evs]. by exists ts, evs.
Qed.

Lemma todo_finish_sweep_ext (w : world) : exists sfx, (todo_finish_sweep w).2 = w.2 ++ sfx.
Proof.
  unfold todo_finish_sweep.
  pose proof (sweep_core_ext (todos w.1) (default [] (todos w.1)) (todo_status w.1) w.2) as [sfx H].
  destruct (sweep_core _ _ _ _). by exists sfx.
Qed.

(** Replaces every [todo_update] and [todo_finish_sweep] in the goal by
    its frame: only [todo_status] and the events change. *)
Ltac frame_todos :=
  repeat match goal with
  | |- context [todo_update ?i ?st ?w] =>
      let ts := fresh "ts" in let evs := fresh "evs" in
      destruct (todo_update_frame i st w) as (ts & evs & ->)
  | |- context [todo_finish_sweep ?w] =>
      let ts := fresh "ts" in let evs := fresh "evs" in
      destruct (todo_finish_sweep_frame w) as (ts & evs & ->)
  end.

(** Splits the goal on the first conditional of its head. *)
Ltac split_ifs :=
  repeat match goal with
  | |- context [if ?c then _ else _] => destruct c eqn:?
  | |- context [match ?p with (_, _) => _ end] => destruct p eqn:?
  end.

Lemma edit_counters_eq s s' :
  edit_counters s = edit_counters s' ->
  applied_edits s = applied_edits s' /\ locate_attempts s = locate_attempts s'
  /\ refine_attempts s = refine_attempts s' /\ verify_attempts s = verify_attempts s'.
Proof. unfold edit_counters. intros H. injection H. auto. Qed.

Lemma post_of (p : outcome * world) (Q : state -> Prop) :
  (p.1 = Continue -> Q p.2.1) -> (forall r, p.1 = Return r -> r = []) ->
  match p with (Continue, w') => Q w'.1 | (Return r, _) => r = [] end.
Proof. destruct p as [[|r] w']; cbn; auto. Qed.

Lemma edit_relocate_inv_frame b s s' :
  applied_edits s' = applied_edits s -> refine_attempts s' = refine_attempts s ->
  verify_attempts s' = verify_attempts s -> edit_relocate_inv b s -> edit_relocate_inv b s'.
Proof. unfold edit_relocate_inv. intros -> -> ->. auto. Qed.

Lemma edit_relocate_inv_counters b s s' :
  edit_counters s' = edit_counters s -> edit_relocate_inv b s -> edit_relocate_inv b s'.
Proof.
  intros H. apply edit_counters_eq in H as (H1 & _ & H3 & H4).
  by apply edit_relocate_inv_frame.
Qed.

Section Phases.
Context (e : env) (b : budgets).

Lemma locate_counters w :
  edit_counters (locate e w).2.1
  = (applied_edits w.1, locate_attempts w.1 + 1, refine_attempts w.1, verify_attempts w.1)%Z.
Proof.
  unfold locate. cbv zeta. frame_todos. split_ifs; frame_todos; reflexivity.
Qed.

Ltac frame_phase :=
  cbv zeta; frame_todos; split_ifs; frame_todos; reflexivity.

Lemma route_counters w : edit_counters (route e w).2.1 = edit_counters w.1.
Proof. unfold route. destruct (plan_intent e w.1). frame_phase. Qed.

Lemma load_context_counters w : edit_counters (load_context e w).2.1 = edit_counters w.1.
Proof. unfold load_context, load_context_llm. frame_phase. Qed.

Lemma synthesize_counters w : edit_counters (synthesize e w).2.1 = edit_counters w.1.
Proof. unfold synthesize. frame_phase. Qed.

Lemma finish_counters w : edit_counters (finish w).2.1 = edit_counters w.1.
Proof. unfold finish. frame_phase. Qed.

Lemma finish_result w : (finish w).1 = Return (or_empty_edits (applied_edits w.1)).
Proof. unfold finish. frame_phase. Qed.

Lemma propose_effect w :
  edit_counters (propose e w).2.1 = edit_counters w.1
  /\ (propose e w).1 = Continue
  /\ proposed_edits (propose e w).2.1
     = Some (or_empty_edits (coerce_edit_response (env_loads e)
                               (propose_edits_data e (todo_update "propose" "in_progress" w).1))).
Proof.
  unfold propose. cbv zeta.
  destruct (todo_update_frame "propose" "done"
              (emit (EvStatus "[Proposing] Generated edit proposals")
                 (upd (set_proposed_edits (Some (or_empty_edits (coerce_edit_response (env_loads e)
                    (propose_edits_data e (todo_update "propose" "in_progress" w).1)))))
                    (todo_update "propose" "in_progress" w)))) as (ts & evs & ->).
  cbn. split; [| done].
  destruct (todo_update_frame "propose" "in_progress" w) as (ts' & evs' & ->). reflexivity.
Qed.

Lemma refine_effect w :
  (refine e w).1 = Continue
  /\ locate_attempts (refine e w).2.1 = locate_attempts w.1
  /\ refine_attempts (refine e w).2.1 = (refine_attempts w.1 + 1)%Z
  /\ verify_attempts (refine e w).2.1 = verify_attempts w.1
  /\ applied_edits (refine e w).2.1 <> None.
Proof.
  unfold refine. cbv zeta. frame_todos. split_ifs; frame_todos; cbn; repeat split; done.
Qed.

Lemma verify_round_counters w :
  locate_attempts (verify_round e w).2.1 = locate_attempts w.1
  /\ refine_attempts (verify_round e w).2.1 = refine_attempts w.1
  /\ verify_attempts (verify_round e w).2.1 = (verify_attempts w.1 + 1)%Z.
Proof.
  unfold verify_round, finish, add_issues. cbv zeta. frame_todos.
  repeat (cbn [fst snd upd emit]; match goal with
  | |- context [if ?c then _ else _] => destruct c
  | |- context [match ?p with (_, _) => _ end] => destruct p eqn:?
  end); frame_todos; cbn in *; repeat split; try congruence.
Qed.

Lemma body_step w :
  step_ok (locate_attempts w.1) (locate_attempts (body e b w).2.1) (max_locate_attempts b)
  /\ step_ok (refine_attempts w.1) (refine_attempts (body e b w).2.1) (max_refine_attempts b)
  /\ step_ok (verify_attempts w.1) (verify_attempts (body e b w).2.1) (max_verify_attempts b).
Proof.
  unfold body, step_ok. cbv zeta.
  pose proof (route_counters w) as Hr. pose proof (locate_counters w) as Hl.
  pose proof (load_context_counters w) as Hc. pose proof (synthesize_counters w) as Hs.
  pose proof (proj1 (propose_effect w)) as Hp. pose proof (refine_effect w) as Hf.
  pose proof (verify_round_counters w) as Hv. pose proof (finish_counters w) as Hn.
  apply edit_counters_eq in Hr as (Hr1 & Hr2 & Hr3 & Hr4).
  apply edit_counters_eq in Hc as (Hc1 & Hc2 & Hc3 & Hc4).
  apply edit_counters_eq in Hs as (Hs1 & Hs2 & Hs3 & Hs4).
  apply edit_counters_eq in Hp as (Hp1 & Hp2 & Hp3 & Hp4).
  apply edit_counters_eq in Hn as (Hn1 & Hn2 & Hn3 & Hn4).
  unfold edit_counters in Hl. injection Hl as Hl1 Hl2 Hl3 Hl4.
  destruct Hf as (_ & Hf2 & Hf3 & Hf4 & _). destruct Hv as (Hv2 & Hv3 & Hv4).
  repeat match goal with
  | |- context [if ?c then _ else _] => destruct c eqn:?
  end;
  rewrite ?Hr2, ?Hr3, ?Hr4, ?Hl2, ?Hl3, ?Hl4, ?Hc2, ?Hc3, ?Hc4, ?Hs2, ?Hs3, ?Hs4,
    ?Hp2, ?Hp3, ?Hp4, ?Hn2, ?Hn3, ?Hn4, ?Hf2, ?Hf3, ?Hf4, ?Hv2, ?Hv3, ?Hv4;
  repeat match goal with
  | H : (_ && _) = true |- _ => apply andb_prop in H as [? ?]
  | H : (_ <? _)%Z = true |- _ => apply Z.ltb_lt in H
  end.
  all: lia.
Qed.
Lemma loop_within fuel sb w r w' :
  edit_within b w.1 -> loop e b fuel sb w = Finished r w' -> edit_within b w'.1.
Proof.
  unfold edit_within, within.
  revert sb w. induction fuel as [| f IH]; intros sb w Hw Hrun; cbn [loop] in Hrun.
  - unfold budget_exit in Hrun. destruct sb; [| done]. injection Hrun as <- <-.
    frame_todos. exact Hw.
  - destruct (iterations w.1 <? max_iterations b)%Z.
    + pose proof (body_step (upd (fun s => set_iterations (iterations s + 1) s) w)) as Hs.
      unfold step_ok in Hs.
      destruct (body e b _) as [[|r'] w''] eqn:E; cbn [fst snd upd] in Hs, Hw |- *.
      * eapply IH; [| exact Hrun]. cbn in Hs. lia.
      * injection Hrun as <- <-. cbn in Hs. lia.
    + unfold budget_exit in Hrun. destruct sb; [| done]. injection Hrun as <- <-.
      frame_todos. exact Hw.
Qed.
Lemma route_outcome w : (route e w).1 = Continue \/ (route e w).1 = Return [].
Proof. unfold route. destruct (plan_intent e w.1). cbv zeta. split_ifs; auto. Qed.

Lemma locate_outcome w : (locate e w).1 = Continue \/ (locate e w).1 = Return [].
Proof. unfold locate. cbv zeta. split_ifs; auto. Qed.

Lemma load_context_outcome w : (load_context e w).1 = Continue.
Proof. unfold load_context, load_context_llm. cbv zeta. split_ifs; auto. Qed.

Lemma synthesize_outcome w : (synthesize e w).1 = Continue.
Proof. reflexivity. Qed.

Section Relocating.
Hypothesis Hen : verify_recover_enabled e = true.
Hypothesis Hag : has_verify_structured_agent e = true.
Hypothesis Hok : forall s, py_truthy (dict_get_default (verify_structured_obj e s) "ok" (PBool true)) = false.
Hypothesis Hrec : forall s,
  py_str (dict_get_default (verify_structured_obj e s) "suggested_recovery" (PStr "revise_edits"))
  = "relocate".

Lemma verify_round_relocate w :
  (verify_round e w).1 = Continue
  /\ exists s_mid, (verify_round e w).2.1 = relocate_recovery s_mid
     /\ inp s_mid = inp w.1 /\ intent s_mid = intent w.1
     /\ context_size s_mid = context_size w.1 /\ iterations s_mid = iterations w.1
     /\ locate_attempts s_mid = locate_attempts w.1
     /\ refine_attempts s_mid = refine_attempts w.1
     /\ verify_attempts s_mid = (verify_attempts w.1 + 1)%Z.
Proof.
  unfold verify_round. cbv zeta. rewrite Hen, Hag. cbn [andb]. rewrite Hok, Hrec, orb_true_r.
  rewrite String.eqb_refl. cbn [negb].
  split; [reflexivity |].
  eexists. split; [reflexivity |].
  frame_todos. unfold add_issues. split_ifs; cbn; repeat split; reflexivity.
Qed.
Lemma body_relocate w :
  (max_refine_attempts b <= max_verify_attempts b)%Z -> edit_relocate_inv b w.1 ->
  match body e b w with (Continue, w') => edit_relocate_inv b w'.1 | (Return r, _) => r = [] end.
Proof.
  intros Hb Hi. unfold body. cbv zeta.
  repeat match goal with
  | |- context [if ?c then _ else _] => destruct c eqn:?
  end; apply post_of.
  all: repeat match goal with
  | H : (_ && _) = true |- _ => apply andb_prop in H as [? ?]
  | H : (_ <? _)%Z = true |- _ => apply Z.ltb_lt in H
  | H : (_ <? _)%Z = false |- _ => apply Z.ltb_ge in H
  | H : bool_decide _ = true |- _ => apply bool_decide_eq_true_1 in H
  | H : bool_decide _ = false |- _ => apply bool_decide_eq_false_1 in H
  end.
  (* route *)
  - intros _. eapply edit_relocate_inv_counters; [apply route_counters | exact Hi].
  - intros r Hr. destruct (route_outcome w) as [Ho | Ho]; rewrite Ho in Hr; congruence.
  (* locate *)
  - intros _. pose proof (locate_counters w) as Hlc. unfold edit_counters in Hlc.
    injection Hlc as H1 H2 H3 H4. exact (edit_relocate_inv_frame _ _ _ H1 H3 H4 Hi).
  - intros r Hr. destruct (locate_outcome w) as [Ho | Ho]; rewrite Ho in Hr; congruence.
  (* load_context *)
  - intros _. eapply edit_relocate_inv_counters; [apply load_context_counters | exact Hi].
  - intros r Hr. rewrite load_context_outcome in Hr. congruence.
  (* synthesize *)
  - intros _. eapply edit_relocate_inv_counters; [apply synthesize_counters | exact Hi].
  - intros r Hr. rewrite synthesize_outcome in Hr. congruence.
  (* propose *)
  - intros _. eapply edit_relocate_inv_counters; [apply (proj1 (propose_effect w)) | exact Hi].
  - intros r Hr. rewrite (proj1 (proj2 (propose_effect w))) in Hr. congruence.
  (* refine *)
  - intros _. destruct (refine_effect w) as (_ & _ & Hr & Hv & Ha).
    destruct Hi as (Hi1 & Hi2 & Hi3). unfold edit_relocate_inv. rewrite Hr, Hv. lia.
  - intros r Hr. rewrite (proj1 (refine_effect w)) in Hr. congruence.
  (* verify *)
  - intros _. destruct (verify_round_relocate w) as (_ & s_mid & -> & _ & _ & _ & _ & _ & Hr & Hv).
    destruct Hi as (Hi1 & Hi2 & Hi3). unfold edit_relocate_inv. cbn. rewrite Hr, Hv.
    split; [congruence |]. split; [lia |]. intros Hlt.
    assert (applied_edits w.1 <> None) as Hne.
    { intros Hn. rewrite (bool_decide_eq_true_2 _ Hn), (proj2 (Z.ltb_lt _ _) Hlt) in Heqb5.
      discriminate. }
    specialize (Hi1 Hne). lia.
  - intros r Hr. rewrite (proj1 (verify_round_relocate w)) in Hr. congruence.
  (* finish *)
  - intros Hc. rewrite finish_result in Hc. discriminate.
  - intros r Hr. rewrite finish_result in Hr. injection Hr as <-.
    destruct Hi as (Hi1 & Hi2 & _).
    destruct (applied_edits w.1) as [a |] eqn:Ha; [| reflexivity].
    exfalso. assert (Some a <> None) as Hs by discriminate. specialize (Hi1 Hs). lia.
Qed.
Lemma loop_relocate fuel sb w r w' :
  (max_refine_attempts b <= max_verify_attempts b)%Z -> edit_relocate_inv b w.1 ->
  loop e b fuel sb w = Finished r w' -> r = [].
Proof.
  intros Hb. revert sb w. induction fuel as [| f IH]; intros sb w Hi Hrun; cbn [loop] in Hrun.
  - unfold budget_exit in Hrun. destruct sb; [| done]. by injection Hrun as <- _.
  - destruct (iterations w.1 <? max_iterations b)%Z.
    + pose proof (body_relocate (upd (fun s => set_iterations (iterations s + 1) s) w) Hb Hi) as Hs.
      destruct (body e b _) as [[|r'] w''].
      * exact (IH _ _ Hs Hrun).
      * by injection Hrun as <- _.
    + unfold budget_exit in Hrun. destruct sb; [| done]. by injection Hrun as <- _.
Qed.

Lemma run_relocate i r w :
  (0 <= max_refine_attempts b <= max_verify_attempts b)%Z ->
  run_edit_loop e b (init_state i) = Finished r w -> r = [].
Proof.
  intros Hb Hrun. unfold run_edit_loop in Hrun.
  eapply loop_relocate. 3: exact Hrun. 1: lia.
  destruct (has_global_index e); cbn; unfold edit_relocate_inv; cbn; split; try congruence; lia.
Qed.
End Relocating.

Lemma locate_no_window w :
  deps_scene_context e = "" ->
  ((locate e w).1 = Continue /\ relevant_element_ids (locate e w).2.1 <> [])
  \/ ((locate e w).1 = Return []
      /\ EvStatus ("[Locating] No database matches in the current context window. "
                   +:+ "Try selecting the exact dialogue/scene, or switch to full context.")
         ∈ (locate e w).2.2).
Proof.
  intros Hd. unfold locate. cbv zeta. rewrite Hd.
  change (str_truthy "") with false. cbv iota.
  match goal with |- context [if nonempty ?l then _ else _] => destruct (nonempty l) eqn:Hn end.
  - left. split; [reflexivity |]. revert Hn. frame_todos. cbn.
    intros Hn Hl. rewrite Hl in Hn. discriminate.
  - right. split; [reflexivity |]. cbn [snd].
    match goal with |- context [todo_finish_sweep ?w] => destruct (todo_finish_sweep_ext w) as [sfx ->] end.
    cbn. set_solver.
Qed.

Lemma locate_window w :
  str_truthy (deps_scene_context e) = true -> (locate e w).1 = Continue.
Proof.
  intros Hd. unfold locate. cbv zeta. rewrite Hd. split_ifs; reflexivity.
Qed.

Lemma body_locate_exhausted w :
  intent w.1 <> None -> relevant_element_ids w.1 = [] ->
  (max_locate_attempts b <= locate_attempts w.1)%Z -> loaded_context w.1 = None ->
  body e b w = load_context e w.
Proof.
  intros Hi Hr Hl Hc. unfold body. cbv zeta.
  rewrite bool_decide_false by exact Hi. rewrite Hr, (proj2 (Z.ltb_ge _ _) Hl), andb_false_r.
  rewrite bool_decide_true by exact Hc. reflexivity.
Qed.

End Phases.

End EditLoopFacts.

(* ------------------------------------------------------------------ *)
(** ** Edit loop: every phase keeps the status map in step with the events,
    and every return settles the todos *)

Module EditLoopSweep.
Import EditLoop.

Lemma edit_winv_emit ev w : is_todo_update ev = false -> edit_winv w -> edit_winv (emit ev w).
Proof. intros He [Hs Ho]. split; [by apply synced_other | exact Ho]. Qed.

Lemma edit_winv_upd f w :
  (forall s, todos (f s) = todos s) -> (forall s, todo_status (f s) = todo_status s) ->
  edit_winv w -> edit_winv (upd f w).
Proof. intros Ht Hs [H1 H2]. unfold edit_winv, upd. cbn [fst snd]. rewrite Ht, Hs. by split. Qed.

Lemma edit_winv_set_todos v w : Forall todo_ok v -> edit_winv w -> edit_winv (upd (set_todos_emitted v) w).
Proof. intros Hv [H1 H2]. split; [exact H1 | exact Hv]. Qed.

Lemma edit_winv_todo_update i st w : edit_winv w -> edit_winv (todo_update i st w).
Proof.
  intros [Hs Ho]. unfold todo_update.
  pose proof (synced_update_core (todos w.1) (todo_status w.1) w.2 i st Hs) as H.
  destruct (todo_update_core _ _ _ _ _). by split.
Qed.

Lemma edit_swept_sweep w : edit_winv w -> edit_swept (todo_finish_sweep w).
Proof.
  intros [Hs Ho]. unfold todo_finish_sweep.
  pose proof (synced_sweep_core (todos w.1) (default [] (todos w.1)) (todo_status w.1) w.2 Hs) as H1.
  pose proof (sweep_core_settled (todos w.1) (todo_status w.1) w.2 Hs Ho) as H2.
  destruct (sweep_core _ _ _ _). by split; [split |].
Qed.

Lemma edit_winv_sweep w : edit_winv w -> edit_winv (todo_finish_sweep w).
Proof. intros H. apply (edit_swept_sweep w H). Qed.

Lemma edit_phase_ok_continue w : edit_winv w -> edit_phase_ok (Continue, w).
Proof. done. Qed.

Lemma edit_phase_ok_return r w : edit_swept w -> edit_phase_ok (Return r, w).
Proof. done. Qed.

Lemma edit_plan_fallback_ok : Forall (fun x => str_truthy (py_strip x.1) = true) plan_fallback.
Proof. repeat constructor. Qed.

Ltac winv_step :=
  match goal with
  | |- edit_phase_ok (Continue, _) => apply edit_phase_ok_continue
  | |- edit_phase_ok (Return _, _) => apply edit_phase_ok_return
  | |- edit_phase_ok (if ?c then _ else _) => destruct c
  | |- edit_phase_ok (match ?p with (_, _) => _ end) =>
      lazymatch p with
      | (if ?c then _ else _) => destruct c
      | _ => destruct p eqn:?
      end
  | |- edit_swept (todo_finish_sweep _) => apply edit_swept_sweep
  | |- edit_winv (todo_update _ _ _) => apply edit_winv_todo_update
  | |- edit_winv (todo_finish_sweep _) => apply edit_winv_sweep
  | |- edit_winv (emit _ _) => apply edit_winv_emit; [reflexivity |]
  | |- edit_winv (add_issues _ _) => unfold add_issues
  | |- edit_winv (upd (set_todos_emitted _) _) =>
      apply edit_winv_set_todos; [apply normalize_plan_todos_ok, edit_plan_fallback_ok |]
  | |- edit_winv (upd _ _) => apply edit_winv_upd; [intros ?; reflexivity | intros ?; reflexivity |]
  | |- edit_winv (if ?c then _ else _) => destruct c
  | H : edit_winv ?w |- edit_winv ?w => exact H
  end.

Ltac winv_tac := repeat (cbv beta iota; winv_step).

Section Phases.
Context (e : env) (b : budgets).

Lemma edit_route_ok w : edit_winv w -> edit_phase_ok (route e w).
Proof. intros Hw. unfold route. cbv zeta. winv_tac. Qed.

Lemma edit_locate_ok w : edit_winv w -> edit_phase_ok (locate e w).
Proof. intros Hw. unfold locate. cbv zeta. winv_tac. Qed.

Lemma edit_load_context_llm_ok w : edit_winv w -> edit_phase_ok (load_context_llm e w).
Proof. intros Hw. unfold load_context_llm. cbv zeta. winv_tac. Qed.

Lemma edit_load_context_ok w : edit_winv w -> edit_phase_ok (load_context e w).
Proof.
  intros Hw. unfold load_context. cbv zeta.
  repeat (cbv beta iota; first [lazymatch goal with |- edit_phase_ok (load_context_llm _ _) => idtac end;
                                apply edit_load_context_llm_ok | winv_step]).
Qed.

Lemma edit_synthesize_ok w : edit_winv w -> edit_phase_ok (synthesize e w).
Proof. intros Hw. unfold synthesize. cbv zeta. winv_tac. Qed.

Lemma edit_propose_ok w : edit_winv w -> edit_phase_ok (propose e w).
Proof. intros Hw. unfold propose. cbv zeta. winv_tac. Qed.

Lemma edit_refine_ok w : edit_winv w -> edit_phase_ok (refine e w).
Proof. intros Hw. unfold refine. cbv zeta. winv_tac. Qed.

Lemma edit_finish_ok w : edit_winv w -> edit_phase_ok (finish w).
Proof. intros Hw. unfold finish. cbv zeta. winv_tac. Qed.

Lemma edit_verify_round_ok w : edit_winv w -> edit_phase_ok (verify_round e w).
Proof.
  intros Hw. unfold verify_round. cbv zeta.
  repeat (cbv beta iota; first [lazymatch goal with |- edit_phase_ok (finish _) => idtac end;
                                apply edit_finish_ok | winv_step]).
Qed.

Lemma edit_body_ok w : edit_winv w -> edit_phase_ok (body e b w).
Proof.
  intros Hw. unfold body. cbv zeta.
  repeat match goal with |- edit_phase_ok (if ?c then _ else _) => destruct c end;
    auto using edit_route_ok, edit_locate_ok, edit_load_context_ok, edit_synthesize_ok, edit_propose_ok, edit_refine_ok,
      edit_verify_round_ok, edit_finish_ok.
Qed.

Lemma edit_loop_ok fuel sb w :
  edit_winv w ->
  match loop e b fuel sb w with
  | Finished _ w' => edit_swept w'
  | UnboundLocalError w' => sb = false /\ w'.1 = w.1
  end.
Proof.
  revert sb w. induction fuel as [| f IH]; intros sb w Hw; cbn [loop].
  - unfold budget_exit. destruct sb; [| done]. apply edit_swept_sweep, edit_winv_emit; [done | exact Hw].
  - destruct (iterations w.1 <? max_iterations b)%Z.
    + assert (Hw1 : edit_winv (upd (fun s => set_iterations (iterations s + 1) s) w))
        by (apply edit_winv_upd; [done | done | exact Hw]).
      pose proof (edit_body_ok _ Hw1) as Hb.
      destruct (body e b _) as [[| r] w']; cbn in Hb; [| exact Hb].
      specialize (IH true w' Hb). destruct (loop e b f true w'); [exact IH | by destruct IH].
    + unfold budget_exit. destruct sb; [| done]. apply edit_swept_sweep, edit_winv_emit; [done | exact Hw].
Qed.

End Phases.

Lemma run_edit_settled e b i :
  match run_edit_loop e b (init_state i) with
  | Finished _ w => todos_settled (todos w.1) w.2
  | UnboundLocalError w => todos w.1 = None
  end.
Proof.
  unfold run_edit_loop.
  match goal with |- context [loop e b ?f false ?w] =>
    assert (Hw : edit_winv w); [| pose proof (edit_loop_ok e b f false w Hw) as H;
                             destruct (loop e b f false w) as [r w' | w']] end.
  - destruct (has_global_index e); (split; [intros k; reflexivity | constructor]).
  - exact (proj2 H).
  - destruct H as [_ ->]. destruct (has_global_index e); reflexivity.
Qed.

End EditLoopSweep.

(* ------------------------------------------------------------------ *)
(** ** Ask loop: evidence selection and the todo invariant *)

Module AskLoopFacts.
Import AskLoop.

Lemma dedupe_go_spec seen l :
  NoDup (dedupe_go seen l) /\ (forall x, x ∈ dedupe_go seen l -> x ∉ seen).
Proof.
  revert seen. induction l as [| y l IH]; intros seen; cbn.
  - split; [constructor | set_solver].
  - case_bool_decide as Hy; [apply IH |].
    destruct (IH (y :: seen)) as [Hn Hs]. split.
    + constructor; [| exact Hn]. intros Hin. apply (Hs y Hin). set_solver.
    + intros x Hx. apply elem_of_cons in Hx as [-> | Hx]; [exact Hy |].
      specialize (Hs x Hx). set_solver.
Qed.

Lemma dedupe_go_app seen m l :
  NoDup m -> (forall x, x ∈ m -> x ∉ seen) -> m `prefix_of` dedupe_go seen (m ++ l).
Proof.
  revert seen. induction m as [| x m IH]; intros seen Hn Hs; cbn.
  - apply prefix_nil.
  - rewrite bool_decide_false by (apply Hs; set_solver).
    apply NoDup_cons in Hn as [Hx Hn]. apply prefix_cons, IH; [exact Hn |].
    intros y Hy. apply not_elem_of_cons. split; [intros ->; contradiction | apply Hs; set_solver].
Qed.

Lemma dedupe_prefix m c :
  NoDup m -> m `prefix_of` c -> m `prefix_of` dedupe_preserve_order c.
Proof.
  intros Hn [r ->]. apply dedupe_go_app; [exact Hn | set_solver].
Qed.

Lemma dedupe_NoDup l : NoDup (dedupe_preserve_order l).
Proof. apply dedupe_go_spec. Qed.

Lemma py_take_nonneg {A} n (l : list A) : (0 <= n)%Z -> py_take n l = take (Z.to_nat n) l.
Proof. intros Hn. unfold py_take. by rewrite (proj2 (Z.leb_le _ _) Hn). Qed.

Lemma NoDup_take' {A} n (l : list A) : NoDup l -> NoDup (take n l).
Proof.
  intros Hl. rewrite <- (take_drop n l) in Hl. by apply NoDup_app in Hl as [? _].
Qed.

Lemma NoDup_py_take {A} n (l : list A) : NoDup l -> NoDup (py_take n l).
Proof. intros Hl. unfold py_take. destruct (0 <=? n)%Z; by apply NoDup_take'. Qed.

Lemma prefix_take_mono {A} n n' (l : list A) : n <= n' -> take n l `prefix_of` take n' l.
Proof.
  intros H. replace (take n l) with (take n (take n' l)) by (rewrite take_take; f_equal; lia).
  apply prefix_take.
Qed.

(** A prefix [take k m] of [c] gives the prefix [take (min j k) m] of [take j c]. *)
Lemma take_prefix_take {A} (m c : list A) j k :
  take k m `prefix_of` c -> take (min j k) m `prefix_of` take j c.
Proof.
  intros [r ->]. rewrite take_app, take_take. apply prefix_app_r. reflexivity.
Qed.

Lemma pool_prefix b must found keyword :
  (0 <= max_candidates b)%Z -> NoDup must ->
  let pool := candidate_pool b must found in
  take (min (Z.to_nat (max_candidates b)) (length must)) must
    `prefix_of` (if nonempty pool then pool else keyword).
Proof.
  intros Hc Hn pool.
  assert (Hp : take (min (Z.to_nat (max_candidates b)) (length must)) must `prefix_of` pool).
  { unfold pool, candidate_pool. rewrite py_take_nonneg by exact Hc.
    apply take_prefix_take. rewrite take_ge by lia. apply dedupe_prefix; [exact Hn |].
    by exists (concat found). }
  destruct (nonempty pool) eqn:He; [exact Hp |].
  unfold nonempty in He. apply negb_false_iff, bool_decide_eq_true in He.
  rewrite He in Hp. apply prefix_nil_inv in Hp. rewrite Hp. apply prefix_nil.
Qed.

Lemma select_evidence_prefix b must cands chosen k :
  (0 <= rerank_select_min b)%Z -> (0 <= rerank_select_max b)%Z -> NoDup must ->
  take k must `prefix_of` cands ->
  take (min (length must) (min k (min 25 (Z.to_nat (rerank_select_max b))))) must
    `prefix_of` select_evidence b must cands chosen.
Proof.
  intros Hmin Hmax Hn Hc. unfold select_evidence. cbv zeta.
  set (c1 := if nonempty must then dedupe_preserve_order (must ++ chosen) else chosen).
  assert (H1 : must `prefix_of` dedupe_preserve_order c1).
  { unfold c1. destruct (nonempty must) eqn:Hne.
    - apply dedupe_prefix; [exact Hn |]. apply dedupe_prefix; [exact Hn |]. by exists chosen.
    - unfold nonempty in Hne. apply negb_false_iff, bool_decide_eq_true in Hne. subst must.
      apply prefix_nil. }
  set (c2 := take 25 (dedupe_preserve_order c1)).
  assert (H2 : take (min 25 (length must)) must `prefix_of` c2).
  { unfold c2. apply take_prefix_take. by rewrite take_ge by lia. }
  assert (Hl2 : min 25 (length must) <= length c2).
  { unfold c2. rewrite length_take. apply prefix_length in H1. lia. }
  rewrite !py_take_nonneg by assumption.
  destruct (Z.of_nat (length c2) <? rerank_select_min b)%Z eqn:E1.
  - apply Z.ltb_lt in E1.
    pose proof (take_prefix_take _ _ (Z.to_nat (rerank_select_min b)) _ Hc) as H3.
    destruct (rerank_select_max b <? Z.of_nat (length (take (Z.to_nat (rerank_select_min b)) cands)))%Z.
    + eapply transitivity; [| apply take_prefix_take, H3].
      apply prefix_take_mono. lia.
    + eapply transitivity; [| apply H3]. apply prefix_take_mono. lia.
  - apply Z.ltb_ge in E1.
    destruct (rerank_select_max b <? Z.of_nat (length c2))%Z.
    + eapply transitivity; [| apply take_prefix_take, H2]. apply prefix_take_mono. lia.
    + eapply transitivity; [| apply H2]. apply prefix_take_mono. lia.
Qed.


Section Ev.
Context (e : env) (b : budgets).

Lemma todo_update_evidence i st w :
  evidence_element_ids (todo_update i st w).1 = evidence_element_ids w.1.
Proof. unfold todo_update. by destruct (todo_update_core _ _ _ _ _). Qed.

Lemma fallback_evidence w : evidence_element_ids (fallback e w).1 = evidence_element_ids w.1.
Proof. unfold fallback. cbv zeta. by rewrite todo_update_evidence. Qed.

Lemma grounding_evidence w : evidence_element_ids (grounding e w).1 = evidence_element_ids w.1.
Proof.
  unfold grounding. cbv zeta.
  destruct (_ && _); [| done].
  destruct (_ || _); [| by rewrite !todo_update_evidence].
  cbn. by rewrite todo_update_evidence.
Qed.

Lemma search_evidence br mi ms pv w :
  let w' := (search e b br mi ms pv w).2 in
  (exists w'', w' = fallback e w'' /\ evidence_element_ids w''.1 = evidence_element_ids w.1)
  \/ exists found keyword chosen,
       let must := must_list (must_include_max e) mi ms in
       let pool := candidate_pool b must found in
       let cands := if nonempty pool then pool else keyword in
       cands <> [] /\ evidence_element_ids w'.1 = select_evidence b must cands chosen.
Proof.
  unfold search. cbv zeta.
  destruct (has_db e && _); [| left; eexists; split; reflexivity].
  match goal with |- context [if nonempty ?c then _ else _] =>
    lazymatch c with candidate_pool _ _ _ => fail | _ => destruct (nonempty c) eqn:Hc end end;
    [| left; eexists; split; [reflexivity | apply todo_update_evidence]].
  match goal with |- context [rerank e ?c ?w0] => destruct (rerank e c w0) as [w2 chosen] end.
  right. do 3 eexists. split.
  - unfold nonempty in Hc. apply negb_true_iff, bool_decide_eq_false in Hc. exact Hc.
  - destruct (str_truthy _); cbn [snd].
    + rewrite grounding_evidence. unfold emit. cbn [fst]. rewrite todo_update_evidence. reflexivity.
    + rewrite fallback_evidence. reflexivity.
Qed.

End Ev.

Lemma ask_winv_emit ev w : is_todo_update ev = false -> ask_winv w -> ask_winv (emit ev w).
Proof. intros He (Hs & Ho & Hn). split; [by apply synced_other | by split]. Qed.

Lemma ask_winv_upd f w :
  (forall s, todos (f s) = todos s) -> (forall s, todo_status (f s) = todo_status s) ->
  (forall s, todos_emitted (f s) = todos_emitted s) -> ask_winv w -> ask_winv (upd f w).
Proof.
  intros Ht Hs He (H1 & H2 & H3). unfold ask_winv, upd. cbn [fst snd]. rewrite Ht, Hs, He. by split.
Qed.

Lemma ask_winv_set_todos v w : Forall todo_ok v -> ask_winv w -> ask_winv (upd (set_todos_emitted v) w).
Proof. intros Hv (H1 & H2 & H3). split; [exact H1 | split; [exact Hv | done]]. Qed.

Lemma ask_winv_todo_update i st w : ask_winv w -> ask_winv (todo_update i st w).
Proof.
  intros (Hs & Ho & Hn). unfold todo_update.
  pose proof (synced_update_core (todos w.1) (todo_status w.1) w.2 i st Hs) as H.
  destruct (todo_update_core _ _ _ _ _). by split.
Qed.

Lemma ask_swept_sweep w : ask_winv w -> ask_swept (todo_finish_sweep w).
Proof.
  intros (Hs & Ho & Hn). unfold todo_finish_sweep.
  pose proof (synced_sweep_core (todos w.1) (default [] (todos w.1)) (todo_status w.1) w.2 Hs) as H1.
  pose proof (sweep_core_settled (todos w.1) (todo_status w.1) w.2 Hs Ho) as H2.
  destruct (sweep_core _ _ _ _). by split; [split |].
Qed.

Lemma ask_phase_ok_continue w : ask_winv w -> ask_phase_ok (Continue, w).
Proof. done. Qed.

Lemma ask_phase_ok_return r w : ask_swept w -> ask_phase_ok (Return r, w).
Proof. done. Qed.

Lemma ask_plan_fallback_ok a : Forall (fun x => str_truthy (py_strip x.1) = true) (plan_fallback a).
Proof. unfold plan_fallback. destruct (is_answer_direct a); repeat constructor. Qed.

Ltac winv_step :=
  match goal with
  | |- ask_phase_ok (Continue, _) => apply ask_phase_ok_continue
  | |- ask_phase_ok (Return _, _) => apply ask_phase_ok_return
  | |- ask_phase_ok (if ?c then _ else _) => destruct c
  | |- ask_phase_ok (match ?p with (_, _) => _ end) =>
      lazymatch p with
      | (if ?c then _ else _) => destruct c
      | _ => destruct p eqn:?
      end
  | |- ask_swept (todo_finish_sweep _) => apply ask_swept_sweep
  | |- ask_winv (todo_update _ _ _) => apply ask_winv_todo_update
  | |- ask_winv (emit _ _) => apply ask_winv_emit; [reflexivity |]
  | |- ask_winv (upd (set_todos_emitted _) _) =>
      apply ask_winv_set_todos; [apply normalize_plan_todos_ok, ask_plan_fallback_ok |]
  | |- ask_winv (upd _ _) =>
      apply ask_winv_upd; [intros ?; reflexivity | intros ?; reflexivity | intros ?; reflexivity |]
  | |- ask_winv (if ?c then _ else _) => destruct c
  | H : ask_winv ?w |- ask_winv ?w => exact H
  end.

Ltac winv_tac := repeat (cbv beta iota; winv_step).

Section Phases.
Context (e : env) (b : budgets).

Lemma ask_plan_call_ok w : ask_winv w -> ask_winv (plan_call e w).
Proof. intros Hw. unfold plan_call. winv_tac. Qed.

Lemma ask_plan_todos_step_ok p w : ask_winv w -> ask_winv (plan_todos_step p w).
Proof. intros Hw. unfold plan_todos_step. cbv zeta. winv_tac. Qed.

Lemma ask_clarify_ok p w : ask_winv w -> ask_phase_ok (clarify p w).
Proof. intros Hw. unfold clarify. cbv zeta. winv_tac. Qed.

Lemma ask_answer_direct_ok p w : ask_winv w -> ask_winv (answer_direct e p w).
Proof. intros Hw. unfold answer_direct. cbv zeta. winv_tac. Qed.

Lemma ask_fallback_ok w : ask_winv w -> ask_winv (fallback e w).
Proof. intros Hw. unfold fallback. cbv zeta. winv_tac. Qed.

Lemma ask_rerank_ok c w : ask_winv w -> ask_winv (rerank e c w).1.
Proof. intros Hw. unfold rerank. cbv zeta. destruct (_ && _); cbn [fst]; winv_tac. Qed.

Lemma ask_grounding_ok w : ask_winv w -> ask_winv (grounding e w).
Proof. intros Hw. unfold grounding. cbv zeta. winv_tac. Qed.

Lemma ask_search_ok br mi ms pv w : ask_winv w -> ask_phase_ok (search e b br mi ms pv w).
Proof.
  intros Hw. unfold search. cbv zeta.
  repeat (cbv beta iota; first
    [ lazymatch goal with
      | |- ask_phase_ok (match rerank _ ?c ?w with (_, _) => _ end) =>
          let Hr := fresh "Hw" in
          assert (Hr : ask_winv (rerank e c w).1) by (apply ask_rerank_ok; winv_tac);
          destruct (rerank e c w); cbn [fst] in Hr
      | |- ask_winv (fallback _ _) => apply ask_fallback_ok
      | |- ask_winv (grounding _ _) => apply ask_grounding_ok
      end
    | winv_step ]).
Qed.

Lemma ask_retrieve_ok w : ask_winv w -> ask_phase_ok (retrieve e b w).
Proof.
  intros Hw. unfold retrieve. cbv zeta.
  repeat (cbv beta iota; first
    [ lazymatch goal with
      | |- ask_phase_ok (clarify _ _) => apply ask_clarify_ok
      | |- ask_phase_ok (search _ _ _ _ _ _ _) => apply ask_search_ok
      | |- ask_winv (answer_direct _ _ _) => apply ask_answer_direct_ok
      | |- ask_winv (plan_todos_step _ _) => apply ask_plan_todos_step_ok
      | |- ask_winv (plan_call _ _) => apply ask_plan_call_ok
      end
    | winv_step ]).
Qed.

Lemma ask_answer_ok w : ask_winv w -> ask_phase_ok (answer e w).
Proof. intros Hw. unfold answer. cbv zeta. winv_tac. Qed.

Lemma ask_body_ok w : ask_winv w -> ask_phase_ok (body e b w).
Proof.
  intros Hw. unfold body. destruct (_ && _); auto using ask_retrieve_ok, ask_answer_ok.
Qed.

Lemma ask_loop_ok fuel w : ask_winv w -> todos_settled (todos (loop e b fuel w).2.1) (loop e b fuel w).2.2.
Proof.
  assert (Hx : forall w0, ask_winv w0 -> todos_settled (todos (budget_exit w0).2.1) (budget_exit w0).2.2).
  { intros w0 (Hs & Ho & Hn). unfold budget_exit. cbv zeta. unfold emit. cbn [fst snd].
    destruct (todos_emitted w0.1) eqn:He; cbn [fst snd].
    - unfold todos_ok in Ho.
      destruct (todos w0.1) as [l |] eqn:Ht; cbn [default] in Ho |- *.
      + apply budget_sweep_settled; [by apply synced_other | exact Ho].
      + intros t Hin. set_solver.
    - rewrite (Hn eq_refl). intros t Hin. set_solver. }
  revert w. induction fuel as [| f IH]; intros w Hw; cbn [loop]; [by apply Hx |].
  destruct (iterations w.1 <? max_iterations b)%Z; [| by apply Hx].
  assert (Hw1 : ask_winv (upd (fun s => set_iterations (iterations s + 1) s) w))
    by (apply ask_winv_upd; [done | done | done | exact Hw]).
  pose proof (ask_body_ok _ Hw1) as Hb.
  destruct (body e b _) as [[| r] w']; cbn in Hb; [by apply IH | apply Hb].
Qed.

End Phases.

Lemma run_ask_settled e b i :
  let w := (run_ask_loop e b (init_state i)).2 in todos_settled (todos w.1) w.2.
Proof.
  unfold run_ask_loop. apply ask_loop_ok.
  destruct (str_truthy (global_index e)); (split; [intros k; reflexivity | split; [constructor | done]]).
Qed.

End AskLoopFacts.

(* ------------------------------------------------------------------ *)
(** ** Helpers: case and blanks, sweeps, todo lists, search terms, events *)

Lemma lower_char_space c : is_space (lower_char c) = is_space c.
Proof. destruct c as [[] [] [] [] [] [] [] []]; reflexivity. Qed.

Lemma lower_char_idem c : lower_char (lower_char c) = lower_char c.
Proof. destruct c as [[] [] [] [] [] [] [] []]; reflexivity. Qed.

Lemma drop_spaces_map_lower l : drop_spaces (map lower_char l) = map lower_char (drop_spaces l).
Proof. induction l as [| c l IH]; cbn; [done |]. rewrite lower_char_space. by destruct (is_space c). Qed.

Lemma py_strip_list s :
  String.list_ascii_of_string (py_strip s)
  = rev (drop_spaces (rev (drop_spaces (String.list_ascii_of_string s)))).
Proof.
  unfold py_strip, rstrip. rewrite String.list_ascii_of_string_of_list_ascii. by rewrite lstrip_list.
Qed.

Lemma py_lower_list s :
  String.list_ascii_of_string (py_lower s) = map lower_char (String.list_ascii_of_string s).
Proof. unfold py_lower. by rewrite String.list_ascii_of_string_of_list_ascii. Qed.

Lemma string_list_inj s t : String.list_ascii_of_string s = String.list_ascii_of_string t -> s = t.
Proof.
  intros H. rewrite <- (String.string_of_list_ascii_of_string s), <- (String.string_of_list_ascii_of_string t).
  by rewrite H.
Qed.

Lemma py_strip_lower s : py_strip (py_lower s) = py_lower (py_strip s).
Proof.
  apply string_list_inj. rewrite py_strip_list, !py_lower_list, py_strip_list.
  by rewrite drop_spaces_map_lower, <- map_rev, drop_spaces_map_lower, map_rev.
Qed.

Lemma py_lower_idem s : py_lower (py_lower s) = py_lower s.
Proof.
  apply string_list_inj. rewrite !py_lower_list, map_map.
  apply map_ext, lower_char_idem.
Qed.

(** Sweeping a list whose todos are all finished changes nothing. *)
Lemma sweep_core_noop todos l ts evs :
  (forall t, t ∈ l -> str_truthy (py_strip (t_id t)) = true ->
     is_finished_status (current_status ts t) = true) ->
  sweep_core todos l ts evs = (ts, evs).
Proof.
  revert ts evs. induction l as [| t l IH]; intros ts evs H; cbn; [done |].
  destruct (str_truthy (py_strip (t_id t))) eqn:Ht; cbn.
  - rewrite (H t) by set_solver. apply IH. intros t' Hin. apply H. set_solver.
  - apply IH. intros t' Hin. apply H. set_solver.
Qed.

Lemma sweep_core_twice todos l ts evs :
  let r := sweep_core todos l ts evs in sweep_core todos l r.1 r.2 = r.
Proof.
  cbv zeta. rewrite (sweep_core_noop todos l (sweep_core todos l ts evs).1).
  - by destruct (sweep_core _ _ _ _).
  - intros t Hin Ht. by apply sweep_core_finished.
Qed.

Lemma dedupe_todos_spec seen l :
  NoDup (map t_id (dedupe_todos seen l))
  /\ (forall t, t ∈ dedupe_todos seen l -> (t_id t ∉ seen) /\ str_truthy (t_id t) = true).
Proof.
  revert seen. induction l as [| t l IH]; intros seen; cbn.
  - split; [constructor | set_solver].
  - destruct (str_truthy (t_id t)) eqn:Ht; cbn; [| apply IH].
    case_bool_decide as Hs; [apply IH |].
    destruct (IH (t_id t :: seen)) as [Hn Hx]. split.
    + cbn. constructor; [| exact Hn]. intros Hin.
      apply list_elem_of_In, in_map_iff in Hin as (t' & Heq & Hin).
      apply list_elem_of_In in Hin.
      destruct (Hx t' Hin) as [Hn' _]. apply Hn'. rewrite <- Heq. set_solver.
    + intros t' Hin. apply elem_of_cons in Hin as [-> | Hin]; [done |].
      destruct (Hx t' Hin) as [Hn' Ht']. split; [set_solver | exact Ht'].
Qed.

Lemma raw_todos_shape items t :
  t ∈ raw_todos items ->
  t_status t = "pending" /\ str_truthy (t_id t) = true /\ str_truthy (t_label t) = true
  /\ py_strip (t_id t) = t_id t /\ py_strip (t_label t) = t_label t.
Proof.
  induction items as [| it r IH]; cbn; [set_solver |].
  destruct it; try exact IH.
  destruct (str_truthy _ && str_truthy _) eqn:E; [| exact IH].
  intros Hin. apply elem_of_cons in Hin as [-> | Hin]; [| by apply IH].
  apply andb_true_iff in E as [E1 E2]. cbn [t_id t_label t_status]. rewrite !py_strip_idem. by repeat split.
Qed.










Lemma dedupe_go_sublist seen l : dedupe_go seen l `sublist_of` l.
Proof.
  revert seen. induction l as [| x l IH]; intros seen; cbn; [done |].
  case_bool_decide; [by apply sublist_cons | by apply sublist_skip].
Qed.



Lemma todo_update_core_updates todos ts evs i st :
  exists sfx, (todo_update_core todos ts evs i st).2 = evs ++ sfx /\ only_todo_updates sfx.
Proof.
  unfold todo_update_core. cbv zeta.
  destruct (_ || _); [exists []; split; [by rewrite app_nil_r | constructor] |].
  destruct (bool_decide _); [exists []; split; [by rewrite app_nil_r | constructor] |].
  eexists; split; [reflexivity | repeat constructor].
Qed.

Lemma sweep_core_updates todos l ts evs :
  exists sfx, (sweep_core todos l ts evs).2 = evs ++ sfx /\ only_todo_updates sfx.
Proof.
  revert ts evs. induction l as [| t l IH]; intros ts evs; cbn.
  - exists []. split; [by rewrite app_nil_r | constructor].
  - destruct (negb _); [apply IH |]. destruct (is_finished_status _); [apply IH |].
    pose proof (todo_update_core_updates todos ts evs (py_strip (t_id t)) "skipped") as (s1 & H1 & F1).
    destruct (todo_update_core _ _ _ _ _) as [ts' evs'] eqn:E. cbn in H1.
    destruct (IH ts' evs') as (s2 & H2 & F2). exists (s1 ++ s2).
    split; [by rewrite H2, H1, app_assoc | by apply Forall_app].
Qed.

Lemma budget_sweep_updates l ts evs :
  exists sfx, AskLoop.budget_sweep l ts evs = evs ++ sfx /\ only_todo_updates sfx.
Proof.
  revert evs. induction l as [| t l IH]; intros evs; cbn [AskLoop.budget_sweep].
  - exists []. split; [by rewrite app_nil_r | constructor].
  - destruct (negb _); [apply IH |]. destruct (is_finished_status _); [apply IH |].
    destruct (IH (evs ++ [EvTodoUpdate (py_strip (t_id t)) "skipped" (Some (t_label t))])) as (s & H & F).
    exists (EvTodoUpdate (py_strip (t_id t)) "skipped" (Some (t_label t)) :: s).
    split; [by rewrite H, <- app_assoc | by constructor].
Qed.

Lemma count_events_updates p evs sfx :
  (forall i st l, p (EvTodoUpdate i st l) = false) -> only_todo_updates sfx ->
  count_events p (evs ++ sfx) = count_events p evs.
Proof.
  intros Hp Hs. unfold count_events. rewrite filter_app, length_app.
  enough (filter p sfx = []) as -> by (cbn; lia).
  induction Hs as [| ev sfx Hev _ IH]; [done |]. destruct ev; try discriminate.
  cbn. by rewrite Hp.
Qed.

Lemma count_events_snoc p evs ev :
  count_events p (evs ++ [ev]) = (count_events p evs + if p ev then 1 else 0)%nat.
Proof. unfold count_events. rewrite filter_app, length_app. cbn. by destruct (p ev). Qed.

Lemma dedupe_go_mem seen l x : x ∈ l -> x ∈ dedupe_go seen l \/ x ∈ seen.
Proof.
  revert seen. induction l as [| y l IH]; intros seen Hx; [set_solver |]. cbn.
  apply elem_of_cons in Hx as [-> | Hx].
  - case_bool_decide; [by right | left; set_solver].
  - case_bool_decide as Hy; [by apply IH |].
    destruct (IH (y :: seen) Hx) as [H | H]; [left; set_solver |].
    apply elem_of_cons in H as [-> | H]; [left; set_solver | by right].
Qed.

Lemma take_dedupe_todos_shape cap l :
  Forall (fun t => t_status t = "pending") l ->
  let r := firstn cap (dedupe_todos [] l) in
  length r <= cap /\ NoDup (map t_id r)
  /\ Forall (fun t => t_status t = "pending" /\ str_truthy (t_id t) = true) r.
Proof.
  intros Hp. cbv zeta. destruct (dedupe_todos_spec [] l) as [Hn Hs].
  split; [rewrite length_take; lia |]. split.
  - rewrite <- firstn_map. apply AskLoopFacts.NoDup_take'. exact Hn.
  - apply Forall_forall. intros t Ht. apply elem_of_take in Ht as (i & Hi & _).
    apply list_elem_of_lookup_2 in Hi. split.
    + rewrite Forall_forall in Hp. apply Hp.
      eapply elem_of_sublist; [exact Hi | apply dedupe_todos_sub].
    + by apply Hs.
Qed.

Lemma edit_set_todo_status_facts ts ts' s :
  EditLoop.todos (EditLoop.set_todo_status ts s) = EditLoop.todos s
  /\ EditLoop.todo_status (EditLoop.set_todo_status ts s) = ts
  /\ EditLoop.set_todo_status ts' (EditLoop.set_todo_status ts s) = EditLoop.set_todo_status ts' s.
Proof. by destruct s. Qed.

Lemma ask_set_todo_status_facts ts ts' s :
  AskLoop.todos (AskLoop.set_todo_status ts s) = AskLoop.todos s
  /\ AskLoop.todo_status (AskLoop.set_todo_status ts s) = ts
  /\ AskLoop.set_todo_status ts' (AskLoop.set_todo_status ts s) = AskLoop.set_todo_status ts' s.
Proof. by destruct s. Qed.


(* ------------------------------------------------------------------ *)
(** ** Ask loop: a property of worlds kept by every step is kept by a run *)

Module AskLoopRunInv.
Import AskLoop.

Section AskRunInv.
Context (e : env) (b : budgets) (I : world -> Prop).
Hypothesis H_status : forall m w, I w -> I (emit (EvStatus m) w).
Hypothesis H_tu : forall i st w, I w -> I (todo_update i st w).
Hypothesis H_sweep : forall w, I w -> I (todo_finish_sweep w).
Hypothesis H_plan : forall v w, I w -> I (upd (set_plan v) w).
Hypothesis H_ctx : forall v w, I w -> I (upd (set_retrieved_context v) w).
Hypothesis H_evidence : forall v w, I w -> I (upd (set_evidence_element_ids v) w).
Hypothesis H_todos : forall ts w, todos_emitted w.1 = false -> I w ->
  I (emit (EvPlanTodos ts) (upd (set_todos_emitted ts) w)).
Hypothesis H_retrieve : forall w, retrieved_context w.1 = None ->
  (retrieve_attempts w.1 < max_retrieve_attempts b)%Z -> I w ->
  I (upd (fun s => set_retrieve_attempts (retrieve_attempts s + 1) s) w).
Hypothesis H_iter : forall w, (iterations w.1 < max_iterations b)%Z -> I w ->
  I (upd (fun s => set_iterations (iterations s + 1) s) w).
Hypothesis H_budget : forall w, I w -> I (budget_exit w).2.

Ltac ask_inv_step :=
  match goal with
  | |- I (_, _).2 => cbn [snd]
  | |- I (_, _).1 => cbn [fst]
  | |- I (if ?c then _ else _).2 => destruct c
  | |- I (if ?c then _ else _).1 => destruct c
  | |- I (if ?c then _ else _) => destruct c eqn:?
  | |- I (todo_update _ _ _) => apply H_tu
  | |- I (todo_finish_sweep _) => apply H_sweep
  | |- I (emit (EvStatus _) _) => apply H_status
  | |- I (emit (EvPlanTodos _) (upd (set_todos_emitted _) _)) => apply H_todos; [assumption |]
  | |- I (upd (set_plan _) _) => apply H_plan
  | |- I (upd (set_retrieved_context _) _) => apply H_ctx
  | |- I (upd (set_evidence_element_ids _) _) => apply H_evidence
  | H : I ?w |- I ?w => exact H
  end.

Ltac ask_inv_tac := repeat (cbv beta iota zeta; ask_inv_step).

Lemma ask_inv_plan_call w : I w -> I (plan_call e w).
Proof. intros Hw. unfold plan_call. ask_inv_tac. Qed.

Lemma ask_inv_plan_todos_step p w : I w -> I (plan_todos_step p w).
Proof. intros Hw. unfold plan_todos_step. ask_inv_tac. Qed.

Lemma ask_inv_clarify p w : I w -> I (clarify p w).2.
Proof. intros Hw. unfold clarify. ask_inv_tac. Qed.

Lemma ask_inv_answer_direct p w : I w -> I (answer_direct e p w).
Proof. intros Hw. unfold answer_direct. ask_inv_tac. Qed.

Lemma ask_inv_fallback w : I w -> I (fallback e w).
Proof. intros Hw. unfold fallback. ask_inv_tac. Qed.

Lemma ask_inv_rerank c w : I w -> I (rerank e c w).1.
Proof. intros Hw. unfold rerank. ask_inv_tac. Qed.

Lemma ask_inv_grounding w : I w -> I (grounding e w).
Proof. intros Hw. unfold grounding. ask_inv_tac. Qed.

Lemma ask_inv_search br mi ms pv w : I w -> I (search e b br mi ms pv w).2.
Proof.
  intros Hw. unfold search.
  repeat (cbv beta iota zeta; first
    [ lazymatch goal with
      | |- I (match rerank _ ?c ?w with (_, _) => _ end).2 =>
          let Hr := fresh "Hw" in
          assert (Hr : I (rerank e c w).1) by (apply ask_inv_rerank; ask_inv_tac);
          destruct (rerank e c w); cbn [fst] in Hr
      | |- I (fallback _ _) => apply ask_inv_fallback
      | |- I (grounding _ _) => apply ask_inv_grounding
      end
    | ask_inv_step ]).
Qed.

Lemma ask_inv_retrieve w :
  retrieved_context w.1 = None -> (retrieve_attempts w.1 < max_retrieve_attempts b)%Z ->
  I w -> I (retrieve e b w).2.
Proof.
  intros Hc Ha Hw. unfold retrieve. cbv zeta.
  assert (H1 : I (upd (fun s => set_retrieve_attempts (retrieve_attempts s + 1) s) w))
    by (apply H_retrieve; assumption).
  revert H1. generalize (upd (fun s => set_retrieve_attempts (retrieve_attempts s + 1) s) w).
  intros w1 H1.
  repeat (cbv beta iota zeta; first
    [ lazymatch goal with
      | |- I (clarify _ _).2 => apply ask_inv_clarify
      | |- I (search _ _ _ _ _ _ _).2 => apply ask_inv_search
      | |- I (answer_direct _ _ _) => apply ask_inv_answer_direct
      | |- I (plan_todos_step _ _) => apply ask_inv_plan_todos_step
      | |- I (plan_call _ _) => apply ask_inv_plan_call
      end
    | ask_inv_step ]).
Qed.

Lemma ask_inv_answer w : I w -> I (answer e w).2.
Proof. intros Hw. unfold answer. ask_inv_tac. Qed.

Lemma ask_inv_body w : I w -> I (body e b w).2.
Proof.
  intros Hw. unfold body.
  destruct (bool_decide (retrieved_context w.1 = None)) eqn:Hc;
    destruct (retrieve_attempts w.1 <? max_retrieve_attempts b)%Z eqn:Ha; cbn [andb];
    try (apply ask_inv_answer, Hw).
  apply bool_decide_eq_true in Hc. apply Z.ltb_lt in Ha. by apply ask_inv_retrieve.
Qed.

Lemma ask_inv_loop fuel w : I w -> I (loop e b fuel w).2.
Proof.
  revert w. induction fuel as [| f IH]; intros w Hw; cbn [loop]; [by apply H_budget |].
  destruct (iterations w.1 <? max_iterations b)%Z eqn:Hi; [| by apply H_budget].
  apply Z.ltb_lt in Hi.
  pose proof (ask_inv_body _ (H_iter w Hi Hw)) as Hb.
  destruct (body e b _) as [[| r] w']; cbn [snd] in Hb |- *; [by apply IH | exact Hb].
Qed.

Lemma ask_inv_run i : I (init_state i, []) -> I (run_ask_loop e b (init_state i)).2.
Proof.
  intros H0. unfold run_ask_loop. cbv zeta. apply ask_inv_loop.
  destruct (str_truthy (global_index e)); repeat apply H_status; exact H0.
Qed.

End AskRunInv.

Lemma ask_todo_update_shape i st (w : world) :
  exists ts sfx, todo_update i st w = (set_todo_status ts w.1, w.2 ++ sfx) /\ only_todo_updates sfx.
Proof.
  unfold todo_update.
  destruct (todo_update_core_updates (todos w.1) (todo_status w.1) w.2 i st) as (sfx & H & F).
  destruct (todo_update_core _ _ _ _ _) as [ts evs]. cbn in H. subst. by exists ts, sfx.
Qed.

Lemma ask_todo_finish_sweep_shape (w : world) :
  exists ts sfx, todo_finish_sweep w = (set_todo_status ts w.1, w.2 ++ sfx) /\ only_todo_updates sfx.
Proof.
  unfold todo_finish_sweep.
  destruct (sweep_core_updates (todos w.1) (default [] (todos w.1)) (todo_status w.1) w.2) as (sfx & H & F).
  destruct (sweep_core _ _ _ _) as [ts evs]. cbn in H. subst. by exists ts, sfx.
Qed.

Lemma ask_budget_exit_shape (w : world) :
  exists sfx, (budget_exit w).2 = (w.1, w.2 ++ [EvStatus "[Error] Exceeded iteration budget"] ++ sfx)
  /\ only_todo_updates sfx.
Proof.
  unfold budget_exit, emit. cbv zeta. cbn [fst snd].
  destruct (todos_emitted w.1); cbn [fst snd].
  - destruct (budget_sweep_updates (default [] (todos w.1)) (todo_status w.1)
                (w.2 ++ [EvStatus "[Error] Exceeded iteration budget"])) as (sfx & H & F).
    exists sfx. split; [by rewrite H, <- app_assoc | exact F].
  - exists []. split; [by rewrite app_nil_r | constructor].
Qed.

End AskLoopRunInv.

(* ------------------------------------------------------------------ *)
(** ** Edit loop: a property of worlds kept by every step is kept by a run *)

Module EditLoopRunInv.
Import EditLoop.

Section EditRunInv.
Context (e : env) (b : budgets) (I : world -> Prop).
Hypothesis H_status : forall m w, I w -> I (emit (EvStatus m) w).
Hypothesis H_apply_done : forall w, I w -> I (emit EvApplyDone w).
Hypothesis H_tu : forall i st w, I w -> I (todo_update i st w).
Hypothesis H_sweep : forall w, I w -> I (todo_finish_sweep w).
Hypothesis H_intent : forall v w, I w -> I (upd (set_intent v) w).
Hypothesis H_todos : forall ts w, todos_emitted w.1 = false -> I w ->
  I (emit (EvPlanTodos ts) (upd (set_todos_emitted ts) w)).
Hypothesis H_locate : forall w, relevant_element_ids w.1 = [] ->
  (locate_attempts w.1 < max_locate_attempts b)%Z -> I w ->
  I (upd (fun s => set_locate_attempts (locate_attempts s + 1) s) w).
Hypothesis H_search_terms : forall v w, I w -> I (upd (set_search_terms v) w).
Hypothesis H_relevant : forall v w, I w -> I (upd (set_relevant_element_ids v) w).
Hypothesis H_loaded : forall v w, I w -> I (upd (set_loaded_context v) w).
Hypothesis H_understanding : forall v w, I w -> I (upd (set_understanding v) w).
Hypothesis H_proposed : forall v w, I w -> I (upd (set_proposed_edits v) w).
Hypothesis H_applied : forall v w, I w -> I (upd (set_applied_edits v) w).
Hypothesis H_refine : forall w, applied_edits w.1 = None ->
  (refine_attempts w.1 < max_refine_attempts b)%Z -> I w ->
  I (upd (fun s => set_refine_attempts (refine_attempts s + 1) s) w).
Hypothesis H_apply_started : forall ids w, apply_started_emitted w.1 = false -> I w ->
  I (emit (EvApplyStarted ids) (upd set_apply_started_emitted w)).
Hypothesis H_verify : forall w, (verify_attempts w.1 < max_verify_attempts b)%Z -> I w ->
  I (upd (fun s => set_verify_attempts (verify_attempts s + 1) s) w).
Hypothesis H_issues : forall v w, I w -> I (upd (set_verification_issues v) w).
Hypothesis H_add_issues : forall l w, I w -> I (add_issues l w).
Hypothesis H_vresult : forall v w, I w -> I (upd (set_verification_result v) w).
Hypothesis H_relocate : forall w, I w -> I (upd relocate_recovery w).
Hypothesis H_reload : forall w, I w -> I (upd reload_context_recovery w).
Hypothesis H_iter : forall w, (iterations w.1 < max_iterations b)%Z -> I w ->
  I (upd (fun s => set_iterations (iterations s + 1) s) w).

Ltac edit_inv_step :=
  match goal with
  | |- I (_, _).2 => cbn [snd]
  | |- I (if ?c then _ else _).2 => destruct c
  | |- I (match ?p with (_, _) => _ end).2 =>
      lazymatch p with
      | (if ?c then _ else _) => destruct c
      | _ => destruct p eqn:?
      end
  | |- I (if ?c then _ else _) => destruct c eqn:?
  | |- I (todo_update _ _ _) => apply H_tu
  | |- I (todo_finish_sweep _) => apply H_sweep
  | |- I (emit (EvStatus _) _) => apply H_status
  | |- I (emit EvApplyDone _) => apply H_apply_done
  | |- I (emit (EvPlanTodos _) (upd (set_todos_emitted _) _)) => apply H_todos; [assumption |]
  | |- I (emit (EvApplyStarted _) (upd set_apply_started_emitted _)) =>
      apply H_apply_started; [assumption |]
  | |- I (upd (set_intent _) _) => apply H_intent
  | |- I (upd (set_search_terms _) _) => apply H_search_terms
  | |- I (upd (set_relevant_element_ids _) _) => apply H_relevant
  | |- I (upd (set_loaded_context _) _) => apply H_loaded
  | |- I (upd (set_understanding _) _) => apply H_understanding
  | |- I (upd (set_proposed_edits _) _) => apply H_proposed
  | |- I (upd (set_applied_edits _) _) => apply H_applied
  | |- I (upd (set_verification_issues _) _) => apply H_issues
  | |- I (add_issues _ _) => apply H_add_issues
  | |- I (upd (set_verification_result _) _) => apply H_vresult
  | |- I (upd relocate_recovery _) => apply H_relocate
  | |- I (upd reload_context_recovery _) => apply H_reload
  | H : I ?w |- I ?w => exact H
  end.

Ltac edit_inv_tac := repeat (cbv beta iota zeta; edit_inv_step).

Lemma edit_inv_route w : I w -> I (route e w).2.
Proof. intros Hw. unfold route. destruct (plan_intent e w.1). edit_inv_tac. Qed.

Lemma edit_inv_locate w : relevant_element_ids w.1 = [] ->
  (locate_attempts w.1 < max_locate_attempts b)%Z -> I w -> I (locate e w).2.
Proof.
  intros Hr Ha Hw. unfold locate. cbv zeta.
  pose proof (H_locate w Hr Ha Hw) as H1. revert H1.
  generalize (upd (fun s => set_locate_attempts (locate_attempts s + 1) s) w). intros w1 H1.
  edit_inv_tac.
Qed.

Lemma edit_inv_load_context_llm w : I w -> I (load_context_llm e w).2.
Proof. intros Hw. unfold load_context_llm. edit_inv_tac. Qed.

Lemma edit_inv_load_context w : I w -> I (load_context e w).2.
Proof.
  intros Hw. unfold load_context.
  repeat (cbv beta iota zeta; first
    [ lazymatch goal with |- I (load_context_llm _ _).2 => apply edit_inv_load_context_llm end
    | edit_inv_step ]).
Qed.

Lemma edit_inv_synthesize w : I w -> I (synthesize e w).2.
Proof. intros Hw. unfold synthesize. edit_inv_tac. Qed.

Lemma edit_inv_propose w : I w -> I (propose e w).2.
Proof. intros Hw. unfold propose. edit_inv_tac. Qed.

Lemma edit_inv_refine w : applied_edits w.1 = None ->
  (refine_attempts w.1 < max_refine_attempts b)%Z -> I w -> I (refine e w).2.
Proof.
  intros Hr Ha Hw. unfold refine. cbv zeta.
  pose proof (H_refine w Hr Ha Hw) as H1. revert H1.
  generalize (upd (fun s => set_refine_attempts (refine_attempts s + 1) s) w). intros w1 H1.
  edit_inv_tac.
Qed.

Lemma edit_inv_finish w : I w -> I (finish w).2.
Proof. intros Hw. unfold finish. edit_inv_tac. Qed.

Lemma edit_inv_verify_round w : (verify_attempts w.1 < max_verify_attempts b)%Z -> I w ->
  I (verify_round e w).2.
Proof.
  intros Ha Hw. unfold verify_round. cbv zeta.
  pose proof (H_verify w Ha Hw) as H1. revert H1.
  generalize (upd (fun s => set_verify_attempts (verify_attempts s + 1) s) w). intros w1 H1.
  repeat (cbv beta iota zeta; first
    [ lazymatch goal with |- I (finish _).2 => apply edit_inv_finish end
    | edit_inv_step ]).
Qed.

Lemma edit_inv_body w : I w -> I (body e b w).2.
Proof.
  intros Hw. unfold body.
  destruct (bool_decide (intent w.1 = None)); [by apply edit_inv_route |].
  destruct (negb (nonempty (relevant_element_ids w.1))) eqn:Hr;
    destruct (locate_attempts w.1 <? max_locate_attempts b)%Z eqn:Ha; cbn [andb].
  { apply edit_inv_locate; [| by apply Z.ltb_lt | exact Hw].
    unfold nonempty in Hr. apply negb_true_iff, negb_false_iff, bool_decide_eq_true in Hr. exact Hr. }
  all: destruct (bool_decide (loaded_context w.1 = None)); [by apply edit_inv_load_context |].
  all: destruct (bool_decide (understanding w.1 = None)); [by apply edit_inv_synthesize |].
  all: destruct (bool_decide (proposed_edits w.1 = None)); [by apply edit_inv_propose |].
  all: destruct (bool_decide (applied_edits w.1 = None)) eqn:Hp;
    destruct (refine_attempts w.1 <? max_refine_attempts b)%Z eqn:Hf; cbn [andb];
    try (apply edit_inv_refine; [by apply bool_decide_eq_true in Hp | by apply Z.ltb_lt | exact Hw]).
  all: destruct (verify_attempts w.1 <? max_verify_attempts b)%Z eqn:Hv;
    [apply edit_inv_verify_round; [by apply Z.ltb_lt | exact Hw] | by apply edit_inv_finish].
Qed.

Lemma edit_inv_budget_exit sb w : I w -> I (edit_run_world (budget_exit sb w)).
Proof.
  intros Hw. unfold budget_exit. cbv zeta.
  destruct sb; cbn [edit_run_world]; [apply H_sweep |]; apply H_status, Hw.
Qed.

Lemma edit_inv_loop fuel sb w : I w -> I (edit_run_world (loop e b fuel sb w)).
Proof.
  revert sb w. induction fuel as [| f IH]; intros sb w Hw; cbn [loop]; [by apply edit_inv_budget_exit |].
  destruct (iterations w.1 <? max_iterations b)%Z eqn:Hi; [| by apply edit_inv_budget_exit].
  apply Z.ltb_lt in Hi.
  pose proof (edit_inv_body _ (H_iter w Hi Hw)) as Hb.
  destruct (body e b _) as [[| r] w']; cbn [snd] in Hb |- *; [by apply IH | exact Hb].
Qed.

Lemma edit_inv_run i : I (init_state i, []) -> I (edit_run_world (run_edit_loop e b (init_state i))).
Proof.
  intros H0. unfold run_edit_loop. cbv zeta. apply edit_inv_loop.
  destruct (has_global_index e); repeat apply H_status; exact H0.
Qed.

End EditRunInv.

Lemma edit_todo_update_shape i st (w : world) :
  exists ts sfx, todo_update i st w = (set_todo_status ts w.1, w.2 ++ sfx) /\ only_todo_updates sfx.
Proof.
  unfold todo_update.
  destruct (todo_update_core_updates (todos w.1) (todo_status w.1) w.2 i st) as (sfx & H & F).
  destruct (todo_update_core _ _ _ _ _) as [ts evs]. cbn in H. subst. by exists ts, sfx.
Qed.

Lemma edit_todo_finish_sweep_shape (w : world) :
  exists ts sfx, todo_finish_sweep w = (set_todo_status ts w.1, w.2 ++ sfx) /\ only_todo_updates sfx.
Proof.
  unfold todo_finish_sweep.
  destruct (sweep_core_updates (todos w.1) (default [] (todos w.1)) (todo_status w.1) w.2) as (sfx & H & F).
  destruct (sweep_core _ _ _ _) as [ts evs]. cbn in H. subst. by exists ts, sfx.
Qed.

End EditLoopRunInv.

(* ================================================================== *)
(** * Claims *)

Module EditLoopClaims.
Import EditLoop EditLoopFacts.

(** C1 (code defect). With [max_iterations = 0] the [while] body never runs,
    so the nested [todo_finish_sweep] is never bound; the budget path emits
    its status and then calls it, and [run_edit_loop] raises
    [UnboundLocalError] instead of returning the empty edit set. *)
Theorem edit_budget_exhausted_raises (e : env) (i : inputs) :
  exists evs,
    run_edit_loop e (mkBudgets 0 3 2 2) (init_state i) = UnboundLocalError (init_state i, evs)
    /\ last evs = Some (EvStatus "[Error] Exceeded iteration budget; no edits generated").
Proof.
  unfold run_edit_loop. cbn -[init_state].
  destruct (has_global_index e); cbn -[init_state]; eexists; split; reflexivity.
Qed.

(** C9. PROPOSE never fails on the model's result: it sets
    [state.proposed_edits] to the coerced edit set (entries of string
    [elementId], [elementType], [originalContent] and [newContent]), to the
    empty set whenever the result is not of an accepted shape, and to the
    coerced entries of the [edits] list of a dict result. *)
Theorem propose_coerces_edit_response (e : env) (w : world) :
  let data := propose_edits_data e (todo_update "propose" "in_progress" w).1 in
  let s' := (propose e w).2.1 in
  (propose e w).1 = Continue
  /\ proposed_edits s' = Some (or_empty_edits (coerce_edit_response (env_loads e) data))
  /\ (~ edit_response_shaped (env_loads e) data -> proposed_edits s' = Some [])
  /\ (forall kvs es, data = PDict kvs -> dict_get kvs "edits" = Some (PList es) ->
      proposed_edits s' = Some (coerce_entries es)).
Proof.
  cbv zeta. destruct (propose_effect e w) as (_ & Ho & Hp). rewrite Hp.
  split; [exact Ho |]. split; [reflexivity |]. split.
  - intros Hn. destruct (coerce_edit_response _ _) as [r |] eqn:Hc; [| reflexivity].
    exfalso. exact (Hn (coerce_edit_response_shaped _ _ _ Hc)).
  - intros kvs es -> He. unfold coerce_edit_response. cbn [coerce_edit_response_at].
    rewrite He. destruct kvs; [discriminate |]. reflexivity.
Qed.

(** C10. The attempt counters of LOCATE, REFINE and VERIFY are never reset:
    no recovery touches them, and one pass of the loop body leaves each as
    it is or adds one to it while its attempts remain (so a phase whose
    counter is exhausted is not attempted again); over a run from a fresh
    state each counter, which counts that phase's attempts over the whole
    run, stays within its budget. *)
Theorem edit_attempt_counters_monotone (e : env) (b : budgets) :
  (forall s, locate_attempts (relocate_recovery s) = locate_attempts s
             /\ refine_attempts (relocate_recovery s) = refine_attempts s
             /\ verify_attempts (relocate_recovery s) = verify_attempts s
             /\ locate_attempts (reload_context_recovery s) = locate_attempts s
             /\ refine_attempts (reload_context_recovery s) = refine_attempts s
             /\ verify_attempts (reload_context_recovery s) = verify_attempts s)
  /\ (forall w,
      step_ok (locate_attempts w.1) (locate_attempts (body e b w).2.1) (max_locate_attempts b)
      /\ step_ok (refine_attempts w.1) (refine_attempts (body e b w).2.1) (max_refine_attempts b)
      /\ step_ok (verify_attempts w.1) (verify_attempts (body e b w).2.1) (max_verify_attempts b))
  /\ (forall i r w, run_edit_loop e b (init_state i) = Finished r w -> edit_within b w.1).
Proof.
  split; [intros s; repeat split |]. split; [exact (body_step e b) |].
  intros i r w Hrun. unfold run_edit_loop in Hrun.
  eapply loop_within. 2: exact Hrun.
  destruct (has_global_index e); unfold edit_within, within; cbn; lia.
Qed.

(** C4 (amended). A locate attempt whose store retrieval finds no element
    id ends the run, with the empty edit set and a guidance status message,
    only when the context window [deps.scene_context] is empty; with a
    non-empty window the attempt continues the loop (with the ids of the
    model's fallback, or the caller's anchor ids, possibly none), and once
    [max_locate_attempts] attempts are used with no located id the loop goes
    on to LOAD_CONTEXT. *)
Theorem edit_locate_exhaustion (e : env) (b : budgets) :
  (forall w, deps_scene_context e = "" ->
     ((locate e w).1 = Continue /\ relevant_element_ids (locate e w).2.1 <> [])
     \/ ((locate e w).1 = Return []
         /\ EvStatus ("[Locating] No database matches in the current context window. "
                      +:+ "Try selecting the exact dialogue/scene, or switch to full context.")
            ∈ (locate e w).2.2))
  /\ (forall w, str_truthy (deps_scene_context e) = true -> (locate e w).1 = Continue)
  /\ (forall w, intent w.1 <> None -> relevant_element_ids w.1 = [] ->
      (max_locate_attempts b <= locate_attempts w.1)%Z -> loaded_context w.1 = None ->
      body e b w = load_context e w).
Proof.
  split; [| split].
  - exact (locate_no_window e).
  - exact (locate_window e).
  - exact (body_locate_exhausted e b).
Qed.

(** C4 (counterexample). Without a store and with a context window in
    which the model finds no id, all three locate attempts end with no
    located element, and the run goes on and returns the two proposed
    edits. *)
Lemma edit_locate_exhaustion_continues :
  match run_edit_loop (sample_env false pass_verdict) default_budgets (init_state sample_inputs) with
  | Finished r w =>
      r <> [] /\ locate_attempts w.1 = max_locate_attempts default_budgets
      /\ relevant_element_ids w.1 = []
  | UnboundLocalError _ => False
  end.
Proof. vm_compute. split; [discriminate | split; reflexivity]. Qed.

(** C6 (amended). The relocate recovery clears exactly the located ids, the
    loaded context, the understanding and the proposed and applied edits,
    keeps every other field, and sets the context size to
    [min(context_size + 2, 8)], strictly larger below 8; a failing verify
    round that suggests relocate applies it to the state the round left,
    whose counters are those before the round with one more verify attempt;
    and when the verifier keeps suggesting relocate and
    [max_refine_attempts <= max_verify_attempts] (as in the default budgets),
    every run from a fresh state that returns, returns the empty edit set. *)
Theorem edit_relocate_recovery (e : env) (b : budgets)
  (Hen : verify_recover_enabled e = true) (Hag : has_verify_structured_agent e = true)
  (Hok : forall s, py_truthy (dict_get_default (verify_structured_obj e s) "ok" (PBool true)) = false)
  (Hrec : forall s, py_str (dict_get_default (verify_structured_obj e s) "suggested_recovery"
                                (PStr "revise_edits")) = "relocate") :
  (forall s,
     relocate_recovery s
     = mkState (inp s) (intent s) (search_terms s) [] None None None None
         (verification_result s) (verification_issues s) (todos s) (todo_status s)
         (todos_emitted s) (apply_started_emitted s) (Z.min (context_size s + 2) 8)
         (iterations s) (locate_attempts s) (refine_attempts s) (verify_attempts s)
     /\ ((context_size s < 8)%Z -> (context_size s < context_size (relocate_recovery s))%Z))
  /\ (forall w,
      (verify_round e w).1 = Continue
      /\ exists s_mid, (verify_round e w).2.1 = relocate_recovery s_mid
         /\ inp s_mid = inp w.1 /\ intent s_mid = intent w.1
         /\ context_size s_mid = context_size w.1 /\ iterations s_mid = iterations w.1
         /\ locate_attempts s_mid = locate_attempts w.1
         /\ refine_attempts s_mid = refine_attempts w.1
         /\ verify_attempts s_mid = (verify_attempts w.1 + 1)%Z)
  /\ ((0 <= max_refine_attempts b <= max_verify_attempts b)%Z ->
      forall i r w, run_edit_loop e b (init_state i) = Finished r w -> r = []).
Proof.
  split; [| split].
  - intros s. split; [reflexivity |]. cbn. lia.
  - exact (verify_round_relocate e Hen Hag Hok Hrec).
  - intros Hb i r w. exact (run_relocate e b Hen Hag Hok Hrec i r w Hb).
Qed.

Lemma edit_relocate_recovery_witness :
  (0 <= max_refine_attempts default_budgets <= max_verify_attempts default_budgets)%Z
  /\ forall i r w, run_edit_loop (sample_env true relocate_verdict) default_budgets (init_state i)
                   = Finished r w -> r = [].
Proof.
  split; [cbn; lia |].
  apply (proj2 (proj2 (edit_relocate_recovery (sample_env true relocate_verdict) default_budgets
                         eq_refl eq_refl (fun _ => eq_refl) (fun _ => eq_refl)))).
  cbn. lia.
Defined.

(** C6 (counterexample). With three refine attempts and two verify
    attempts, a verifier that always suggests relocate relocates twice
    (context size 3, 5, 7), the verify budget is hit, and the run returns
    the two refined edits rather than the empty set. *)
Lemma edit_relocate_refine_budget :
  match run_edit_loop (sample_env true relocate_verdict) (mkBudgets 20 3 3 2)
          (init_state sample_inputs) with
  | Finished r w => r <> [] /\ verify_attempts w.1 = 2%Z /\ context_size w.1 = 7%Z
  | UnboundLocalError _ => False
  end.
Proof. vm_compute. split; [discriminate | split; reflexivity]. Qed.

End EditLoopClaims.

Module AskLoopClaims.
Import AskLoop AskLoopFacts.

(** C2 (amended). A retrieval round either falls back (store, search terms
    or candidates missing) with the evidence ids untouched, or sets
    [state.evidence_element_ids], the ids passed to context extraction, to
    a list that starts with the first
    [min(len(must), max_candidates, 25, rerank_select_max)] ids of
    [must = _dedupe_preserve_order(must_include_ids + must_include_scene_ids)[:ASK_PLAN_MUST_INCLUDE_MAX]],
    whatever the reranker returns; must-include ids beyond that bound can
    be dropped. *)
Theorem ask_evidence_keeps_must (e : env) (b : budgets) br mi ms pv w :
  (0 <= max_candidates b)%Z -> (0 <= rerank_select_min b)%Z -> (0 <= rerank_select_max b)%Z ->
  let must := must_list (must_include_max e) mi ms in
  let w' := (search e b br mi ms pv w).2 in
  (exists w'', w' = fallback e w'' /\ evidence_element_ids w''.1 = evidence_element_ids w.1)
  \/ take (min (length must) (min (Z.to_nat (max_candidates b))
             (min 25 (Z.to_nat (rerank_select_max b))))) must
       `prefix_of` evidence_element_ids w'.1.
Proof.
  intros Hc Hmin Hmax must w'. unfold w'.
  destruct (search_evidence e b br mi ms pv w) as [H | (found & keyword & chosen & _ & H)];
    [by left | right].
  fold must in H. rewrite H.
  assert (Hn : NoDup must) by (apply NoDup_py_take, dedupe_NoDup).
  pose proof (pool_prefix b must found keyword Hc Hn) as Hp. cbv zeta in Hp.
  pose proof (select_evidence_prefix b must _ chosen _ Hmin Hmax Hn Hp) as Hs.
  eapply transitivity; [| exact Hs]. apply prefix_take_mono. lia.
Qed.


(** C2 (counterexample). A plan with eleven must-include ids [e1..e11]
    under the default budgets: the evidence passed to context extraction,
    and kept in the final state, is [e1..e10]; [e11] is missing. *)
Lemma ask_must_include_dropped :
  let r := run_ask_loop (ask_sample_env plan_must11 []) default_budgets (init_state ask_sample_inputs) in
  r.1 = "ANSWER"
  /\ evidence_element_ids r.2.1 = ["e1"; "e2"; "e3"; "e4"; "e5"; "e6"; "e7"; "e8"; "e9"; "e10"]
  /\ ~ In "e11" (evidence_element_ids r.2.1).
Proof. vm_compute. split; [reflexivity | split; [reflexivity | intros H; repeat (destruct H as [H | H]; [discriminate |]); exact H]]. Qed.


Lemma ask_evidence_keeps_must_witness :
  (0 <= max_candidates default_budgets)%Z /\ (0 <= rerank_select_min default_budgets)%Z
  /\ (0 <= rerank_select_max default_budgets)%Z
  /\ let e := ask_sample_env plan_must11 [] in
     let w := (init_state ask_sample_inputs, []) in
     let must := must_list (must_include_max e) must_ids11 [] in
     let w' := (search e default_budgets false must_ids11 [] [] w).2 in
     (exists w'', w' = fallback e w'' /\ evidence_element_ids w''.1 = evidence_element_ids w.1)
     \/ take (min (length must) (min (Z.to_nat (max_candidates default_budgets))
                (min 25 (Z.to_nat (rerank_select_max default_budgets))))) must
          `prefix_of` evidence_element_ids w'.1.
Proof.
  split; [cbn; lia | split; [cbn; lia | split; [cbn; lia |]]].
  apply (ask_evidence_keeps_must (ask_sample_env plan_must11 []) default_budgets false
           must_ids11 [] [] (init_state ask_sample_inputs, [])); cbn; lia.
Defined.


End AskLoopClaims.

Module TodoClaims.

(** C7. On every path on which a run ends, every todo of the run has, as
    the last [todo_update] event for its stripped id, the status [done] or
    [skipped]: the Edit Loop's returns (answer, clarify, locate with no
    context window, verify abort, budget exhaustion after at least one
    pass) sweep the todos, and its one other exit, the [UnboundLocalError]
    of a budget of no pass, happens with no todos; the Ask Loop's returns
    sweep them, and its budget path emits a [skipped] event for every todo
    not yet [done] or [skipped]. *)
Theorem todos_settled_at_exit (ee : EditLoop.env) (eb : EditLoop.budgets) (ei : EditLoop.inputs)
    (ae : AskLoop.env) (ab : AskLoop.budgets) (ai : AskLoop.inputs) :
  match EditLoop.run_edit_loop ee eb (EditLoop.init_state ei) with
  | EditLoop.Finished _ w => todos_settled (EditLoop.todos w.1) w.2
  | EditLoop.UnboundLocalError w => EditLoop.todos w.1 = None
  end
  /\ (let w := (AskLoop.run_ask_loop ae ab (AskLoop.init_state ai)).2 in
      todos_settled (AskLoop.todos w.1) w.2).
Proof.
  split; [apply EditLoopSweep.run_edit_settled | apply AskLoopFacts.run_ask_settled].
Qed.

(** C8 (amended). In both loops, [todo_update(id, status)] issued twice in a
    row acts as once; one call emits one [todo_update] event exactly when
    the stripped id and status are non-empty and the status map does not
    already hold that status for that id, and none otherwise; a call whose
    status equals the recorded one changes neither the status map nor the
    events.  So the pair of calls emits at most one event. *)
Theorem todo_update_idempotent i st :
  (forall w : EditLoop.world,
     EditLoop.todo_update i st (EditLoop.todo_update i st w) = EditLoop.todo_update i st w
     /\ count_todo_updates (EditLoop.todo_update i st w).2
        = (count_todo_updates w.2 + todo_update_emits (EditLoop.todo_status w.1) i st)%nat
     /\ (EditLoop.todo_status w.1 !! py_strip i = Some (py_strip st) ->
         EditLoop.todo_update i st w = w))
  /\ (forall w : AskLoop.world,
     AskLoop.todo_update i st (AskLoop.todo_update i st w) = AskLoop.todo_update i st w
     /\ count_todo_updates (AskLoop.todo_update i st w).2
        = (count_todo_updates w.2 + todo_update_emits (AskLoop.todo_status w.1) i st)%nat
     /\ (AskLoop.todo_status w.1 !! py_strip i = Some (py_strip st) ->
         AskLoop.todo_update i st w = w)).
Proof.
  split; intros [s evs]; (split; [apply edit_todo_update_twice || apply ask_todo_update_twice |]).
  - unfold EditLoop.todo_update. cbn [fst snd].
    pose proof (todo_update_core_count (EditLoop.todos s) (EditLoop.todo_status s) evs i st) as Hc.
    pose proof (todo_update_core_noop (EditLoop.todos s) (EditLoop.todo_status s) evs i st) as Hn.
    destruct (todo_update_core _ _ _ _ _) as [ts' evs']. split; [exact Hc |].
    intros H. injection (Hn H) as -> ->. by destruct s.
  - unfold AskLoop.todo_update. cbn [fst snd].
    pose proof (todo_update_core_count (AskLoop.todos s) (AskLoop.todo_status s) evs i st) as Hc.
    pose proof (todo_update_core_noop (AskLoop.todos s) (AskLoop.todo_status s) evs i st) as Hn.
    destruct (todo_update_core _ _ _ _ _) as [ts' evs']. split; [exact Hc |].
    intros H. injection (Hn H) as -> ->. by destruct s.
Qed.

(** C8 (counterexample). After [todo_update("answer", "done")] has been
    recorded once, issuing the same update twice more emits no event at
    all, not one. *)
Lemma todo_update_repeat_silent :
  let w0 := AskLoop.todo_update "answer" "done"
              (AskLoop.init_state (AskLoop.mkInputs "q" "" None None), []) in
  count_todo_updates w0.2 = 1%nat
  /\ count_todo_updates (AskLoop.todo_update "answer" "done" (AskLoop.todo_update "answer" "done" w0)).2
     = count_todo_updates w0.2.
Proof. vm_compute. split; reflexivity. Qed.

End TodoClaims.

(* ================================================================== *)
(** * Further properties of the code *)

Module ExtraProperties.

(** X1: [_dedupe_preserve_order] returns each item of its input once, in
    the order of first occurrence, and loses none. *)
Theorem dedupe_preserve_order_spec l :
  NoDup (dedupe_preserve_order l) /\ dedupe_preserve_order l `sublist_of` l
  /\ (forall x, x ∈ dedupe_preserve_order l <-> x ∈ l).
Proof.
  split; [apply AskLoopFacts.dedupe_NoDup |]. split; [apply dedupe_go_sublist |].
  intros x. split.
  - intros Hx. eapply elem_of_sublist; [exact Hx | apply dedupe_go_sublist].
  - intros Hx. destruct (dedupe_go_mem [] l x Hx) as [H | H]; [exact H | set_solver].
Qed.

(** X2: [_normalize_plan_todos] returns at most [cap] todos (10 in
    ask_loop.py, 12 in edit_loop.py), with pairwise distinct non-empty
    ids, all with status [pending], whatever the planner output and the
    fallback. *)
Theorem normalize_plan_todos_shape cap raw fallback :
  let r := normalize_plan_todos cap raw fallback in
  length r <= cap /\ NoDup (map t_id r)
  /\ Forall (fun t => t_status t = "pending" /\ str_truthy (t_id t) = true) r.
Proof.
  unfold normalize_plan_todos. apply take_dedupe_todos_shape.
  assert (Hf : Forall (fun t => t_status t = "pending")
                 (map (fun x => mkTodo x.1 x.2 "pending") fallback))
    by (apply Forall_map, Forall_forall; by intros).
  destruct raw as [[] |]; try exact Hf.
  destruct (raw_todos l) eqn:E; [exact Hf |]. rewrite <- E.
  apply Forall_forall; intros x Hx; apply raw_todos_shape in Hx as [H _]; exact H.
Qed.

(** X3: when the planner list holds a dict whose id and label are
    non-blank after stripping, [_normalize_plan_todos] ignores the fallback,
    and every todo it returns has a non-empty label and a stripped id and
    label. *)
Theorem normalize_plan_todos_planner cap items fallback fallback' it :
  PDict it ∈ items ->
  str_truthy (py_strip (py_str (or_value (dict_get it "id") (PStr "")))) = true ->
  str_truthy (py_strip (py_str (or_value (dict_get it "label") (PStr "")))) = true ->
  normalize_plan_todos cap (Some (PList items)) fallback
  = normalize_plan_todos cap (Some (PList items)) fallback'
  /\ Forall (fun t => str_truthy (t_label t) = true /\ py_strip (t_id t) = t_id t
                      /\ py_strip (t_label t) = t_label t)
       (normalize_plan_todos cap (Some (PList items)) fallback).
Proof.
  intros Hin Hid Hlab.
  assert (Hne : raw_todos items <> []).
  { induction items as [| x items IH]; [set_solver |].
    apply elem_of_cons in Hin as [<- | Hin].
    - cbn. rewrite Hid, Hlab. discriminate.
    - cbn. destruct x; try by apply IH.
      destruct (_ && _); [discriminate | by apply IH]. }
  unfold normalize_plan_todos.
  destruct (raw_todos items) as [| t0 r0] eqn:E; [done |].
  rewrite <- E. split; [done |].
  apply Forall_forall. intros t Ht. apply elem_of_take in Ht as (i & Hi & _).
  apply list_elem_of_lookup_2 in Hi.
  eapply elem_of_sublist in Hi; [| apply dedupe_todos_sub].
  apply raw_todos_shape in Hi as (_ & _ & H1 & H2 & H3). by repeat split.
Qed.

Lemma normalize_plan_todos_planner_witness :
  let items := [PStr "x"; PDict [("id", PStr " plan "); ("label", PStr "Plan")]] in
  normalize_plan_todos 10 (Some (PList items)) [("a", "A")]
  = normalize_plan_todos 10 (Some (PList items)) []
  /\ Forall (fun t => str_truthy (t_label t) = true /\ py_strip (t_id t) = t_id t
                      /\ py_strip (t_label t) = t_label t)
       (normalize_plan_todos 10 (Some (PList items)) [("a", "A")]).
Proof.
  apply (normalize_plan_todos_planner 10 _ _ _ [("id", PStr " plan "); ("label", PStr "Plan")]).
  - right. left.
  - reflexivity.
  - reflexivity.
Defined.

(** X4: [_env_flag] of a variable that is set ignores the default, and a
    set variable that is empty or only blanks enables the flag. *)
Theorem env_flag_set getenv name v d d' :
  getenv name = Some v ->
  env_flag getenv name d = env_flag getenv name d'
  /\ (py_strip v = "" -> env_flag getenv name d = true).
Proof. unfold env_flag. intros ->. split; [done |]. intros ->. reflexivity. Qed.

Lemma env_flag_set_witness :
  let getenv := fun n => if String.eqb n "EDIT_VERIFY_RECOVER" then Some " " else None in
  env_flag getenv "EDIT_VERIFY_RECOVER" false = env_flag getenv "EDIT_VERIFY_RECOVER" true
  /\ env_flag getenv "EDIT_VERIFY_RECOVER" false = true.
Proof.
  destruct (env_flag_set (fun n => if String.eqb n "EDIT_VERIFY_RECOVER" then Some " " else None)
              "EDIT_VERIFY_RECOVER" " " false true eq_refl) as [H1 H2].
  split; [exact H1 | exact (H2 eq_refl)].
Defined.

(** X5: [_env_flag] does not depend on the case of the value nor on the
    blanks around it. *)
Theorem env_flag_case_padding getenv name d :
  env_flag (fun n => option_map py_lower (getenv n)) name d = env_flag getenv name d
  /\ env_flag (fun n => option_map py_strip (getenv n)) name d = env_flag getenv name d.
Proof.
  unfold env_flag. destruct (getenv name) as [v |]; cbn; [| done].
  by rewrite py_strip_lower, py_lower_idem, py_strip_idem.
Qed.

(** X6: [_looks_like_verify_failure] does not depend on the case of the
    text. *)
Theorem looks_like_verify_failure_case text :
  EditLoop.looks_like_verify_failure (py_lower text) = EditLoop.looks_like_verify_failure text.
Proof. unfold EditLoop.looks_like_verify_failure. by rewrite py_lower_idem. Qed.

(** X7: the structured verifier issues that VERIFY adds are at most 12 and
    at most the number of reported issues; there are none when [issues] is
    missing or not a list. *)
Theorem structured_issues_bound obj :
  length (EditLoop.structured_issues obj) <= 12
  /\ match dict_get obj "issues" with
     | Some (PList its) => length (EditLoop.structured_issues obj) <= length its
     | _ => EditLoop.structured_issues obj = []
     end.
Proof.
  unfold EditLoop.structured_issues.
  assert (Hfm : forall l : list pyval,
    length (flat_map (fun it => match it with
      | PDict d => [py_str (dict_get_default d "severity" (PStr "error")) +:+ ":" +:+
                    py_str (dict_get_default d "code" (PStr "VERIFY_ISSUE")) +:+ ":" +:+
                    py_str (dict_get_default d "message" (PStr ""))]
      | _ => [] end) l) <= length l).
  { induction l as [| x l IH]; cbn; [lia |]. rewrite length_app. destruct x; cbn; lia. }
  destruct (dict_get obj "issues") as [[] |]; cbn; try (split; [lia | done]).
  split; (etransitivity; [apply Hfm |]); rewrite length_take; lia.
Qed.

(** X8: the lightweight VERIFY checks report nothing exactly when every
    applied edit has a non-empty [elementId] and a non-empty [newContent]. *)
Theorem lightweight_issues_none applied :
  EditLoop.lightweight_issues applied = []
  <-> Forall (fun ed => str_truthy (elementId ed) = true /\ newContent ed <> "") applied.
Proof.
  unfold EditLoop.lightweight_issues. induction applied as [| ed r IH]; cbn.
  - split; constructor.
  - rewrite Forall_cons, <- IH.
    destruct (str_truthy (elementId ed)), (String.eqb_spec (newContent ed) ""); cbn.
    all: split; [intros H | intros [[H1 H2] H3]]; try discriminate; try congruence.
    all: repeat split; auto.
Qed.

(** X9: the grounding check of VERIFY reports nothing exactly when there
    are no allowed ids or every applied edit with a non-empty [elementId]
    names an allowed id. *)
Theorem grounding_issues_none allowed applied :
  EditLoop.grounding_issues allowed applied = []
  <-> allowed = [] \/ Forall (fun ed => str_truthy (elementId ed) = true -> elementId ed ∈ allowed) applied.
Proof.
  unfold EditLoop.grounding_issues, nonempty.
  destruct (bool_decide (allowed = [])) eqn:Ha; cbn.
  - apply bool_decide_eq_true in Ha. split; [by left | done].
  - apply bool_decide_eq_false in Ha. split.
    + intros H. right. induction applied as [| ed r IH]; [constructor |].
      cbn in H. apply app_eq_nil in H as [H1 H2]. constructor; [| by apply IH].
      intros Hs. rewrite Hs in H1. cbn in H1. case_bool_decide; [done | discriminate].
    + intros [-> | H]; [done |]. induction H as [| ed r Hed _ IH]; [done |].
      cbn. rewrite IH. destruct (str_truthy (elementId ed)) eqn:Hs; [| done].
      cbn. rewrite bool_decide_true by (by apply Hed). done.
Qed.

(** X10: in both loops, a second [todo_finish_sweep] right after one
    changes nothing: no event and no status change. *)
Theorem todo_finish_sweep_twice (we : EditLoop.world) (wa : AskLoop.world) :
  EditLoop.todo_finish_sweep (EditLoop.todo_finish_sweep we) = EditLoop.todo_finish_sweep we
  /\ AskLoop.todo_finish_sweep (AskLoop.todo_finish_sweep wa) = AskLoop.todo_finish_sweep wa.
Proof.
  split.
  - unfold EditLoop.todo_finish_sweep.
    pose proof (sweep_core_twice (EditLoop.todos we.1) (default [] (EditLoop.todos we.1))
                  (EditLoop.todo_status we.1) we.2) as H. cbv zeta in H.
    destruct (sweep_core (EditLoop.todos we.1) (default [] (EditLoop.todos we.1))
                (EditLoop.todo_status we.1) we.2) as [ts evs]. cbn [fst snd] in H |- *.
    destruct (edit_set_todo_status_facts ts ts we.1) as (-> & -> & H3). rewrite H. by rewrite H3.
  - unfold AskLoop.todo_finish_sweep.
    pose proof (sweep_core_twice (AskLoop.todos wa.1) (default [] (AskLoop.todos wa.1))
                  (AskLoop.todo_status wa.1) wa.2) as H. cbv zeta in H.
    destruct (sweep_core (AskLoop.todos wa.1) (default [] (AskLoop.todos wa.1))
                (AskLoop.todo_status wa.1) wa.2) as [ts evs]. cbn [fst snd] in H |- *.
    destruct (ask_set_todo_status_facts ts ts wa.1) as (-> & -> & H3). rewrite H. by rewrite H3.
Qed.



End ExtraProperties.

Module AskLoopExtras.
Import AskLoop AskLoopRunInv.

(** X13: along an Ask Loop run the retrieve counter and the iteration
    counter stay between 0 and their budgets (0 for a negative budget). *)
Theorem ask_run_counters_bounded e b i :
  ask_counters_ok b (run_ask_loop e b (init_state i)).2.
Proof.
  apply ask_inv_run.
  - intros m w H. exact H.
  - intros i' st w H. destruct (ask_todo_update_shape i' st w) as (ts & sfx & -> & _). exact H.
  - intros w H. destruct (ask_todo_finish_sweep_shape w) as (ts & sfx & -> & _). exact H.
  - intros v w H. exact H.
  - intros v w H. exact H.
  - intros v w H. exact H.
  - intros ts w _ H. exact H.
  - intros w _ Ha [H1 H2]. split; [cbn; lia | exact H2].
  - intros w Hi [H1 H2]. split; [exact H1 | cbn; lia].
  - intros w H. destruct (ask_budget_exit_shape w) as (sfx & -> & _). exact H.
  - unfold ask_counters_ok; cbn; lia.
Qed.

(** X14: an Ask Loop run emits at most one [plan_todos] event, and none
    before [todos_emitted] is set. *)
Theorem ask_run_plan_todos_once e b i :
  ask_plan_todos_once (run_ask_loop e b (init_state i)).2.
Proof.
  apply ask_inv_run.
  - intros m w [H1 H2]. unfold ask_plan_todos_once, emit. cbn [fst snd].
    rewrite count_events_snoc. cbn. rewrite Nat.add_0_r. by split.
  - intros i' st w [H1 H2]. destruct (ask_todo_update_shape i' st w) as (ts & sfx & -> & F).
    unfold ask_plan_todos_once. cbn [fst snd]. rewrite count_events_updates by done. by split.
  - intros w [H1 H2]. destruct (ask_todo_finish_sweep_shape w) as (ts & sfx & -> & F).
    unfold ask_plan_todos_once. cbn [fst snd]. rewrite count_events_updates by done. by split.
  - intros v w H. exact H.
  - intros v w H. exact H.
  - intros v w H. exact H.
  - intros ts w He [H1 H2]. unfold ask_plan_todos_once, emit, upd. cbn [fst snd].
    rewrite count_events_snoc, (H2 He). cbn. split; [lia | discriminate].
  - intros w _ _ H. exact H.
  - intros w _ H. exact H.
  - intros w [H1 H2]. destruct (ask_budget_exit_shape w) as (sfx & -> & F).
    unfold ask_plan_todos_once. cbn [fst snd]. rewrite app_assoc, count_events_updates by done.
    rewrite count_events_snoc. cbn. rewrite Nat.add_0_r. by split.
  - split; cbn; lia.
Qed.

End AskLoopExtras.

Module EditLoopExtras.
Import EditLoop EditLoopRunInv.

(** X15: along an Edit Loop run [context_size] stays between 3 and 8. *)
Theorem edit_run_context_size e b i :
  edit_context_size_ok (edit_run_world (run_edit_loop e b (init_state i))).
Proof.
  apply edit_inv_run; unfold edit_context_size_ok; try (intros; assumption).
  - intros i' st w H. destruct (edit_todo_update_shape i' st w) as (ts & sfx & -> & _). exact H.
  - intros w H. destruct (edit_todo_finish_sweep_shape w) as (ts & sfx & -> & _). exact H.
  - intros w H. cbn. lia.
  - intros w H. cbn. lia.
  - cbn. lia.
Qed.

(** X16: an Edit Loop run emits at most one [plan_todos] event and at most
    one [apply_started] event, none before the matching flag is set. *)
Theorem edit_run_once_events e b i :
  edit_once_events (edit_run_world (run_edit_loop e b (init_state i))).
Proof.
  apply edit_inv_run; unfold edit_once_events; try (intros; assumption).
  - intros m w H. unfold emit. cbn [fst snd]. rewrite !count_events_snoc. cbn.
    rewrite !Nat.add_0_r. exact H.
  - intros w H. unfold emit. cbn [fst snd]. rewrite !count_events_snoc. cbn.
    rewrite !Nat.add_0_r. exact H.
  - intros i' st w H. destruct (edit_todo_update_shape i' st w) as (ts & sfx & -> & F).
    cbn [fst snd]. rewrite !count_events_updates by done. exact H.
  - intros w H. destruct (edit_todo_finish_sweep_shape w) as (ts & sfx & -> & F).
    cbn [fst snd]. rewrite !count_events_updates by done. exact H.
  - intros ts w He (H1 & H2 & H3 & H4). unfold emit, upd. cbn [fst snd].
    rewrite !count_events_snoc, (H2 He). cbn. rewrite Nat.add_0_r.
    split; [lia | split; [discriminate | split; assumption]].
  - intros ids w He (H1 & H2 & H3 & H4). unfold emit, upd. cbn [fst snd].
    rewrite !count_events_snoc, (H4 He). cbn. rewrite Nat.add_0_r.
    split; [assumption | split; [assumption | split; [lia | discriminate]]].
  - cbn. repeat split; lia.
Qed.

(** X17: along an Edit Loop run the locate, refine, verify and iteration
    counters stay between 0 and their budgets (0 for a negative budget). *)
Theorem edit_run_attempts_bounded e b i :
  edit_attempts_bounded b (edit_run_world (run_edit_loop e b (init_state i))).
Proof.
  apply edit_inv_run; unfold edit_attempts_bounded; try (intros; assumption).
  - intros i' st w H. destruct (edit_todo_update_shape i' st w) as (ts & sfx & -> & _). exact H.
  - intros w H. destruct (edit_todo_finish_sweep_shape w) as (ts & sfx & -> & _). exact H.
  - intros w _ Hl (H1 & H2 & H3 & H4). cbn. repeat split; lia.
  - intros w _ Hl (H1 & H2 & H3 & H4). cbn. repeat split; lia.
  - intros w Hl (H1 & H2 & H3 & H4). cbn. repeat split; lia.
  - intros w Hl (H1 & H2 & H3 & H4). cbn. repeat split; lia.
  - cbn. repeat split; lia.
Qed.

End EditLoopExtras.
